(** * Fleet package-policy service (x-pack/plugins/fleet/server/services/package_policy.ts)

    A shallow embedding of [PackagePolicyService] and of the template
    compilation helpers that follow it in the same file, together with the
    properties of the service that the specification states.

    The service is asynchronous glue between collaborators: the
    saved-objects client, the agent-policy service, the package registry,
    the template engine, [uuid] and the clock.  Every service function is
    embedded as a computation that threads the state of the outside world,
    may be rejected with an exception, and records each call it makes to a
    collaborator.  The collaborators themselves are a record of operations
    over an arbitrary world, so what is proved about the service holds
    whatever the collaborators do; an in-memory implementation of them
    follows the service and is used to run it on concrete inputs. *)

From Stdlib Require Import ZArith Lia Ascii String.
From stdpp Require Import base option list gmap strings pretty.

Open Scope Z_scope.

(* ================================================================== *)
(** * JavaScript values used by the service *)
(* ================================================================== *)

(** [if (s)] on an optional string: [undefined] and [''] are falsy. *)
Definition truthy (s : option string) : bool :=
  match s with
  | Some s => negb (String.eqb s "")
  | None => false
  end.

(** A template literal prints an absent value as [undefined]. *)
Definition interpolate (s : option string) : string :=
  match s with
  | Some s => s
  | None => "undefined"
  end.

(** [s.endsWith(suffix)] *)
Definition endsWith (s suffix : string) : bool :=
  let n := String.length s in
  let m := String.length suffix in
  if (m <=? n)%nat then String.eqb (String.substring (n - m) m s) suffix else false.

(** [s.split(sep)] for a one-character separator. *)
Fixpoint split_from (sep : ascii) (cur : string) (s : string) : list string :=
  match s with
  | EmptyString => [cur]
  | String c s' =>
      if Ascii.eqb c sep then cur :: split_from sep "" s'
      else split_from sep (cur +:+ String c "") s'
  end.

Definition split (sep : ascii) (s : string) : list string := split_from sep "" s.

(** A JavaScript number that holds an integer, as [revision] does:
    [create] writes 1 and [update] adds 1.  Numbers are IEEE 754 doubles,
    with 53 bits of precision.  [js_round x] is the double nearest to the
    integer [x], the one with the even significand when two are as near;
    every integer up to 2^53 in absolute value is a double.  (Doubles end
    near 2^1024; adding 1 to a double never leaves them.) *)
Definition js_round (x : Z) : Z :=
  let a := Z.abs x in
  if a <=? 2 ^ 53 then x
  else
    let ulp := 2 ^ (Z.log2 a - 52) in
    let q := a / ulp in
    let r := a mod ulp in
    let q' := if 2 * r <? ulp then q
              else if ulp <? 2 * r then q + 1
              else if Z.even q then q else q + 1 in
    Z.sgn x * (q' * ulp).

(** [a + b] on numbers that hold integers. *)
Definition js_add (a b : Z) : Z := js_round (a + b).

(** [function getDataset(st) { return st.split('.')[1]; }] *)
Definition getDataset (st : string) : option string :=
  split "."%char st !! 1%nat.

(** Thrown values.  The file throws plain [Error]s and, for the
    managed-policy rule, [IngestManagerError]s. *)
Inductive Exn :=
| Error (message : string)
| IngestManagerError (message : string).

Definition exn_message (e : Exn) : string :=
  match e with Error m | IngestManagerError m => m end.

(** How a promise settles. *)
Inductive Outcome (A : Type) :=
| Resolved (a : A)
| Rejected (e : Exn).
Arguments Resolved {A} a.
Arguments Rejected {A} e.

(* ================================================================== *)
(** * Data model *)
(* ================================================================== *)

(** Modelled from the spec: the type declarations ([../types],
    [../../common]) are not part of the sources at hand; the records below
    follow section 3 of the specification and the fields the service
    reads and writes. *)

(** A value bound to a variable name. *)
Inductive ConfigValue :=
| VNum (n : Z)
| VStr (s : string)
| VBool (b : bool).

(** [PackagePolicyConfigRecord]: variable name to value. *)
Abbreviation Vars := (gmap string ConfigValue).

(** The result of rendering a template. *)
Abbreviation Yaml := string.

Record DataStream := {
  dataset : string;
  ds_type : string;
}.

(** A stream.  [s_id] and [s_compiled_stream] are absent on a stream that
    has not been through the service yet. *)
Record PackagePolicyInputStream := {
  s_id : option string;
  s_enabled : bool;
  s_data_stream : DataStream;
  s_vars : option Vars;
  s_config : option Vars;
  s_compiled_stream : option Yaml;
}.

Record PackagePolicyInput := {
  i_type : string;
  i_enabled : bool;
  i_vars : option Vars;
  i_config : option Vars;
  i_streams : list PackagePolicyInputStream;
  i_compiled_input : option Yaml;
}.

Record PackagePolicyPackage := {
  pkg_name : string;
  pkg_title : string;
  pkg_version : string;
}.

Record NewPackagePolicy := {
  np_name : string;
  np_description : option string;
  np_namespace : string;
  np_enabled : bool;
  np_policy_id : string;
  np_output_id : string;
  np_package : option PackagePolicyPackage;
  np_inputs : list PackagePolicyInput;
}.

(** [UpdatePackagePolicy extends NewPackagePolicy] with the version token
    the caller read. *)
Record UpdatePackagePolicy := {
  u_version : option string;
  u_rest : NewPackagePolicy;
}.

(** What is stored for a package policy.  [revision] is a JavaScript
    number that only ever holds a counter: it is an integer here, and
    arithmetic on it is that of doubles, [js_add]. *)
Record PackagePolicySOAttributes := {
  a_name : string;
  a_description : option string;
  a_namespace : string;
  a_enabled : bool;
  a_policy_id : string;
  a_output_id : string;
  a_package : option PackagePolicyPackage;
  a_inputs : list PackagePolicyInput;
  a_revision : Z;
  a_created_at : string;
  a_created_by : string;
  a_updated_at : string;
  a_updated_by : string;
}.

(** The attributes [update] writes: everything but the creation stamp. *)
Record PackagePolicyUpdateAttributes := {
  ua_name : string;
  ua_description : option string;
  ua_namespace : string;
  ua_enabled : bool;
  ua_policy_id : string;
  ua_output_id : string;
  ua_package : option PackagePolicyPackage;
  ua_inputs : list PackagePolicyInput;
  ua_revision : Z;
  ua_updated_at : string;
  ua_updated_by : string;
}.

Record PackagePolicy := {
  pp_id : string;
  pp_version : option string;
  pp_name : string;
  pp_description : option string;
  pp_namespace : string;
  pp_enabled : bool;
  pp_policy_id : string;
  pp_output_id : string;
  pp_package : option PackagePolicyPackage;
  pp_inputs : list PackagePolicyInput;
  pp_revision : Z;
  pp_created_at : string;
  pp_created_by : string;
  pp_updated_at : string;
  pp_updated_by : string;
}.

Record SavedObjectError := {
  soe_message : string;
  soe_statusCode : Z;
}.

(** A saved object as the store returns it. *)
Record SavedObject := {
  so_id : string;
  so_version : option string;
  so_attributes : PackagePolicySOAttributes;
  so_error : option SavedObjectError;
}.

Record AgentPolicy := {
  ap_id : string;
  ap_is_managed : bool;
  ap_package_policies : list PackagePolicy;
}.

Record AuthenticatedUser := {
  username : string;
}.

(** Package metadata: per-input and per-dataset template paths. *)
Record RegistryInput := {
  ri_type : string;
  ri_template_path : option string;
}.

Record PolicyTemplate := {
  pt_inputs : option (list RegistryInput);
  pt_multiple : option bool;
}.

Record RegistryStream := {
  rs_input : string;
  rs_template_path : option string;
}.

Record RegistryDataStream := {
  rd_dataset : string;
  rd_streams : option (list RegistryStream);
}.

Record PackageInfo := {
  pi_name : string;
  pi_version : string;
  pi_policy_templates : option (list PolicyTemplate);
  pi_data_streams : option (list RegistryDataStream);
}.

(** An archive entry returned by [getAssetsData]; the buffer is
    represented by its text. *)
Record ArchiveEntry := {
  ae_path : string;
  ae_buffer : option string;
}.

(** The registry's own description of a package, handed back to
    [getAssetsData] untouched. *)
Record RegistryPackage := {
  rp_name : string;
  rp_version : string;
}.

(** What [ingestErrorToResponseOptions] makes of a thrown value. *)
Record ResponseOptions := {
  ro_statusCode : option Z;
  ro_body : option string;
}.

(** One entry of [DeletePackagePoliciesResponse]. *)
Record DeleteResult := {
  dr_id : string;
  dr_name : option string;
  dr_success : bool;
  dr_statusCode : option Z;
  dr_body : option string;
}.

Inductive ExternalCallbackType :=
| packagePolicyCreate
| packagePolicyUpdate.

(** Options of [create], [bulkCreate], [update] and [delete]. *)
Record CreateOptions := {
  co_id : option string;
  co_user : option AuthenticatedUser;
  co_bumpRevision : option bool;
}.

Record BulkCreateOptions := {
  bo_user : option AuthenticatedUser;
  bo_bumpRevision : option bool;
}.

Record UpdateOptions := {
  uo_user : option AuthenticatedUser;
}.

Record DeleteOptions := {
  do_user : option AuthenticatedUser;
  do_skipUnassignFromAgentPolicies : option bool;
}.

(* ================================================================== *)
(** * Calls to collaborators *)
(* ================================================================== *)

(** Every call the service makes to a collaborator, with the arguments
    the service chose.  A path predicate handed to [getAssetsData] is
    always [path => path.endsWith(suffix)]; the event keeps the suffix. *)
Inductive Event :=
| UuidV4
| DateNow
| SoCreate (id : string) (attributes : PackagePolicySOAttributes)
| SoBulkCreate (objects : list (string * PackagePolicySOAttributes))
| SoGet (id : string)
| SoUpdate (id : string) (attributes : PackagePolicyUpdateAttributes)
    (version : option string)
| SoDelete (id : string)
| AgentPolicyGet (id : string) (withPackagePolicies : option bool)
| AssignPackagePolicies (agentPolicyId : string) (ids : list string)
    (user : option AuthenticatedUser) (bumpRevision : bool)
| UnassignPackagePolicies (agentPolicyId : string) (ids : list string)
    (user : option AuthenticatedUser)
| BumpRevision (agentPolicyId : string) (user : option AuthenticatedUser)
| EnsureInstalledPackage (pkgName : string)
| GetPackageInfo (pkgName pkgVersion : string)
| FetchInfo (name version : string)
| GetAssetsData (pathSuffix : string) (datasetPath : option string)
| CompileTemplate (variables : Vars) (template : string)
| GetExternalCallbacks (kind : ExternalCallbackType)
| ExternalCallbackCall (argument : NewPackagePolicy)
| SchemaValidate (kind : ExternalCallbackType) (value : NewPackagePolicy).

(* ================================================================== *)
(** * Asynchronous computations *)
(* ================================================================== *)

(** An [async] function: from the state of the world to how its promise
    settles, the world it leaves, and the collaborator calls it made, in
    order.  [await] is sequencing; a rejected promise skips the rest. *)
Definition M (W A : Type) : Type := W -> Outcome A * W * list Event.

Global Instance M_ret {W} : MRet (M W) := fun A a w => (Resolved a, w, []).

Global Instance M_bind {W} : MBind (M W) := fun A B k m w =>
  match m w with
  | (Resolved a, w1, t1) =>
      match k a w1 with
      | (r, w2, t2) => (r, w2, t1 ++ t2)
      end
  | (Rejected e, w1, t1) => (Rejected e, w1, t1)
  end.

(** [throw e] *)
Definition throw {W A} (e : Exn) : M W A := fun w => (Rejected e, w, []).

(** [try { body } catch (error) { handler }] *)
Definition try_catch {W A} (body : M W A) (handler : Exn -> M W A) : M W A :=
  fun w =>
    match body w with
    | (Resolved a, w1, t1) => (Resolved a, w1, t1)
    | (Rejected e, w1, t1) =>
        match handler e w1 with
        | (r, w2, t2) => (r, w2, t1 ++ t2)
        end
    end.

(** A call to a collaborator that may reject. *)
Definition call {W A} (ev : Event) (op : W -> Outcome A * W) : M W A :=
  fun w => match op w with (r, w') => (r, w', [ev]) end.

(** A call to a collaborator that always answers. *)
Definition call_total {W A} (ev : Event) (op : W -> A * W) : M W A :=
  fun w => match op w with (a, w') => (Resolved a, w', [ev]) end.

(** A call to a function of its arguments only. *)
Definition call_pure {W A} (ev : Event) (r : Outcome A) : M W A :=
  fun w => (r, w, [ev]).

(** [xs.map(f)] for an [f] with effects, and a run of [await]s over the
    elements of [xs]: the elements are taken in order, one after the
    other, and a rejection ends the run. *)
Fixpoint mapM {W A B} (f : A -> M W B) (xs : list A) : M W (list B) :=
  match xs with
  | [] => mret []
  | x :: xs' => y ← f x; ys ← mapM f xs'; mret (y :: ys)
  end.

(** [Promise.all(xs.map(f))] for an [async] function [f]: every task is
    started and runs to its end, also when another one is rejected.  The
    promise resolves with the results of all the tasks, in the order of
    [xs], when all of them resolved, and is rejected when one of them
    was.  The calls listed are those of all the tasks, also the calls a
    task makes after another one was rejected.

    The tasks are taken one after the other here, in the order they are
    started, and of several rejections that of the earliest task is
    kept.  In the code the calls of the tasks interleave (a task runs on
    while another awaits), and the rejection kept is the one that comes
    first in time.  What a task is given, the calls it makes on each
    answer of its collaborators and what it resolves with do not depend
    on the interleaving; the order of the calls of different tasks in the
    list, and which of several rejections is kept, do. *)
Fixpoint Promise_all {W A B} (f : A -> M W B) (xs : list A) : M W (list B) :=
  match xs with
  | [] => mret []
  | x :: xs' =>
      fun w =>
        match f x w with
        | (r, w1, t1) =>
            match Promise_all f xs' w1 with
            | (rs, w2, t2) =>
                (match r, rs with
                 | Resolved y, Resolved ys => Resolved (y :: ys)
                 | Rejected e, _ => Rejected e
                 | Resolved _, Rejected e => Rejected e
                 end, w2, t1 ++ t2)
            end
        end
  end.

(** [Promise.all([p, q])] of two promises, [p] started before [q]: both
    calls are made, whatever becomes of the other. *)
Definition Promise_all2 {W A B} (p : M W A) (q : M W B) : M W (A * B) :=
  fun w =>
    match p w with
    | (ra, w1, t1) =>
        match q w1 with
        | (rb, w2, t2) =>
            (match ra, rb with
             | Resolved a, Resolved b => Resolved (a, b)
             | Rejected e, _ => Rejected e
             | Resolved _, Rejected e => Rejected e
             end, w2, t1 ++ t2)
        end
    end.

(** [for (const x of xs) { acc = await body(acc, x) }] *)
Fixpoint for_of {W A B} (xs : list A) (body : B -> A -> M W B) (acc : B)
  : M W B :=
  match xs with
  | [] => mret acc
  | x :: xs' => acc' ← body acc x; for_of xs' body acc'
  end.

(* ================================================================== *)
(** * Collaborators *)
(* ================================================================== *)

(** A registered external callback.  The request context and the request
    are handed to every callback unchanged; a callback here is closed
    over them. *)
Definition ExternalCallbackFn (W : Type) : Type :=
  NewPackagePolicy -> W -> Outcome NewPackagePolicy * W.

(** Modelled from the spec: the collaborators of section 6 of the
    specification (document store, agent-policy service, package registry
    and install service, template engine), with [uuid], the clock, the
    helpers imported from [../../common] and [../errors], the schemas and
    the callback registry of the plugin.  None of them is part of the
    sources at hand, so each is an operation over a world [W] about which
    nothing is assumed. *)
Record Collaborators (W : Type) := {
  (** [uuid.v4()] *)
  uuid_v4 : W -> string * W;
  (** [new Date().toISOString()] *)
  toISOString_now : W -> string * W;
  (** [soClient.create(SAVED_OBJECT_TYPE, attributes, { id })] *)
  soClient_create :
    PackagePolicySOAttributes -> string -> W -> Outcome SavedObject * W;
  (** [soClient.bulkCreate(objects)], answering [saved_objects] *)
  soClient_bulkCreate :
    list (string * PackagePolicySOAttributes) -> W ->
    Outcome (list SavedObject) * W;
  (** [soClient.get(SAVED_OBJECT_TYPE, id)] *)
  soClient_get : string -> W -> Outcome (option SavedObject) * W;
  (** [soClient.update(SAVED_OBJECT_TYPE, id, attributes, { version })] *)
  soClient_update :
    string -> PackagePolicyUpdateAttributes -> option string -> W ->
    Outcome () * W;
  (** [soClient.delete(SAVED_OBJECT_TYPE, id)] *)
  soClient_delete : string -> W -> Outcome () * W;
  (** [agentPolicyService.get(soClient, id, withPackagePolicies?)] *)
  agentPolicyService_get :
    string -> option bool -> W -> Outcome (option AgentPolicy) * W;
  (** [agentPolicyService.assignPackagePolicies(soClient, esClient,
      agentPolicyId, ids, { user, bumpRevision })] *)
  agentPolicyService_assignPackagePolicies :
    string -> list string -> option AuthenticatedUser -> bool -> W ->
    Outcome () * W;
  (** [agentPolicyService.unassignPackagePolicies(soClient, esClient,
      agentPolicyId, ids, { user })] *)
  agentPolicyService_unassignPackagePolicies :
    string -> list string -> option AuthenticatedUser -> W -> Outcome () * W;
  (** [agentPolicyService.bumpRevision(soClient, esClient, agentPolicyId,
      { user })] *)
  agentPolicyService_bumpRevision :
    string -> option AuthenticatedUser -> W -> Outcome () * W;
  (** [ensureInstalledPackage({ savedObjectsClient, pkgName, callCluster })] *)
  ensureInstalledPackage : string -> W -> Outcome () * W;
  (** [getPackageInfo({ savedObjectsClient, pkgName, pkgVersion })] *)
  getPackageInfo : string -> string -> W -> Outcome PackageInfo * W;
  (** [Registry.fetchInfo(name, version)] *)
  Registry_fetchInfo : string -> string -> W -> Outcome RegistryPackage * W;
  (** [getAssetsData(registryPkgInfo, pathFilter, datasetName?)] *)
  getAssetsData :
    RegistryPackage -> (string -> bool) -> option string -> W ->
    Outcome (list ArchiveEntry) * W;
  (** [compileTemplate(variables, templateStr)] *)
  compileTemplate : Vars -> string -> Outcome Yaml;
  (** [isPackageLimited(pkgInfo)] *)
  isPackageLimited : PackageInfo -> bool;
  (** [doesAgentPolicyAlreadyIncludePackage(agentPolicy, pkgName)] *)
  doesAgentPolicyAlreadyIncludePackage : AgentPolicy -> string -> bool;
  (** [ingestErrorToResponseOptions(error)] *)
  ingestErrorToResponseOptions : Exn -> ResponseOptions;
  (** [appContextService.getExternalCallbacks(type)]: the registered
      callbacks in insertion order, or [undefined] *)
  getExternalCallbacks :
    ExternalCallbackType -> W -> option (list (ExternalCallbackFn W));
  (** [NewPackagePolicySchema.validate(value)] *)
  NewPackagePolicySchema_validate :
    NewPackagePolicy -> Outcome NewPackagePolicy;
  (** [UpdatePackagePolicySchema.validate(value)] *)
  UpdatePackagePolicySchema_validate :
    NewPackagePolicy -> Outcome NewPackagePolicy;
}.

Arguments uuid_v4 {W} _.
Arguments toISOString_now {W} _.
Arguments soClient_create {W} _.
Arguments soClient_bulkCreate {W} _.
Arguments soClient_get {W} _.
Arguments soClient_update {W} _.
Arguments soClient_delete {W} _.
Arguments agentPolicyService_get {W} _.
Arguments agentPolicyService_assignPackagePolicies {W} _.
Arguments agentPolicyService_unassignPackagePolicies {W} _.
Arguments agentPolicyService_bumpRevision {W} _.
Arguments ensureInstalledPackage {W} _.
Arguments getPackageInfo {W} _.
Arguments Registry_fetchInfo {W} _.
Arguments getAssetsData {W} _.
Arguments compileTemplate {W} _.
Arguments isPackageLimited {W} _.
Arguments doesAgentPolicyAlreadyIncludePackage {W} _.
Arguments ingestErrorToResponseOptions {W} _.
Arguments getExternalCallbacks {W} _.
Arguments NewPackagePolicySchema_validate {W} _.
Arguments UpdatePackagePolicySchema_validate {W} _.

(* ================================================================== *)
(** * The service *)
(* ================================================================== *)

(** [{ ...stream, id }] *)
Definition stream_with_id (stream : PackagePolicyInputStream) (id : string)
  : PackagePolicyInputStream :=
  {| s_id := Some id;
     s_enabled := s_enabled stream;
     s_data_stream := s_data_stream stream;
     s_vars := s_vars stream;
     s_config := s_config stream;
     s_compiled_stream := s_compiled_stream stream |}.

(** [{ ...stream, compiled_stream }] *)
Definition stream_with_compiled_stream (stream : PackagePolicyInputStream)
    (compiled_stream : option Yaml) : PackagePolicyInputStream :=
  {| s_id := s_id stream;
     s_enabled := s_enabled stream;
     s_data_stream := s_data_stream stream;
     s_vars := s_vars stream;
     s_config := s_config stream;
     s_compiled_stream := compiled_stream |}.

(** [{ ...input, streams }] *)
Definition input_with_streams (input : PackagePolicyInput)
    (streams : list PackagePolicyInputStream) : PackagePolicyInput :=
  {| i_type := i_type input;
     i_enabled := i_enabled input;
     i_vars := i_vars input;
     i_config := i_config input;
     i_streams := streams;
     i_compiled_input := i_compiled_input input |}.

(** [{ ...input, compiled_input, streams }] *)
Definition input_with_compiled (input : PackagePolicyInput)
    (compiled_input : option Yaml) (streams : list PackagePolicyInputStream)
  : PackagePolicyInput :=
  {| i_type := i_type input;
     i_enabled := i_enabled input;
     i_vars := i_vars input;
     i_config := i_config input;
     i_streams := streams;
     i_compiled_input := compiled_input |}.

(** [{ id: so.id, version: so.version, ...so.attributes }] *)
Definition packagePolicy_of_so (so : SavedObject) : PackagePolicy :=
  let a := so_attributes so in
  {| pp_id := so_id so;
     pp_version := so_version so;
     pp_name := a_name a;
     pp_description := a_description a;
     pp_namespace := a_namespace a;
     pp_enabled := a_enabled a;
     pp_policy_id := a_policy_id a;
     pp_output_id := a_output_id a;
     pp_package := a_package a;
     pp_inputs := a_inputs a;
     pp_revision := a_revision a;
     pp_created_at := a_created_at a;
     pp_created_by := a_created_by a;
     pp_updated_at := a_updated_at a;
     pp_updated_by := a_updated_by a |}.

(** [Object.assign(target, ...sources)]: each source in turn writes its
    keys over the target; an [undefined] source is skipped.  The union of
    maps keeps the left operand's value on a common key. *)
Definition Object_assign (target : Vars) (sources : list (option Vars)) : Vars :=
  foldl (fun acc source =>
           match source with
           | Some m => m ∪ acc
           | None => acc
           end) target sources.

(** [options?.user?.username ?? 'system'] *)
Definition username_or_system (user : option AuthenticatedUser) : string :=
  match user with
  | Some u => username u
  | None => "system"
  end.

(** [`${input.type}-${stream.data_stream.dataset}-${packagePolicyId}`] *)
Definition stream_id (packagePolicyId : string) (input : PackagePolicyInput)
    (stream : PackagePolicyInputStream) : string :=
  i_type input +:+ "-" +:+ dataset (s_data_stream stream) +:+ "-" +:+
  packagePolicyId.

Definition assignStreamIdToInput (packagePolicyId : string)
    (input : PackagePolicyInput) : PackagePolicyInput :=
  input_with_streams input
    (map (fun stream => stream_with_id stream
                          (stream_id packagePolicyId input stream))
         (i_streams input)).

(** [pkgInfo.policy_templates?.[0]?.inputs], when it has a length that
    is not zero. *)
Definition policy_template_inputs (pkgInfo : PackageInfo)
  : option (list RegistryInput) :=
  match pi_policy_templates pkgInfo with
  | Some (template :: _) =>
      match pt_inputs template with
      | Some (pkgInput :: rest) => Some (pkgInput :: rest)
      | Some [] | None => None
      end
  | Some [] | None => None
  end.

Definition SAME_NAME_MESSAGE : string :=
  "There is already a package with the same name on this agent policy".

Section Compiler.
Context {W : Type} (c : Collaborators W).

(** The condition of the first [if] is
    [(!input.enabled || !pkgInfo.policy_templates?.[0]?.inputs?.length) ?? 0 > 0];
    its left operand is a boolean, never [null] or [undefined], so the
    condition is that operand. *)
Definition _compilePackagePolicyInput (registryPkgInfo : RegistryPackage)
    (pkgInfo : PackageInfo) (input : PackagePolicyInput)
  : M W (option Yaml) :=
  match i_enabled input, policy_template_inputs pkgInfo with
  | false, _ | _, None => mret None
  | true, Some packageInputs =>
      match List.find (fun pkgInput => String.eqb (ri_type pkgInput) (i_type input))
              packageInputs with
      | None =>
          throw (Error ("Input template not found, unable to find input type "
                        +:+ i_type input))
      | Some packageInput =>
          if negb (truthy (ri_template_path packageInput)) then mret None
          else
            let template_path := interpolate (ri_template_path packageInput) in
            let suffix := "/agent/input/" +:+ template_path in
            assets ← call (GetAssetsData suffix None)
                       (getAssetsData c registryPkgInfo
                          (fun path => endsWith path suffix) None);
            match head assets ≫= ae_buffer with
            | None =>
                throw (Error ("Unable to load input template at /agent/input/"
                              +:+ template_path))
            | Some buffer =>
                let variables := Object_assign ∅ [i_vars input] in
                yaml ← call_pure (CompileTemplate variables buffer)
                         (compileTemplate c variables buffer);
                mret (Some yaml)
            end
      end
  end.

(** The last two statements, [stream.compiled_stream = yaml; return
    { ...stream }], also write the artifact into the stream object that
    was passed in.  [create] and [update] pass the copies made by
    [assignStreamIdToInput] and read them no more; the value returned is
    what is kept here. *)
Definition _compilePackageStream (registryPkgInfo : RegistryPackage)
    (pkgInfo : PackageInfo) (input : PackagePolicyInput)
    (stream : PackagePolicyInputStream) : M W PackagePolicyInputStream :=
  if negb (s_enabled stream) then
    mret (stream_with_compiled_stream stream None)
  else
    let datasetPath := getDataset (dataset (s_data_stream stream)) in
    match pi_data_streams pkgInfo with
    | None => throw (Error "Stream template not found, no data streams")
    | Some packageDataStreams =>
        match List.find (fun pkgDataStream =>
                           String.eqb (rd_dataset pkgDataStream)
                                      (dataset (s_data_stream stream)))
                packageDataStreams with
        | None =>
            throw (Error ("Stream template not found, unable to find dataset "
                          +:+ interpolate datasetPath))
        | Some packageDataStream =>
            match List.find (fun pkgStream =>
                               String.eqb (rs_input pkgStream) (i_type input))
                    (default [] (rd_streams packageDataStream)) with
            | None =>
                throw (Error ("Stream template not found, unable to find stream for input "
                              +:+ i_type input))
            | Some streamFromPkg =>
                if negb (truthy (rs_template_path streamFromPkg)) then
                  throw (Error ("Stream template path not found for dataset "
                                +:+ interpolate datasetPath))
                else
                  let template_path :=
                    interpolate (rs_template_path streamFromPkg) in
                  assets ← call (GetAssetsData template_path datasetPath)
                             (getAssetsData c registryPkgInfo
                                (fun path => endsWith path template_path)
                                datasetPath);
                  match head assets ≫= ae_buffer with
                  | None =>
                      throw (Error ("Unable to load stream template "
                                    +:+ template_path +:+ " for dataset "
                                    +:+ interpolate datasetPath))
                  | Some buffer =>
                      let variables :=
                        Object_assign ∅ [i_vars input; s_vars stream] in
                      yaml ← call_pure (CompileTemplate variables buffer)
                               (compileTemplate c variables buffer);
                      mret (stream_with_compiled_stream stream (Some yaml))
                  end
            end
        end
    end.

Definition _compilePackageStreams (registryPkgInfo : RegistryPackage)
    (pkgInfo : PackageInfo) (input : PackagePolicyInput)
  : M W (list PackagePolicyInputStream) :=
  Promise_all (_compilePackageStream registryPkgInfo pkgInfo input)
    (i_streams input).

End Compiler.

(** The methods of [class PackagePolicyService]. *)
Module PackagePolicyService.
Section Methods.
Context {W : Type} (c : Collaborators W).

Definition compilePackagePolicyInputs (pkgInfo : PackageInfo)
    (inputs : list PackagePolicyInput) : M W (list PackagePolicyInput) :=
  registryPkgInfo ← call (FetchInfo (pi_name pkgInfo) (pi_version pkgInfo))
                      (Registry_fetchInfo c (pi_name pkgInfo) (pi_version pkgInfo));
  Promise_all
    (fun input =>
       compiledInput ← _compilePackagePolicyInput c registryPkgInfo pkgInfo input;
       compiledStreams ← _compilePackageStreams c registryPkgInfo pkgInfo input;
       mret (input_with_compiled input compiledInput compiledStreams))
    inputs.

(** [get]: [null] when the store has nothing, rejected when the saved
    object carries an error. *)
Definition get (id : string) : M W (option PackagePolicy) :=
  packagePolicySO ← call (SoGet id) (soClient_get c id);
  match packagePolicySO with
  | None => mret None
  | Some packagePolicySO =>
      match so_error packagePolicySO with
      | Some error => throw (Error (soe_message error))
      | None => mret (Some (packagePolicy_of_so packagePolicySO))
      end
  end.

(** [options?.id || uuid.v4()]: [uuid.v4] is called only when no id, or
    the empty one, is supplied. *)
Definition choose_id (id : option string) : M W string :=
  if truthy id then mret (default "" id)
  else call_total UuidV4 (uuid_v4 c).

(** The attributes [create] and [bulkCreate] persist:
    [{ ...packagePolicy, inputs, (policy_id,) revision: 1, created_at,
       created_by, updated_at, updated_by }]. *)
Definition new_attributes (packagePolicy : NewPackagePolicy)
    (inputs : list PackagePolicyInput) (policy_id : string)
    (isoDate : string) (user : option AuthenticatedUser)
  : PackagePolicySOAttributes :=
  {| a_name := np_name packagePolicy;
     a_description := np_description packagePolicy;
     a_namespace := np_namespace packagePolicy;
     a_enabled := np_enabled packagePolicy;
     a_policy_id := policy_id;
     a_output_id := np_output_id packagePolicy;
     a_package := np_package packagePolicy;
     a_inputs := inputs;
     a_revision := 1;
     a_created_at := isoDate;
     a_created_by := username_or_system user;
     a_updated_at := isoDate;
     a_updated_by := username_or_system user |}.

(** [const [, pkgInfo] = await Promise.all([ensureInstalledPackage(..),
    getPackageInfo(..)])]: both calls are made, in this order. *)
Definition create (packagePolicy : NewPackagePolicy)
    (options : option CreateOptions) : M W PackagePolicy :=
  let user := options ≫= co_user in
  parentAgentPolicy ←
    call (AgentPolicyGet (np_policy_id packagePolicy) None)
      (agentPolicyService_get c (np_policy_id packagePolicy) None);
  match parentAgentPolicy with
  | None => throw (Error "Agent policy not found")
  | Some parentAgentPolicy =>
      if ap_is_managed parentAgentPolicy then
        throw (IngestManagerError
                 ("Cannot add integrations to managed policy "
                  +:+ ap_id parentAgentPolicy))
      else
        match List.find (fun siblingPackagePolicy =>
                           String.eqb (pp_name siblingPackagePolicy)
                                      (np_name packagePolicy))
                (ap_package_policies parentAgentPolicy) with
        | Some _ => throw (Error SAME_NAME_MESSAGE)
        | None =>
            packagePolicyId ← choose_id (options ≫= co_id);
            let inputs :=
              map (assignStreamIdToInput packagePolicyId)
                  (np_inputs packagePolicy) in
            inputs ←
              match np_package packagePolicy with
              | Some package =>
                  if truthy (Some (pkg_name package)) then
                    '(_, pkgInfo) ←
                      Promise_all2
                        (call (EnsureInstalledPackage (pkg_name package))
                           (ensureInstalledPackage c (pkg_name package)))
                        (call (GetPackageInfo (pkg_name package)
                                 (pkg_version package))
                           (getPackageInfo c (pkg_name package)
                              (pkg_version package)));
                    _ ←
                      (if isPackageLimited c pkgInfo then
                         agentPolicy ←
                           call (AgentPolicyGet (np_policy_id packagePolicy) (Some true))
                             (agentPolicyService_get c
                                (np_policy_id packagePolicy) (Some true));
                         match agentPolicy with
                         | Some agentPolicy =>
                             if doesAgentPolicyAlreadyIncludePackage c
                                  agentPolicy (pi_name pkgInfo) then
                               throw (Error
                                 ("Unable to create package policy. Package '"
                                  +:+ pi_name pkgInfo
                                  +:+ "' already exists on this agent policy."))
                             else mret ()
                         | None => mret ()
                         end
                       else mret ());
                    compilePackagePolicyInputs pkgInfo inputs
                  else mret inputs
              | None => mret inputs
              end;
            isoDate ← call_total DateNow (toISOString_now c);
            let attributes :=
              new_attributes packagePolicy inputs
                (np_policy_id packagePolicy) isoDate user in
            newSo ← call (SoCreate packagePolicyId attributes)
                      (soClient_create c attributes packagePolicyId);
            let bumpRevision := default true (options ≫= co_bumpRevision) in
            _ ← call (AssignPackagePolicies (np_policy_id packagePolicy)
                        [so_id newSo] user bumpRevision)
                  (agentPolicyService_assignPackagePolicies c
                     (np_policy_id packagePolicy) [so_id newSo] user
                     bumpRevision);
            mret (packagePolicy_of_so newSo)
        end
  end.

(** [!so.error && so.attributes]: the attributes of a saved object are
    an object, which is truthy. *)
Definition bulkCreate (packagePolicies : list NewPackagePolicy)
    (agentPolicyId : string) (options : option BulkCreateOptions)
  : M W (list PackagePolicy) :=
  let user := options ≫= bo_user in
  isoDate ← call_total DateNow (toISOString_now c);
  objects ←
    mapM (fun packagePolicy =>
            packagePolicyId ← call_total UuidV4 (uuid_v4 c);
            let inputs :=
              map (assignStreamIdToInput packagePolicyId)
                  (np_inputs packagePolicy) in
            mret (packagePolicyId,
                  new_attributes packagePolicy inputs agentPolicyId
                    isoDate user))
         packagePolicies;
  saved_objects ← call (SoBulkCreate objects) (soClient_bulkCreate c objects);
  let newSos :=
    List.filter (fun so => negb (bool_decide (is_Some (so_error so))) && true)
      saved_objects in
  let bumpRevision := default true (options ≫= bo_bumpRevision) in
  _ ← call (AssignPackagePolicies agentPolicyId (map so_id newSos) user
              bumpRevision)
        (agentPolicyService_assignPackagePolicies c agentPolicyId
           (map so_id newSos) user bumpRevision);
  mret (map packagePolicy_of_so newSos).

(** [{ ...restOfPackagePolicy, inputs, revision, updated_at, updated_by }] *)
Definition update_attributes (restOfPackagePolicy : NewPackagePolicy)
    (inputs : list PackagePolicyInput) (revision : Z)
    (updated_at : string) (user : option AuthenticatedUser)
  : PackagePolicyUpdateAttributes :=
  {| ua_name := np_name restOfPackagePolicy;
     ua_description := np_description restOfPackagePolicy;
     ua_namespace := np_namespace restOfPackagePolicy;
     ua_enabled := np_enabled restOfPackagePolicy;
     ua_policy_id := np_policy_id restOfPackagePolicy;
     ua_output_id := np_output_id restOfPackagePolicy;
     ua_package := np_package restOfPackagePolicy;
     ua_inputs := inputs;
     ua_revision := revision;
     ua_updated_at := updated_at;
     ua_updated_by := username_or_system user |}.

(** The final [(await this.get(soClient, id)) as PackagePolicy] is a
    cast: when the store has nothing left under [id] the caller is handed
    [null].  The result is therefore optional here. *)
Definition update (id : string) (packagePolicy : UpdatePackagePolicy)
    (options : option UpdateOptions) : M W (option PackagePolicy) :=
  let user := options ≫= uo_user in
  oldPackagePolicy ← get id;
  let version := u_version packagePolicy in
  let restOfPackagePolicy := u_rest packagePolicy in
  match oldPackagePolicy with
  | None => throw (Error "Package policy not found")
  | Some oldPackagePolicy =>
      parentAgentPolicy ←
        call (AgentPolicyGet (np_policy_id restOfPackagePolicy) None)
          (agentPolicyService_get c (np_policy_id restOfPackagePolicy) None);
      match parentAgentPolicy with
      | None => throw (Error "Agent policy not found")
      | Some parentAgentPolicy =>
          if ap_is_managed parentAgentPolicy then
            throw (IngestManagerError
                     ("Cannot update integrations of managed policy " +:+ id))
          else
            match List.find (fun siblingPackagePolicy =>
                               negb (String.eqb (pp_id siblingPackagePolicy) id)
                               && String.eqb (pp_name siblingPackagePolicy)
                                             (np_name restOfPackagePolicy))
                    (ap_package_policies parentAgentPolicy) with
            | Some _ => throw (Error SAME_NAME_MESSAGE)
            | None =>
                let inputs :=
                  map (assignStreamIdToInput (pp_id oldPackagePolicy))
                      (np_inputs restOfPackagePolicy) in
                inputs ←
                  match np_package restOfPackagePolicy with
                  | Some package =>
                      if truthy (Some (pkg_name package)) then
                        pkgInfo ←
                          call (GetPackageInfo (pkg_name package)
                                  (pkg_version package))
                            (getPackageInfo c (pkg_name package)
                               (pkg_version package));
                        compilePackagePolicyInputs pkgInfo inputs
                      else mret inputs
                  | None => mret inputs
                  end;
                updated_at ← call_total DateNow (toISOString_now c);
                let attributes :=
                  update_attributes restOfPackagePolicy inputs
                    (js_add (pp_revision oldPackagePolicy) 1) updated_at user in
                _ ← call (SoUpdate id attributes version)
                      (soClient_update c id attributes version);
                _ ← call (BumpRevision (np_policy_id restOfPackagePolicy) user)
                      (agentPolicyService_bumpRevision c
                         (np_policy_id restOfPackagePolicy) user);
                get id
            end
      end
  end.

(** [{ id, name: packagePolicy.name, success: true }] *)
Definition delete_success (id : string) (packagePolicy : PackagePolicy)
  : DeleteResult :=
  {| dr_id := id;
     dr_name := Some (pp_name packagePolicy);
     dr_success := true;
     dr_statusCode := None;
     dr_body := None |}.

(** [{ id, success: false, ...ingestErrorToResponseOptions(error) }] *)
Definition delete_failure (id : string) (error : Exn) : DeleteResult :=
  let response := ingestErrorToResponseOptions c error in
  {| dr_id := id;
     dr_name := None;
     dr_success := false;
     dr_statusCode := ro_statusCode response;
     dr_body := ro_body response |}.

(** The [try] block of [delete], up to the [result.push]. *)
Definition delete_try (id : string) (options : option DeleteOptions)
  : M W PackagePolicy :=
  packagePolicy ← get id;
  match packagePolicy with
  | None => throw (Error "Package policy not found")
  | Some packagePolicy =>
      _ ← (if negb (default false (options ≫= do_skipUnassignFromAgentPolicies))
           then
             call (UnassignPackagePolicies (pp_policy_id packagePolicy)
                     [pp_id packagePolicy] (options ≫= do_user))
               (agentPolicyService_unassignPackagePolicies c
                  (pp_policy_id packagePolicy) [pp_id packagePolicy]
                  (options ≫= do_user))
           else mret ());
      _ ← call (SoDelete id) (soClient_delete c id);
      mret packagePolicy
  end.

Definition delete (ids : list string) (options : option DeleteOptions)
  : M W (list DeleteResult) :=
  for_of ids
    (fun result id =>
       try_catch
         (packagePolicy ← delete_try id options;
          mret (result ++ [delete_success id packagePolicy]))
         (fun error => mret (result ++ [delete_failure id error])))
    [].

(** [Schema.validate(result)] for the schema keyed by the callback type. *)
Definition schema_validate (externalCallbackType : ExternalCallbackType)
    (result : NewPackagePolicy) : Outcome NewPackagePolicy :=
  match externalCallbackType with
  | packagePolicyCreate => NewPackagePolicySchema_validate c result
  | packagePolicyUpdate => UpdatePackagePolicySchema_validate c result
  end.

Definition runExternalCallbacks (externalCallbackType : ExternalCallbackType)
    (newPackagePolicy : NewPackagePolicy) : M W NewPackagePolicy :=
  let newData := newPackagePolicy in
  externalCallbacks ←
    call_total (GetExternalCallbacks externalCallbackType)
      (fun w => (getExternalCallbacks c externalCallbackType w, w));
  match externalCallbacks with
  | Some (callback :: rest) =>
      for_of (callback :: rest)
        (fun updatedNewData callback =>
           result ← call (ExternalCallbackCall updatedNewData)
                      (callback updatedNewData);
           call_pure (SchemaValidate externalCallbackType result)
             (schema_validate externalCallbackType result))
        newData
  | Some [] | None => mret newData
  end.
End Methods.
End PackagePolicyService.

(* ================================================================== *)
(** * What a run persisted and whom it called *)
(* ================================================================== *)

(** The records handed to [soClient.create], in order. *)
Definition created (t : list Event)
  : list (string * PackagePolicySOAttributes) :=
  omap (fun ev => match ev with
                  | SoCreate id attributes => Some (id, attributes)
                  | _ => None
                  end) t.

(** The batches handed to [soClient.bulkCreate]. *)
Definition bulk_created (t : list Event)
  : list (list (string * PackagePolicySOAttributes)) :=
  omap (fun ev => match ev with
                  | SoBulkCreate objects => Some objects
                  | _ => None
                  end) t.

(** The writes handed to [soClient.update]. *)
Definition updated (t : list Event)
  : list (string * PackagePolicyUpdateAttributes * option string) :=
  omap (fun ev => match ev with
                  | SoUpdate id attributes version =>
                      Some (id, attributes, version)
                  | _ => None
                  end) t.

(** The calls of [agentPolicyService.bumpRevision]. *)
Definition revision_bumps (t : list Event)
  : list (string * option AuthenticatedUser) :=
  omap (fun ev => match ev with
                  | BumpRevision agentPolicyId user => Some (agentPolicyId, user)
                  | _ => None
                  end) t.

(** The variable bindings and templates handed to [compileTemplate]. *)
Definition rendered (t : list Event) : list (Vars * string) :=
  omap (fun ev => match ev with
                  | CompileTemplate variables template =>
                      Some (variables, template)
                  | _ => None
                  end) t.

(** The readings of the clock and the draws of [uuid.v4]. *)
Definition is_DateNow (ev : Event) : bool :=
  match ev with DateNow => true | _ => false end.

Definition is_UuidV4 (ev : Event) : bool :=
  match ev with UuidV4 => true | _ => false end.

(** Calls that reach the package registry, the installer or the template
    engine. *)
Definition is_package_call (ev : Event) : bool :=
  match ev with
  | EnsureInstalledPackage _ | GetPackageInfo _ _ | FetchInfo _ _
  | GetAssetsData _ _ | CompileTemplate _ _ => true
  | _ => false
  end.

(** The calls made between the name check and the write: to the
    registry, the installer and the template engine, and, for a limited
    package, one more look at the agent policy. *)
Definition is_preparation_call (ev : Event) : bool :=
  match ev with
  | AgentPolicyGet _ _ => true
  | _ => is_package_call ev
  end.

(** The calls [compilePackagePolicyInputs] can make. *)
Definition is_compile_call (ev : Event) : bool :=
  match ev with
  | FetchInfo _ _ | GetAssetsData _ _ | CompileTemplate _ _ => true
  | _ => false
  end.

(** [n] successive updates of one policy. *)
Definition updates {W} (c : Collaborators W) (id : string)
    (requests : list (UpdatePackagePolicy * option UpdateOptions))
  : M W (list (option PackagePolicy)) :=
  mapM (fun request => PackagePolicyService.update c id request.1 request.2)
    requests.

(** Modelled from the spec: section 7 of the specification sorts the
    thrown errors into kinds; the code has no such type.  These are the
    errors of [create] and [update] that the specification calls
    Conflict: a sibling with the same name, a managed agent policy, a
    limited package already on the agent policy. *)
Inductive ConflictError : Exn -> Prop :=
| conflict_same_name :
    ConflictError (Error SAME_NAME_MESSAGE)
| conflict_managed_create agentPolicyId :
    ConflictError (IngestManagerError
      ("Cannot add integrations to managed policy " +:+ agentPolicyId))
| conflict_managed_update id :
    ConflictError (IngestManagerError
      ("Cannot update integrations of managed policy " +:+ id))
| conflict_limited pkgName :
    ConflictError (Error
      ("Unable to create package policy. Package '" +:+ pkgName
       +:+ "' already exists on this agent policy.")).

(* ================================================================== *)
(** * In-memory collaborators *)
(* ================================================================== *)

Module Mem.

(** A stored package policy with the sequence number its version token
    is printed from. *)
Record Doc := {
  doc_attributes : PackagePolicySOAttributes;
  doc_seq : nat;
}.

Record AgentPolicyDoc := {
  apd_is_managed : bool;
  apd_package_policies : list string;
  apd_revision : Z;
}.

Record Package := {
  p_info : PackageInfo;
  p_assets : list ArchiveEntry;
}.

Record World := {
  package_policies : gmap string Doc;
  agent_policies : gmap string AgentPolicyDoc;
  uuids : nat;
  clock : nat;
  registry : list Package;
}.

Definition with_package_policies (w : World) (docs : gmap string Doc) : World :=
  {| package_policies := docs;
     agent_policies := agent_policies w;
     uuids := uuids w;
     clock := clock w;
     registry := registry w |}.

Definition with_agent_policies (w : World)
    (docs : gmap string AgentPolicyDoc) : World :=
  {| package_policies := package_policies w;
     agent_policies := docs;
     uuids := uuids w;
     clock := clock w;
     registry := registry w |}.

Definition so_of_doc (id : string) (doc : Doc) : SavedObject :=
  {| so_id := id;
     so_version := Some (pretty (doc_seq doc));
     so_attributes := doc_attributes doc;
     so_error := None |}.

Definition conflict (id : string) : Exn :=
  Error ("Saved object [ingest-package-policies/" +:+ id +:+ "] conflict").

Definition not_found (id : string) : Exn :=
  Error ("Saved object [ingest-package-policies/" +:+ id +:+ "] not found").

Definition mem_uuid_v4 (w : World) : string * World :=
  ("uuid-" +:+ pretty (uuids w),
   {| package_policies := package_policies w;
      agent_policies := agent_policies w;
      uuids := S (uuids w);
      clock := clock w;
      registry := registry w |}).

Definition mem_toISOString_now (w : World) : string * World :=
  ("T" +:+ pretty (clock w),
   {| package_policies := package_policies w;
      agent_policies := agent_policies w;
      uuids := uuids w;
      clock := S (clock w);
      registry := registry w |}).

(** Modelled from the spec: the document store of section 6; [create]
    answers the stored id, a version token and the attributes it was
    given, and refuses an id that is taken. *)
Definition mem_create (attributes : PackagePolicySOAttributes) (id : string)
    (w : World) : Outcome SavedObject * World :=
  match package_policies w !! id with
  | Some _ => (Rejected (conflict id), w)
  | None =>
      let doc := {| doc_attributes := attributes; doc_seq := 1 |} in
      (Resolved (so_of_doc id doc),
       with_package_policies w (<[id := doc]> (package_policies w)))
  end.

(** Modelled from the spec: a batch stores what it can and reports the
    rest as saved objects that carry an error. *)
Fixpoint mem_bulkCreate (objects : list (string * PackagePolicySOAttributes))
    (w : World) : Outcome (list SavedObject) * World :=
  match objects with
  | [] => (Resolved [], w)
  | (id, attributes) :: rest =>
      let (so, w1) :=
        match mem_create attributes id w with
        | (Resolved so, w1) => (so, w1)
        | (Rejected e, w1) =>
            ({| so_id := id;
                so_version := None;
                so_attributes := attributes;
                so_error := Some {| soe_message := exn_message e;
                                    soe_statusCode := 409 |} |}, w1)
        end in
      match mem_bulkCreate rest w1 with
      | (Resolved sos, w2) => (Resolved (so :: sos), w2)
      | (Rejected e, w2) => (Rejected e, w2)
      end
  end.

(** Modelled from the spec: reading does not change the store; nothing
    stored under the id reads as [null]. *)
Definition mem_get (id : string) (w : World)
  : Outcome (option SavedObject) * World :=
  (Resolved (so_of_doc id <$> package_policies w !! id), w).

(** [update] overwrites the attributes it is given and keeps the rest. *)
Definition merge_attributes (old : PackagePolicySOAttributes)
    (new : PackagePolicyUpdateAttributes) : PackagePolicySOAttributes :=
  {| a_name := ua_name new;
     a_description := ua_description new;
     a_namespace := ua_namespace new;
     a_enabled := ua_enabled new;
     a_policy_id := ua_policy_id new;
     a_output_id := ua_output_id new;
     a_package := ua_package new;
     a_inputs := ua_inputs new;
     a_revision := ua_revision new;
     a_created_at := a_created_at old;
     a_created_by := a_created_by old;
     a_updated_at := ua_updated_at new;
     a_updated_by := ua_updated_by new |}.

(** Modelled from the spec: [update] accepts an expected version token
    and fails on mismatch. *)
Definition mem_update (id : string) (attributes : PackagePolicyUpdateAttributes)
    (version : option string) (w : World) : Outcome () * World :=
  match package_policies w !! id with
  | None => (Rejected (not_found id), w)
  | Some doc =>
      if bool_decide (version = None ∨ version = Some (pretty (doc_seq doc)))
      then
        let doc' :=
          {| doc_attributes := merge_attributes (doc_attributes doc) attributes;
             doc_seq := S (doc_seq doc) |} in
        (Resolved (), with_package_policies w (<[id := doc']> (package_policies w)))
      else (Rejected (conflict id), w)
  end.

Definition mem_delete (id : string) (w : World) : Outcome () * World :=
  match package_policies w !! id with
  | None => (Rejected (not_found id), w)
  | Some _ =>
      (Resolved (), with_package_policies w (delete id (package_policies w)))
  end.

(** Modelled from the spec: the agent-policy service of section 6.  An
    agent policy lists the ids of its package policies; [get] answers
    the policies stored under them. *)
Definition mem_agentPolicy_get (id : string) (withPackagePolicies : option bool)
    (w : World) : Outcome (option AgentPolicy) * World :=
  (Resolved
     ((fun doc =>
         {| ap_id := id;
            ap_is_managed := apd_is_managed doc;
            ap_package_policies :=
              omap (fun ppId =>
                      (fun d => packagePolicy_of_so (so_of_doc ppId d))
                        <$> package_policies w !! ppId)
                   (apd_package_policies doc) |})
        <$> agent_policies w !! id), w).

Definition agent_policy_not_found : Exn := Error "Agent policy not found".

Definition alter_agent_policy (id : string)
    (f : AgentPolicyDoc -> AgentPolicyDoc) (w : World) : Outcome () * World :=
  match agent_policies w !! id with
  | None => (Rejected agent_policy_not_found, w)
  | Some doc =>
      (Resolved (), with_agent_policies w (<[id := f doc]> (agent_policies w)))
  end.

Definition mem_assignPackagePolicies (id : string) (ids : list string)
    (user : option AuthenticatedUser) (bumpRevision : bool)
  : World -> Outcome () * World :=
  alter_agent_policy id (fun doc =>
    {| apd_is_managed := apd_is_managed doc;
       apd_package_policies := apd_package_policies doc ++ ids;
       apd_revision :=
         if bumpRevision then apd_revision doc + 1 else apd_revision doc |}).

Definition mem_unassignPackagePolicies (id : string) (ids : list string)
    (user : option AuthenticatedUser) : World -> Outcome () * World :=
  alter_agent_policy id (fun doc =>
    {| apd_is_managed := apd_is_managed doc;
       apd_package_policies :=
         List.filter (fun ppId => negb (bool_decide (ppId ∈ ids)))
           (apd_package_policies doc);
       apd_revision := apd_revision doc + 1 |}).

Definition mem_bumpRevision (id : string) (user : option AuthenticatedUser)
  : World -> Outcome () * World :=
  alter_agent_policy id (fun doc =>
    {| apd_is_managed := apd_is_managed doc;
       apd_package_policies := apd_package_policies doc;
       apd_revision := apd_revision doc + 1 |}).

(** Modelled from the spec: the package registry and install service
    of section 6, over a fixed list of packages. *)
Definition find_package (name version : string) (w : World) : option Package :=
  List.find (fun p => String.eqb (pi_name (p_info p)) name
                      && String.eqb (pi_version (p_info p)) version)
    (registry w).

Definition package_not_found (name : string) : Exn :=
  Error ("Package " +:+ name +:+ " not found").

Definition mem_ensureInstalledPackage (name : string) (w : World)
  : Outcome () * World :=
  match List.find (fun p => String.eqb (pi_name (p_info p)) name) (registry w) with
  | Some _ => (Resolved (), w)
  | None => (Rejected (package_not_found name), w)
  end.

Definition mem_getPackageInfo (name version : string) (w : World)
  : Outcome PackageInfo * World :=
  match find_package name version w with
  | Some p => (Resolved (p_info p), w)
  | None => (Rejected (package_not_found name), w)
  end.

Definition mem_fetchInfo (name version : string) (w : World)
  : Outcome RegistryPackage * World :=
  match find_package name version w with
  | Some p => (Resolved {| rp_name := name; rp_version := version |}, w)
  | None => (Rejected (package_not_found name), w)
  end.

(** With a dataset name, only the entries under that data stream. *)
Definition under_dataset (datasetName : option string) (path : string) : bool :=
  match datasetName with
  | None => true
  | Some name =>
      bool_decide (is_Some (String.index 0 ("/data_stream/" +:+ name +:+ "/") path))
  end.

Definition mem_getAssetsData (registryPkgInfo : RegistryPackage)
    (pathFilter : string -> bool) (datasetName : option string) (w : World)
  : Outcome (list ArchiveEntry) * World :=
  match find_package (rp_name registryPkgInfo) (rp_version registryPkgInfo) w with
  | Some p =>
      (Resolved (List.filter (fun entry => pathFilter (ae_path entry)
                                           && under_dataset datasetName (ae_path entry))
                   (p_assets p)), w)
  | None => (Rejected (package_not_found (rp_name registryPkgInfo)), w)
  end.

(** [packageInfo.policy_templates?.[0]?.multiple === false] *)
Definition mem_isPackageLimited (pkgInfo : PackageInfo) : bool :=
  match pi_policy_templates pkgInfo with
  | Some (template :: _) => bool_decide (pt_multiple template = Some false)
  | _ => false
  end.

Definition mem_doesAgentPolicyAlreadyIncludePackage (agentPolicy : AgentPolicy)
    (pkgName : string) : bool :=
  bool_decide (pkgName ∈ map (fun pp => default "" (pkg_name <$> pp_package pp))
                              (ap_package_policies agentPolicy)).

Definition mem_ingestErrorToResponseOptions (error : Exn) : ResponseOptions :=
  match error with
  | IngestManagerError message =>
      {| ro_statusCode := Some 400; ro_body := Some message |}
  | Error message =>
      {| ro_statusCode := Some 500; ro_body := Some message |}
  end.

(** The collaborators over a template engine and a callback registry. *)
Definition collaborators
    (engine : Vars -> string -> Outcome Yaml)
    (callbacks : ExternalCallbackType -> option (list (ExternalCallbackFn World)))
  : Collaborators World :=
  {| uuid_v4 := mem_uuid_v4;
     toISOString_now := mem_toISOString_now;
     soClient_create := mem_create;
     soClient_bulkCreate := mem_bulkCreate;
     soClient_get := mem_get;
     soClient_update := mem_update;
     soClient_delete := mem_delete;
     agentPolicyService_get := mem_agentPolicy_get;
     agentPolicyService_assignPackagePolicies := mem_assignPackagePolicies;
     agentPolicyService_unassignPackagePolicies := mem_unassignPackagePolicies;
     agentPolicyService_bumpRevision := mem_bumpRevision;
     ensureInstalledPackage := mem_ensureInstalledPackage;
     getPackageInfo := mem_getPackageInfo;
     Registry_fetchInfo := mem_fetchInfo;
     getAssetsData := mem_getAssetsData;
     compileTemplate := engine;
     isPackageLimited := mem_isPackageLimited;
     doesAgentPolicyAlreadyIncludePackage :=
       mem_doesAgentPolicyAlreadyIncludePackage;
     ingestErrorToResponseOptions := mem_ingestErrorToResponseOptions;
     getExternalCallbacks := fun kind _ => callbacks kind;
     NewPackagePolicySchema_validate := Resolved;
     UpdatePackagePolicySchema_validate := Resolved |}.

(** The revision stored under an id. *)
Definition stored_revision (w : World) (id : string) : option Z :=
  (fun doc => a_revision (doc_attributes doc)) <$> package_policies w !! id.

End Mem.

(* ================================================================== *)
(** * Sample data *)
(* ================================================================== *)

Module Sample.

(** A template engine that lists the names it was given in front of the
    template text. *)
Definition engine (variables : Vars) (template : string) : Outcome Yaml :=
  Resolved (foldr (fun kv acc => kv.1 +:+ ";" +:+ acc) "" (map_to_list variables)
            +:+ template).

Definition collaborators : Collaborators Mem.World :=
  Mem.collaborators engine (fun _ => None).



Definition input_vars : Vars := {[ "a" := VNum 1 ]}.

Definition stream_vars : Vars := <[ "a" := VNum 2 ]> {[ "b" := VNum 3 ]}.

Definition access_stream (enabled : bool) : PackagePolicyInputStream :=
  {| s_id := None;
     s_enabled := enabled;
     s_data_stream := {| dataset := "nginx.access"; ds_type := "logs" |};
     s_vars := Some stream_vars;
     s_config := None;
     s_compiled_stream := Some "stale" |}.

Definition logfile_input (enabled : bool) : PackagePolicyInput :=
  {| i_type := "logfile";
     i_enabled := enabled;
     i_vars := Some input_vars;
     i_config := None;
     i_streams := [access_stream true; access_stream false];
     i_compiled_input := Some "stale" |}.

Definition nginx_info : PackageInfo :=
  {| pi_name := "nginx";
     pi_version := "1.0.0";
     pi_policy_templates :=
       Some [{| pt_inputs := Some [{| ri_type := "logfile";
                                      ri_template_path := Some "logfile.yml.hbs" |}];
                pt_multiple := None |}];
     pi_data_streams :=
       Some [{| rd_dataset := "nginx.access";
                rd_streams := Some [{| rs_input := "logfile";
                                       rs_template_path := Some "stream.yml.hbs" |}] |}] |}.

Definition nginx : Mem.Package :=
  {| Mem.p_info := nginx_info;
     Mem.p_assets :=
       [{| ae_path := "nginx-1.0.0/agent/input/logfile.yml.hbs";
           ae_buffer := Some "type: {{a}}" |};
        {| ae_path := "nginx-1.0.0/data_stream/access/agent/stream/stream.yml.hbs";
           ae_buffer := Some "paths: {{b}}" |}] |}.

Definition nginx_registry : RegistryPackage :=
  {| rp_name := "nginx"; rp_version := "1.0.0" |}.

Definition open_agent_policy : Mem.AgentPolicyDoc :=
  {| Mem.apd_is_managed := false;
     Mem.apd_package_policies := [];
     Mem.apd_revision := 1 |}.

Definition managed_agent_policy : Mem.AgentPolicyDoc :=
  {| Mem.apd_is_managed := true;
     Mem.apd_package_policies := [];
     Mem.apd_revision := 1 |}.

Definition world : Mem.World :=
  {| Mem.package_policies := ∅;
     Mem.agent_policies :=
       <[ "agent-1" := open_agent_policy ]>
         (<[ "agent-2" := open_agent_policy ]>
            {[ "managed-1" := managed_agent_policy ]});
     Mem.uuids := 0;
     Mem.clock := 0;
     Mem.registry := [nginx] |}.

Definition policy_on (agentPolicyId name : string)
    (package : option PackagePolicyPackage) : NewPackagePolicy :=
  {| np_name := name;
     np_description := None;
     np_namespace := "default";
     np_enabled := true;
     np_policy_id := agentPolicyId;
     np_output_id := "output-1";
     np_package := package;
     np_inputs := [logfile_input true; logfile_input false] |}.

Definition policy : string -> option PackagePolicyPackage -> NewPackagePolicy :=
  policy_on "agent-1".

Definition nginx_package : PackagePolicyPackage :=
  {| pkg_name := "nginx"; pkg_title := "Nginx"; pkg_version := "1.0.0" |}.

Definition with_id (id : string) : option CreateOptions :=
  Some {| co_id := Some id; co_user := None; co_bumpRevision := None |}.

Definition request (name : string) : UpdatePackagePolicy * option UpdateOptions :=
  ({| u_version := None; u_rest := policy name (Some nginx_package) |}, None).

(** The world after a policy named [nginx-1] was created under [pp-1]. *)
Definition world_with_policy : Mem.World :=
  Eval vm_compute in
    (PackagePolicyService.create collaborators
       (policy "nginx-1" (Some nginx_package)) (with_id "pp-1") world).1.2.

(** The same world with every stored policy at a given revision. *)
Definition world_with_policy_at (revision : Z) : Mem.World :=
  Mem.with_package_policies world_with_policy
    ((fun doc =>
        let a := Mem.doc_attributes doc in
        {| Mem.doc_attributes :=
             {| a_name := a_name a;
                a_description := a_description a;
                a_namespace := a_namespace a;
                a_enabled := a_enabled a;
                a_policy_id := a_policy_id a;
                a_output_id := a_output_id a;
                a_package := a_package a;
                a_inputs := a_inputs a;
                a_revision := revision;
                a_created_at := a_created_at a;
                a_created_by := a_created_by a;
                a_updated_at := a_updated_at a;
                a_updated_by := a_updated_by a |};
           Mem.doc_seq := Mem.doc_seq doc |})
       <$> Mem.package_policies world_with_policy).

(** The same world with a second policy, [other], under [pp-2]. *)
Definition world_with_two_policies : Mem.World :=
  Eval vm_compute in
    (PackagePolicyService.create collaborators
       (policy "other" (Some nginx_package)) (with_id "pp-2")
       world_with_policy).1.2.





End Sample.

(* ================================================================== *)
(** * Relations between what goes in and what comes out *)
(* ================================================================== *)

(** Every stream of every input carries the identifier derived from the
    type of its input, its dataset and the id of the package policy. *)
Definition streams_identified (packagePolicyId : string)
    (inputs : list PackagePolicyInput) : Prop :=
  Forall (fun input =>
            Forall (fun stream =>
                      s_id stream = Some (stream_id packagePolicyId input stream))
                   (i_streams input))
         inputs.

(** [stream'] is [stream] with a compiled artifact put in place of its
    own, an absent one when the stream is disabled. *)
Definition compiled_stream_of (stream stream' : PackagePolicyInputStream) : Prop :=
  exists compiled,
    stream' = stream_with_compiled_stream stream compiled /\
    (s_enabled stream = false -> compiled = None).

(** The same for an input and its streams. *)
Definition compiled_input_of (input input' : PackagePolicyInput) : Prop :=
  exists compiled streams,
    input' = input_with_compiled input compiled streams /\
    (i_enabled input = false -> compiled = None) /\
    Forall2 compiled_stream_of (i_streams input) streams.

(** The attributes of a package policy, without its id and version. *)
Definition attributes_of (p : PackagePolicy) : PackagePolicySOAttributes :=
  {| a_name := pp_name p;
     a_description := pp_description p;
     a_namespace := pp_namespace p;
     a_enabled := pp_enabled p;
     a_policy_id := pp_policy_id p;
     a_output_id := pp_output_id p;
     a_package := pp_package p;
     a_inputs := pp_inputs p;
     a_revision := pp_revision p;
     a_created_at := pp_created_at p;
     a_created_by := pp_created_by p;
     a_updated_at := pp_updated_at p;
     a_updated_by := pp_updated_by p |}.

(** A record as [create] leaves it: revision 1, both stamps set to the
    date and to the actor, every stream identified. *)
Definition stamped_as_new (packagePolicyId isoDate : string)
    (user : option AuthenticatedUser) (a : PackagePolicySOAttributes) : Prop :=
  a_revision a = 1
  /\ a_created_at a = isoDate
  /\ a_updated_at a = isoDate
  /\ a_created_by a = match user with Some u => username u | None => "system" end
  /\ a_updated_by a = match user with Some u => username u | None => "system" end
  /\ streams_identified packagePolicyId (a_inputs a).

(** The store answers [create] with the attributes it was given. *)
Definition create_answers_attributes {W} (c : Collaborators W) : Prop :=
  forall attributes id w so w',
    soClient_create c attributes id w = (Resolved so, w') ->
    so_attributes so = attributes.

(** A property of the world that an operation of a collaborator keeps. *)
Definition preserves {W A} (Q : W -> Prop) (op : W -> Outcome A * W) : Prop :=
  forall w r w', op w = (r, w') -> Q w -> Q w'.

(** A property of the world that reading the registry keeps. *)
Definition registry_preserves {W} (c : Collaborators W) (Q : W -> Prop) : Prop :=
  (forall name version, preserves Q (getPackageInfo c name version))
  /\ (forall name version, preserves Q (Registry_fetchInfo c name version))
  /\ (forall registryPkgInfo pathFilter datasetName,
         preserves Q (getAssetsData c registryPkgInfo pathFilter datasetName)).

(** How [delete] goes through its ids: each id is tried in the world the
    previous one left, and gives one entry, of success when the [try]
    block ran to its end and of failure when it threw. *)
Inductive deleted {W} (c : Collaborators W) (options : option DeleteOptions)
  : list string -> W -> list DeleteResult -> W -> Prop :=
| deleted_nil w :
    deleted c options [] w [] w
| deleted_success id ids w packagePolicy w1 t1 results w' :
    PackagePolicyService.delete_try c id options w
      = (Resolved packagePolicy, w1, t1) ->
    deleted c options ids w1 results w' ->
    deleted c options (id :: ids) w
      (PackagePolicyService.delete_success id packagePolicy :: results) w'
| deleted_failure id ids w error w1 t1 results w' :
    PackagePolicyService.delete_try c id options w = (Rejected error, w1, t1) ->
    deleted c options ids w1 results w' ->
    deleted c options (id :: ids) w
      (PackagePolicyService.delete_failure c id error :: results) w'.

(* ================================================================== *)
(** * More of what a run did *)
(* ================================================================== *)

(** [s] has the character [c]. *)
Fixpoint has_char (c : ascii) (s : string) : bool :=
  match s with
  | EmptyString => false
  | String c' s' => Ascii.eqb c' c || has_char c s'
  end.

(** The calls of [agentPolicyService.assignPackagePolicies]. *)
Definition assigned (t : list Event)
  : list (string * list string * option AuthenticatedUser * bool) :=
  omap (fun ev => match ev with
                  | AssignPackagePolicies agentPolicyId ids user bumpRevision =>
                      Some (agentPolicyId, ids, user, bumpRevision)
                  | _ => None
                  end) t.

(** The calls of [agentPolicyService.unassignPackagePolicies]. *)
Definition unassigned (t : list Event)
  : list (string * list string * option AuthenticatedUser) :=
  omap (fun ev => match ev with
                  | UnassignPackagePolicies agentPolicyId ids user =>
                      Some (agentPolicyId, ids, user)
                  | _ => None
                  end) t.

(** The ids read with [soClient.get], and those handed to
    [soClient.delete]. *)
Definition fetched (t : list Event) : list string :=
  omap (fun ev => match ev with SoGet id => Some id | _ => None end) t.

Definition store_deleted (t : list Event) : list string :=
  omap (fun ev => match ev with SoDelete id => Some id | _ => None end) t.

(** The fetches of template assets: path suffix and dataset name. *)
Definition asset_fetches (t : list Event) : list (string * option string) :=
  omap (fun ev => match ev with
                  | GetAssetsData pathSuffix datasetPath =>
                      Some (pathSuffix, datasetPath)
                  | _ => None
                  end) t.

(** What the external callbacks were called with, and what was handed
    to a schema. *)
Definition callback_calls (t : list Event) : list NewPackagePolicy :=
  omap (fun ev => match ev with
                  | ExternalCallbackCall argument => Some argument
                  | _ => None
                  end) t.

Definition validations (t : list Event)
  : list (ExternalCallbackType * NewPackagePolicy) :=
  omap (fun ev => match ev with
                  | SchemaValidate kind value => Some (kind, value)
                  | _ => None
                  end) t.

(** Calls that write to the store of package policies. *)
Definition is_store_write (ev : Event) : bool :=
  match ev with
  | SoCreate _ _ | SoBulkCreate _ | SoUpdate _ _ _ | SoDelete _ => true
  | _ => false
  end.

(** [stream'] is [stream] but for its compiled artifact, and [input']
    is [input] but for its compiled artifact and those of its streams. *)
Definition same_stream_but_compiled (stream stream' : PackagePolicyInputStream)
  : Prop :=
  s_id stream' = s_id stream
  /\ s_enabled stream' = s_enabled stream
  /\ s_data_stream stream' = s_data_stream stream
  /\ s_vars stream' = s_vars stream
  /\ s_config stream' = s_config stream.

Definition same_input_but_compiled (input input' : PackagePolicyInput) : Prop :=
  i_type input' = i_type input
  /\ i_enabled input' = i_enabled input
  /\ i_vars input' = i_vars input
  /\ i_config input' = i_config input
  /\ Forall2 same_stream_but_compiled (i_streams input) (i_streams input').

(** [input'] is [input] but for the ids of its streams. *)
Definition same_input_but_for_ids (input input' : PackagePolicyInput) : Prop :=
  i_type input' = i_type input
  /\ i_enabled input' = i_enabled input
  /\ i_vars input' = i_vars input
  /\ i_config input' = i_config input
  /\ i_compiled_input input' = i_compiled_input input
  /\ Forall2 (fun stream stream' =>
                s_enabled stream' = s_enabled stream
                /\ s_data_stream stream' = s_data_stream stream
                /\ s_vars stream' = s_vars stream
                /\ s_config stream' = s_config stream
                /\ s_compiled_stream stream' = s_compiled_stream stream)
             (i_streams input) (i_streams input').

(** The number of templates a list of inputs can ask for: one for each
    enabled input and one for each enabled stream. *)
Definition enabled_templates (inputs : list PackagePolicyInput) : nat :=
  sum_list
    (map (fun input =>
            ((if i_enabled input then 1 else 0)
             + length (List.filter s_enabled (i_streams input)))%nat)
         inputs).

(** Calls that fetch a template asset or render a template. *)
Definition is_template_call (ev : Event) : bool :=
  match ev with
  | GetAssetsData _ _ | CompileTemplate _ _ => true
  | _ => false
  end.

(** The calls [create] makes before it reads the clock: a draw of
    [uuid.v4] and the preparation calls. *)
Definition is_create_check (ev : Event) : bool :=
  is_UuidV4 ev || is_preparation_call ev.

(** The calls [update] makes before it reads the clock: it reads the
    store, the agent policy and the registry, and renders templates. *)
Definition is_update_check (ev : Event) : bool :=
  match ev with
  | SoGet _ | AgentPolicyGet _ _ | GetPackageInfo _ _ | FetchInfo _ _
  | GetAssetsData _ _ | CompileTemplate _ _ => true
  | _ => false
  end.

(** The calls of the installer. *)
Definition installed (t : list Event) : list string :=
  omap (fun ev => match ev with
                  | EnsureInstalledPackage pkgName => Some pkgName
                  | _ => None
                  end) t.

(** [input'] has the settings of [input]: its type, flag, variables and
    configuration, and as many streams, each with the flag, dataset,
    variables and configuration of the stream in its place.  The ids of
    the streams and the compiled artifacts may differ. *)
Definition same_stream_settings (stream stream' : PackagePolicyInputStream)
  : Prop :=
  s_enabled stream' = s_enabled stream
  /\ s_data_stream stream' = s_data_stream stream
  /\ s_vars stream' = s_vars stream
  /\ s_config stream' = s_config stream.

Definition same_settings (input input' : PackagePolicyInput) : Prop :=
  i_type input' = i_type input
  /\ i_enabled input' = i_enabled input
  /\ i_vars input' = i_vars input
  /\ i_config input' = i_config input
  /\ Forall2 same_stream_settings (i_streams input) (i_streams input').

(** How [runExternalCallbacks] goes through the registered callbacks:
    the first of those left is called with the policy reached so far, in
    the world the one before it left; its result is handed to the schema
    of the callback type, and what the schema answers is the policy the
    next one is called with.  With none left, the policy reached is the
    result.  A callback or a schema that throws ends the run. *)
Inductive threaded {W} (c : Collaborators W) (kind : ExternalCallbackType)
  : list (ExternalCallbackFn W) -> NewPackagePolicy -> W ->
    Outcome NewPackagePolicy -> W -> list Event -> Prop :=
| threaded_none_left policy w :
    threaded c kind [] policy w (Resolved policy) w []
| threaded_callback_throws callback rest policy w error w1 :
    callback policy w = (Rejected error, w1) ->
    threaded c kind (callback :: rest) policy w (Rejected error) w1
      [ExternalCallbackCall policy]
| threaded_schema_throws callback rest policy w result w1 error :
    callback policy w = (Resolved result, w1) ->
    PackagePolicyService.schema_validate c kind result = Rejected error ->
    threaded c kind (callback :: rest) policy w (Rejected error) w1
      [ExternalCallbackCall policy; SchemaValidate kind result]
| threaded_next callback rest policy w result w1 validated r w' t :
    callback policy w = (Resolved result, w1) ->
    PackagePolicyService.schema_validate c kind result = Resolved validated ->
    threaded c kind rest validated w1 r w' t ->
    threaded c kind (callback :: rest) policy w r w'
      (ExternalCallbackCall policy :: SchemaValidate kind result :: t).

(* ================================================================== *)
(** * More sample data *)
(* ================================================================== *)

Module Scenario.

(** A package whose first policy template lists an [httpjson] input with
    a template and a [logfile] input without one, whose second policy
    template lists a [udp] and a [logfile] input with templates, and whose
    first data stream has a [logfile] stream without a template path. *)
Definition bare_info : PackageInfo :=
  {| pi_name := "nginx";
     pi_version := "1.0.0";
     pi_policy_templates :=
       Some [{| pt_inputs :=
                  Some [{| ri_type := "httpjson";
                           ri_template_path := Some "httpjson.yml.hbs" |};
                        {| ri_type := "logfile"; ri_template_path := None |}];
                pt_multiple := None |};
             {| pt_inputs :=
                  Some [{| ri_type := "udp";
                           ri_template_path := Some "udp.yml.hbs" |};
                        {| ri_type := "logfile";
                           ri_template_path := Some "logfile.yml.hbs" |}];
                pt_multiple := None |}];
     pi_data_streams :=
       Some [{| rd_dataset := "nginx.access";
                rd_streams := Some [{| rs_input := "logfile";
                                       rs_template_path := None |}] |};
             {| rd_dataset := "nginx.error"; rd_streams := None |}] |}.

(** A package without policy templates and without data streams. *)
Definition empty_info : PackageInfo :=
  {| pi_name := "nginx";
     pi_version := "1.0.0";
     pi_policy_templates := None;
     pi_data_streams := None |}.

Definition input_of (type : string) : PackagePolicyInput :=
  {| i_type := type;
     i_enabled := true;
     i_vars := Some Sample.input_vars;
     i_config := None;
     i_streams := [];
     i_compiled_input := None |}.

Definition stream_of (dataset : string) : PackagePolicyInputStream :=
  {| s_id := None;
     s_enabled := true;
     s_data_stream := {| dataset := dataset; ds_type := "logs" |};
     s_vars := None;
     s_config := None;
     s_compiled_stream := None |}.

(** A limited package: its first policy template has [multiple: false]. *)
Definition endpoint_info : PackageInfo :=
  {| pi_name := "endpoint";
     pi_version := "1.0.0";
     pi_policy_templates := Some [{| pt_inputs := None; pt_multiple := Some false |}];
     pi_data_streams := None |}.

Definition endpoint : Mem.Package :=
  {| Mem.p_info := endpoint_info; Mem.p_assets := [] |}.

Definition endpoint_package : PackagePolicyPackage :=
  {| pkg_name := "endpoint"; pkg_title := "Endpoint"; pkg_version := "1.0.0" |}.

Definition endpoint_policy (name : string) : NewPackagePolicy :=
  {| np_name := name;
     np_description := None;
     np_namespace := "default";
     np_enabled := true;
     np_policy_id := "agent-1";
     np_output_id := "output-1";
     np_package := Some endpoint_package;
     np_inputs := [] |}.

(** The sample world with the limited package in the registry, and the
    same after a policy of that package was created under [pp-1]. *)
Definition world : Mem.World :=
  {| Mem.package_policies := Mem.package_policies Sample.world;
     Mem.agent_policies := Mem.agent_policies Sample.world;
     Mem.uuids := 0;
     Mem.clock := 0;
     Mem.registry := [Sample.nginx; endpoint] |}.

Definition world_with_endpoint : Mem.World :=
  Eval vm_compute in
    (PackagePolicyService.create Sample.collaborators
       (endpoint_policy "endpoint-1") (Sample.with_id "pp-1") world).1.2.

(** The sample world after a policy was created under [uuid-0], the id
    [uuid.v4] gives next. *)
Definition world_with_uuid_0 : Mem.World :=
  Eval vm_compute in
    (PackagePolicyService.create Sample.collaborators
       (Sample.policy "nginx-1" None) (Sample.with_id "uuid-0") Sample.world).1.2.

(** The sample collaborators with an agent-policy service that can be
    read but not written. *)
Definition agent_policies_down : Exn := Error "Agent policies unavailable".

Definition collaborators_with_agent_policies_down : Collaborators Mem.World :=
  {| uuid_v4 := uuid_v4 Sample.collaborators;
     toISOString_now := toISOString_now Sample.collaborators;
     soClient_create := soClient_create Sample.collaborators;
     soClient_bulkCreate := soClient_bulkCreate Sample.collaborators;
     soClient_get := soClient_get Sample.collaborators;
     soClient_update := soClient_update Sample.collaborators;
     soClient_delete := soClient_delete Sample.collaborators;
     agentPolicyService_get := agentPolicyService_get Sample.collaborators;
     agentPolicyService_assignPackagePolicies :=
       fun _ _ _ _ w => (Rejected agent_policies_down, w);
     agentPolicyService_unassignPackagePolicies :=
       fun _ _ _ w => (Rejected agent_policies_down, w);
     agentPolicyService_bumpRevision :=
       fun _ _ w => (Rejected agent_policies_down, w);
     ensureInstalledPackage := ensureInstalledPackage Sample.collaborators;
     getPackageInfo := getPackageInfo Sample.collaborators;
     Registry_fetchInfo := Registry_fetchInfo Sample.collaborators;
     getAssetsData := getAssetsData Sample.collaborators;
     compileTemplate := compileTemplate Sample.collaborators;
     isPackageLimited := isPackageLimited Sample.collaborators;
     doesAgentPolicyAlreadyIncludePackage :=
       doesAgentPolicyAlreadyIncludePackage Sample.collaborators;
     ingestErrorToResponseOptions :=
       ingestErrorToResponseOptions Sample.collaborators;
     getExternalCallbacks := getExternalCallbacks Sample.collaborators;
     NewPackagePolicySchema_validate :=
       NewPackagePolicySchema_validate Sample.collaborators;
     UpdatePackagePolicySchema_validate :=
       UpdatePackagePolicySchema_validate Sample.collaborators |}.

(** Two registered callbacks, each of which adds to the name of the
    policy it is given, and a third that throws. *)
Definition renaming (suffix : string) : ExternalCallbackFn Mem.World :=
  fun newPackagePolicy w =>
    (Resolved {| np_name := np_name newPackagePolicy +:+ suffix;
                 np_description := np_description newPackagePolicy;
                 np_namespace := np_namespace newPackagePolicy;
                 np_enabled := np_enabled newPackagePolicy;
                 np_policy_id := np_policy_id newPackagePolicy;
                 np_output_id := np_output_id newPackagePolicy;
                 np_package := np_package newPackagePolicy;
                 np_inputs := np_inputs newPackagePolicy |}, w).

Definition callback_down : Exn := Error "Callback failed".

Definition failing : ExternalCallbackFn Mem.World :=
  fun _ w => (Rejected callback_down, w).

Definition collaborators_with_callbacks : Collaborators Mem.World :=
  Mem.collaborators Sample.engine
    (fun kind =>
       match kind with
       | packagePolicyCreate => Some [renaming "-a"; renaming "-b"]
       | packagePolicyUpdate => Some [renaming "-a"; failing; renaming "-b"]
       end).

End Scenario.

(* ================================================================== *)
(** * Running asynchronous computations *)
(* ================================================================== *)

Section Runs.
Context {W : Type}.

Lemma run_bind {A B} (m : M W A) (k : A -> M W B) (w : W) :
  (m ≫= k) w =
  match m w with
  | (Resolved a, w1, t1) =>
      match k a w1 with
      | (r, w2, t2) => (r, w2, t1 ++ t2)
      end
  | (Rejected e, w1, t1) => (Rejected e, w1, t1)
  end.
Proof. reflexivity. Qed.

Lemma run_bind_resolved {A B} (m : M W A) (k : A -> M W B) w a w1 t1 :
  m w = (Resolved a, w1, t1) ->
  (m ≫= k) w = (let '(r, w2, t2) := k a w1 in (r, w2, t1 ++ t2)).
Proof. intros Hm. rewrite run_bind, Hm. reflexivity. Qed.

Lemma run_bind_rejected {A B} (m : M W A) (k : A -> M W B) w e w1 t1 :
  m w = (Rejected e, w1, t1) ->
  (m ≫= k) w = (Rejected e, w1, t1).
Proof. intros Hm. rewrite run_bind, Hm. reflexivity. Qed.

(** A sequence settles either because its first part was rejected or
    with what its continuation did. *)
Lemma bind_inv {A B} (m : M W A) (k : A -> M W B) w r w' t :
  (m ≫= k) w = (r, w', t) ->
  (exists a w1 t1 t2,
      m w = (Resolved a, w1, t1) /\ k a w1 = (r, w', t2) /\ t = t1 ++ t2)
  \/ (exists e, m w = (Rejected e, w', t) /\ r = Rejected e).
Proof.
  rewrite run_bind.
  destruct (m w) as [[[a|e] w1] t1].
  - destruct (k a w1) as [[r2 w2] t2] eqn:Hk.
    intros [= <- <- <-]. left. by exists a, w1, t1, t2.
  - intros [= <- <- <-]. right. by exists e.
Qed.

Lemma bind_resolved_inv {A B} (m : M W A) (k : A -> M W B) w b w' t :
  (m ≫= k) w = (Resolved b, w', t) ->
  exists a w1 t1 t2,
    m w = (Resolved a, w1, t1) /\ k a w1 = (Resolved b, w', t2) /\ t = t1 ++ t2.
Proof.
  intros H. apply bind_inv in H as [H | (e & _ & [=])]. exact H.
Qed.

Lemma mret_inv {A} (a : A) (w : W) r w' t :
  (mret a : M W A) w = (r, w', t) -> r = Resolved a /\ w' = w /\ t = [].
Proof. by intros [= <- <- <-]. Qed.

Lemma throw_inv {A} (e : Exn) (w : W) (r : Outcome A) w' t :
  (throw e : M W A) w = (r, w', t) -> r = Rejected e /\ w' = w /\ t = [].
Proof. by intros [= <- <- <-]. Qed.

Lemma call_inv {A} ev (op : W -> Outcome A * W) w r w' t :
  call ev op w = (r, w', t) -> op w = (r, w') /\ t = [ev].
Proof.
  unfold call. destruct (op w) as [r0 w0]. by intros [= <- <- <-].
Qed.

Lemma call_total_inv {A} ev (op : W -> A * W) w r w' t :
  call_total ev op w = (r, w', t) ->
  exists a, op w = (a, w') /\ r = Resolved a /\ t = [ev].
Proof.
  unfold call_total. destruct (op w) as [a0 w0].
  intros [= <- <- <-]. by exists a0.
Qed.

Lemma call_pure_inv {A} ev (o : Outcome A) (w : W) r w' t :
  (call_pure ev o : M W A) w = (r, w', t) -> r = o /\ w' = w /\ t = [ev].
Proof. by intros [= <- <- <-]. Qed.

(** [Promise.all] over one more task. *)
Lemma Promise_all_cons_inv {A B} (f : A -> M W B) x xs w r w' t :
  Promise_all f (x :: xs) w = (r, w', t) ->
  exists rx w1 t1 rs t2,
    f x w = (rx, w1, t1)
    /\ Promise_all f xs w1 = (rs, w', t2)
    /\ t = t1 ++ t2
    /\ r = match rx, rs with
           | Resolved y, Resolved ys => Resolved (y :: ys)
           | Rejected e, _ => Rejected e
           | Resolved _, Rejected e => Rejected e
           end.
Proof.
  intros H. destruct (f x w) as [[rx w1] t1] eqn:Hx.
  destruct (Promise_all f xs w1) as [[rs w2] t2] eqn:Hxs.
  simpl in H. rewrite Hx, Hxs in H. injection H as <- <- <-.
  by eexists _, _, _, _, _.
Qed.

(** The calls of [Promise_all f xs] are calls of [f]. *)
Lemma Promise_all_trace {A B} (P : Event -> Prop) (f : A -> M W B) xs :
  (forall x w r w' t, f x w = (r, w', t) -> Forall P t) ->
  forall w r w' t, Promise_all f xs w = (r, w', t) -> Forall P t.
Proof.
  intros Hf. induction xs as [|x xs IH]; intros w r w' t H.
  - apply mret_inv in H as (_ & _ & ->). constructor.
  - apply Promise_all_cons_inv in H
      as (rx & w1 & t1 & rs & t2 & Hx & Hxs & -> & _).
    apply Forall_app. split; [by eapply Hf | by eapply IH].
Qed.

(** When [Promise_all f xs] resolves, each result comes from its
    element. *)
Lemma Promise_all_resolved {A B} (R : A -> B -> Prop) (f : A -> M W B) xs :
  (forall x w y w' t, f x w = (Resolved y, w', t) -> R x y) ->
  forall w ys w' t, Promise_all f xs w = (Resolved ys, w', t) -> Forall2 R xs ys.
Proof.
  intros Hf. induction xs as [|x xs IH]; intros w ys w' t H.
  - apply mret_inv in H as ([= ->] & _ & _). constructor.
  - apply Promise_all_cons_inv in H
      as (rx & w1 & t1 & rs & t2 & Hx & Hxs & _ & Hr).
    destruct rx as [y|e]; [|discriminate Hr].
    destruct rs as [ys'|e]; [|discriminate Hr].
    injection Hr as ->.
    constructor; [by eapply Hf | by eapply IH].
Qed.

(** What every task keeps, all of them keep. *)
Lemma Promise_all_preserves {A B} (Q : W -> Prop) (f : A -> M W B) xs :
  (forall x w r w' t, f x w = (r, w', t) -> Q w -> Q w') ->
  forall w r w' t, Promise_all f xs w = (r, w', t) -> Q w -> Q w'.
Proof.
  intros Hf. induction xs as [|x xs IH]; intros w r w' t H HQ.
  - by apply mret_inv in H as (_ & -> & _).
  - apply Promise_all_cons_inv in H
      as (rx & w1 & t1 & rs & t2 & Hx & Hxs & _ & _).
    eapply IH; [exact Hxs|]. by eapply Hf.
Qed.

(** [Promise.all] of two: both ran, the second in the world the first
    left. *)
Lemma Promise_all2_inv {A B} (p : M W A) (q : M W B) w r w' t :
  Promise_all2 p q w = (r, w', t) ->
  exists ra w1 t1 rb t2,
    p w = (ra, w1, t1)
    /\ q w1 = (rb, w', t2)
    /\ t = t1 ++ t2
    /\ r = match ra, rb with
           | Resolved a, Resolved b => Resolved (a, b)
           | Rejected e, _ => Rejected e
           | Resolved _, Rejected e => Rejected e
           end.
Proof.
  unfold Promise_all2. destruct (p w) as [[ra w1] t1] eqn:Hp.
  destruct (q w1) as [[rb w2] t2] eqn:Hq.
  intros [= <- <- <-]. by eexists _, _, _, _, _.
Qed.

End Runs.

(* ================================================================== *)
(** * The trace projections over concatenation *)
(* ================================================================== *)

Lemma created_app t1 t2 : created (t1 ++ t2) = created t1 ++ created t2.
Proof. apply omap_app. Qed.

Lemma updated_app t1 t2 : updated (t1 ++ t2) = updated t1 ++ updated t2.
Proof. apply omap_app. Qed.

Lemma revision_bumps_app t1 t2 :
  revision_bumps (t1 ++ t2) = revision_bumps t1 ++ revision_bumps t2.
Proof. apply omap_app. Qed.

Lemma rendered_app t1 t2 : rendered (t1 ++ t2) = rendered t1 ++ rendered t2.
Proof. apply omap_app. Qed.

Lemma bulk_created_app t1 t2 :
  bulk_created (t1 ++ t2) = bulk_created t1 ++ bulk_created t2.
Proof. apply omap_app. Qed.

(* ================================================================== *)
(** * Template compilation *)
(* ================================================================== *)

(** What [Object.assign({}, input.vars, stream.vars)] binds a name to. *)
Lemma Object_assign_lookup (inputVars streamVars : option Vars) (k : string) :
  Object_assign ∅ [inputVars; streamVars] !! k =
  match streamVars ≫= (fun m => m !! k) with
  | Some v => Some v
  | None => inputVars ≫= (fun m => m !! k)
  end.
Proof.
  unfold Object_assign. cbn [foldl].
  destruct inputVars as [iv|], streamVars as [sv|]; cbn.
  - destruct (sv !! k) as [v|] eqn:Hk.
    + by apply lookup_union_Some_l.
    + rewrite lookup_union_r by done. rewrite lookup_union_l; [done|].
      apply lookup_empty.
  - rewrite lookup_union_l; [done | apply lookup_empty].
  - destruct (sv !! k) as [v|] eqn:Hk.
    + by apply lookup_union_Some_l.
    + rewrite lookup_union_r by done. apply lookup_empty.
  - apply lookup_empty.
Qed.

Section CompilerFacts.
Context {W : Type} (c : Collaborators W).

(** Every way [_compilePackageStream] can run on an enabled stream. *)
Lemma _compilePackageStream_enabled registryPkgInfo pkgInfo input stream
    (w : W) r w' t :
  s_enabled stream = true ->
  _compilePackageStream c registryPkgInfo pkgInfo input stream w = (r, w', t) ->
  let variables := Object_assign ∅ [i_vars input; s_vars stream] in
  (exists template yaml,
      r = Resolved (stream_with_compiled_stream stream (Some yaml)) /\
      compileTemplate c variables template = Resolved yaml /\
      rendered t = [(variables, template)])
  \/ (exists e, r = Rejected e /\
                (rendered t = [] \/ exists template, rendered t = [(variables, template)])).
Proof.
  intros Hen H variables. unfold _compilePackageStream in H.
  rewrite Hen in H. cbn [negb] in H.
  destruct (pi_data_streams pkgInfo) as [packageDataStreams|];
    [|apply throw_inv in H as (-> & _ & ->); right; eauto].
  destruct (List.find _ packageDataStreams) as [packageDataStream|];
    [|apply throw_inv in H as (-> & _ & ->); right; eauto].
  destruct (List.find _ (default [] _)) as [streamFromPkg|];
    [|apply throw_inv in H as (-> & _ & ->); right; eauto].
  destruct (negb (truthy _));
    [apply throw_inv in H as (-> & _ & ->); right; eauto|].
  apply bind_inv in H as [(assets & w1 & t1 & t2 & Hassets & H & ->) | (e & Hassets & ->)].
  - apply call_inv in Hassets as [_ ->].
    destruct (head assets ≫= ae_buffer) as [buffer|];
      [|apply throw_inv in H as (-> & _ & ->); right; eauto].
    apply bind_inv in H as [(yaml & w2 & t3 & t4 & Hyaml & H & ->) | (e & Hyaml & ->)].
    + apply call_pure_inv in Hyaml as (Hyaml & -> & ->).
      apply mret_inv in H as (-> & _ & ->).
      left. exists buffer, yaml. by repeat split.
    + apply call_pure_inv in Hyaml as (_ & _ & ->).
      right. exists e. split; [done|]. right. by exists buffer.
  - apply call_inv in Hassets as [_ ->]. right. eauto.
Qed.

Lemma _compilePackageStream_disabled registryPkgInfo pkgInfo input stream (w : W) :
  s_enabled stream = false ->
  _compilePackageStream c registryPkgInfo pkgInfo input stream w =
  (Resolved (stream_with_compiled_stream stream None), w, []).
Proof. intros Hen. unfold _compilePackageStream. by rewrite Hen. Qed.

Lemma _compilePackagePolicyInput_disabled registryPkgInfo pkgInfo input (w : W) :
  i_enabled input = false ->
  _compilePackagePolicyInput c registryPkgInfo pkgInfo input w =
  (Resolved None, w, []).
Proof. intros Hen. unfold _compilePackagePolicyInput. by rewrite Hen. Qed.

(** Compiling a stream changes nothing but its compiled artifact, and
    that is absent after compiling a disabled stream. *)
Lemma _compilePackageStream_resolved registryPkgInfo pkgInfo input stream
    (w : W) stream' w' t :
  _compilePackageStream c registryPkgInfo pkgInfo input stream w =
    (Resolved stream', w', t) ->
  exists compiled, stream' = stream_with_compiled_stream stream compiled /\
                   (s_enabled stream = false -> compiled = None).
Proof.
  intros H. destruct (s_enabled stream) eqn:Hen.
  - eapply _compilePackageStream_enabled in H as
        [(template & yaml & [= ->] & _) | (e & [=] & _)]; [|done].
    by exists (Some yaml).
  - rewrite _compilePackageStream_disabled in H by done.
    injection H as <- _ _. by exists None.
Qed.

(** The calls of the compilation are calls to the registry and to the
    template engine. *)
Lemma _compilePackageStream_calls registryPkgInfo pkgInfo input stream
    (w : W) r w' t :
  _compilePackageStream c registryPkgInfo pkgInfo input stream w = (r, w', t) ->
  Forall (fun ev => is_compile_call ev = true) t.
Proof.
  unfold _compilePackageStream. intros H.
  destruct (negb (s_enabled stream));
    [apply mret_inv in H as (_ & _ & ->); constructor|].
  destruct (pi_data_streams pkgInfo) as [packageDataStreams|];
    [|apply throw_inv in H as (_ & _ & ->); constructor].
  destruct (List.find _ packageDataStreams) as [packageDataStream|];
    [|apply throw_inv in H as (_ & _ & ->); constructor].
  destruct (List.find _ (default [] _)) as [streamFromPkg|];
    [|apply throw_inv in H as (_ & _ & ->); constructor].
  destruct (negb (truthy _));
    [apply throw_inv in H as (_ & _ & ->); constructor|].
  apply bind_inv in H as [(assets & w1 & t1 & t2 & Hassets & H & ->) | (e & Hassets & ->)];
    apply call_inv in Hassets as [_ ->]; [|by repeat constructor].
  constructor; [done|]. cbn [app].
  destruct (head assets ≫= ae_buffer) as [buffer|];
    [|apply throw_inv in H as (_ & _ & ->); constructor].
  apply bind_inv in H as [(yaml & w2 & t3 & t4 & Hyaml & H & ->) | (e & Hyaml & ->)];
    apply call_pure_inv in Hyaml as (_ & _ & ->); [|by repeat constructor].
  apply mret_inv in H as (_ & _ & ->). by repeat constructor.
Qed.

Lemma _compilePackagePolicyInput_calls registryPkgInfo pkgInfo input
    (w : W) r w' t :
  _compilePackagePolicyInput c registryPkgInfo pkgInfo input w = (r, w', t) ->
  Forall (fun ev => is_compile_call ev = true) t.
Proof.
  unfold _compilePackagePolicyInput. intros H.
  destruct (i_enabled input);
    [|apply mret_inv in H as (_ & _ & ->); constructor].
  destruct (policy_template_inputs pkgInfo) as [packageInputs|];
    [|apply mret_inv in H as (_ & _ & ->); constructor].
  destruct (List.find _ packageInputs) as [packageInput|];
    [|apply throw_inv in H as (_ & _ & ->); constructor].
  destruct (negb (truthy _));
    [apply mret_inv in H as (_ & _ & ->); constructor|].
  apply bind_inv in H as [(assets & w1 & t1 & t2 & Hassets & H & ->) | (e & Hassets & ->)];
    apply call_inv in Hassets as [_ ->]; [|by repeat constructor].
  constructor; [done|]. cbn [app].
  destruct (head assets ≫= ae_buffer) as [buffer|];
    [|apply throw_inv in H as (_ & _ & ->); constructor].
  apply bind_inv in H as [(yaml & w2 & t3 & t4 & Hyaml & H & ->) | (e & Hyaml & ->)];
    apply call_pure_inv in Hyaml as (_ & _ & ->); [|by repeat constructor].
  apply mret_inv in H as (_ & _ & ->). by repeat constructor.
Qed.

End CompilerFacts.

Section CompileInputsFacts.
Context {W : Type} (c : Collaborators W).

Lemma compilePackagePolicyInputs_calls pkgInfo inputs (w : W) r w' t :
  PackagePolicyService.compilePackagePolicyInputs c pkgInfo inputs w = (r, w', t) ->
  Forall (fun ev => is_compile_call ev = true) t.
Proof.
  unfold PackagePolicyService.compilePackagePolicyInputs. intros H.
  apply bind_inv in H as [(rp & w1 & t1 & t2 & Hrp & H & ->) | (e & Hrp & ->)];
    apply call_inv in Hrp as [_ ->]; [|by repeat constructor].
  constructor; [done|]. cbn [app].
  revert H. apply Promise_all_trace. clear. intros input w r w' t H.
  apply bind_inv in H as [(ci & w1 & t1 & t2 & Hci & H & ->) | (e & Hci & ->)];
    [|by eapply _compilePackagePolicyInput_calls].
  apply Forall_app. split; [by eapply _compilePackagePolicyInput_calls|].
  apply bind_inv in H as [(cs & w2 & t3 & t4 & Hcs & H & ->) | (e & Hcs & ->)].
  - apply mret_inv in H as (_ & _ & ->). rewrite app_nil_r.
    revert Hcs. apply Promise_all_trace. intros. by eapply _compilePackageStream_calls.
  - revert Hcs. apply Promise_all_trace. intros. by eapply _compilePackageStream_calls.
Qed.

Lemma compilePackagePolicyInputs_resolved pkgInfo inputs (w : W) inputs' w' t :
  PackagePolicyService.compilePackagePolicyInputs c pkgInfo inputs w
    = (Resolved inputs', w', t) ->
  Forall2 compiled_input_of inputs inputs'.
Proof.
  unfold PackagePolicyService.compilePackagePolicyInputs. intros H.
  apply bind_resolved_inv in H as (rp & w1 & t1 & t2 & _ & H & _).
  revert H. apply Promise_all_resolved. clear.
  intros input w input' w' t H.
  apply bind_resolved_inv in H as (ci & w1 & t1 & t2 & Hci & H & _).
  apply bind_resolved_inv in H as (cs & w2 & t3 & t4 & Hcs & H & _).
  apply mret_inv in H as ([= ->] & _ & _).
  exists ci, cs. split_and!; [done| |].
  - intros Hen. rewrite _compilePackagePolicyInput_disabled in Hci by done.
    by injection Hci as <- _ _.
  - revert Hcs. apply Promise_all_resolved. intros stream ? stream' ? ?.
    apply _compilePackageStream_resolved.
Qed.

End CompileInputsFacts.

(** The derived stream identifiers survive the compilation. *)
Lemma streams_identified_assign packagePolicyId inputs :
  streams_identified packagePolicyId
    (map (assignStreamIdToInput packagePolicyId) inputs).
Proof.
  unfold streams_identified. apply Forall_map, Forall_forall. intros input _.
  cbn. apply Forall_map, Forall_forall. intros stream _. reflexivity.
Qed.

Lemma streams_identified_compiled packagePolicyId inputs inputs' :
  Forall2 compiled_input_of inputs inputs' ->
  streams_identified packagePolicyId inputs ->
  streams_identified packagePolicyId inputs'.
Proof.
  unfold streams_identified. induction 1 as [|input input' inputs inputs' Hc _ IH].
  - constructor.
  - intros Hid. apply Forall_cons in Hid as [Hin Hid]. constructor; [|by apply IH].
    destruct Hc as (compiled & streams & -> & _ & Hstreams). cbn.
    clear -Hin Hstreams.
    induction Hstreams as [|stream stream' ss ss' (cs & -> & _) _ IHs].
    + constructor.
    + apply Forall_cons in Hin as [Hs Hin]. constructor; [exact Hs | by apply IHs].
Qed.

(** C6. A disabled input compiles to an absent artifact, and a disabled
    stream comes back with its compiled artifact absent: in both cases
    whatever templates the package defines, leaving the world as it was
    and without a single call to a collaborator, so without fetching any
    template asset.  Hence in the result of [compilePackagePolicyInputs]
    every disabled input and every disabled stream has no compiled
    artifact. *)
Theorem disabled_input_and_stream_are_not_compiled :
  forall {W} (c : Collaborators W) registryPkgInfo pkgInfo (w : W),
    (forall input,
        i_enabled input = false ->
        _compilePackagePolicyInput c registryPkgInfo pkgInfo input w
          = (Resolved None, w, []))
    /\ (forall input stream,
           s_enabled stream = false ->
           _compilePackageStream c registryPkgInfo pkgInfo input stream w
             = (Resolved (stream_with_compiled_stream stream None), w, [])
           /\ s_compiled_stream (stream_with_compiled_stream stream None) = None)
    /\ (forall inputs inputs' w' t,
           PackagePolicyService.compilePackagePolicyInputs c pkgInfo inputs w
             = (Resolved inputs', w', t) ->
           Forall2 (fun input input' =>
                      (i_enabled input = false -> i_compiled_input input' = None)
                      /\ Forall2 (fun stream stream' =>
                                    s_enabled stream = false ->
                                    s_compiled_stream stream' = None)
                                 (i_streams input) (i_streams input'))
                   inputs inputs').
Proof.
  intros W c registryPkgInfo pkgInfo w. split_and!.
  - intros input Hen. by apply _compilePackagePolicyInput_disabled.
  - intros input stream Hen. split; [|done].
    by apply _compilePackageStream_disabled.
  - intros inputs inputs' w' t H.
    apply compilePackagePolicyInputs_resolved in H.
    eapply Forall2_impl; [exact H|]. clear.
    intros input input' (compiled & streams & -> & Hci & Hstreams). cbn. split.
    + intros Hen. by apply Hci.
    + eapply Forall2_impl; [exact Hstreams|].
      intros stream stream' (cs & -> & Hcs). cbn. exact Hcs.
Qed.

(** The disabled sample input and stream, against the sample package,
    which defines a template for both. *)
Lemma disabled_input_and_stream_are_not_compiled_witness :
  _compilePackagePolicyInput Sample.collaborators Sample.nginx_registry
    Sample.nginx_info (Sample.logfile_input false) Sample.world
    = (Resolved None, Sample.world, [])
  /\ s_compiled_stream (Sample.access_stream false) = Some "stale"
  /\ _compilePackageStream Sample.collaborators Sample.nginx_registry
       Sample.nginx_info (Sample.logfile_input true) (Sample.access_stream false)
       Sample.world
     = (Resolved (stream_with_compiled_stream (Sample.access_stream false) None),
        Sample.world, [])
  /\ exists enabled disabled w' t,
       PackagePolicyService.compilePackagePolicyInputs Sample.collaborators
         Sample.nginx_info [Sample.logfile_input true; Sample.logfile_input false]
         Sample.world
       = (Resolved [enabled; disabled], w', t)
       /\ i_compiled_input disabled = None
       /\ (s_compiled_stream <$> i_streams enabled !! 1%nat) = Some None.
Proof.
  destruct (disabled_input_and_stream_are_not_compiled Sample.collaborators
              Sample.nginx_registry Sample.nginx_info Sample.world)
    as (Hinput & Hstream & Hinputs).
  split_and!.
  - apply Hinput. reflexivity.
  - reflexivity.
  - apply Hstream. reflexivity.
  - destruct (PackagePolicyService.compilePackagePolicyInputs
                Sample.collaborators Sample.nginx_info
                [Sample.logfile_input true; Sample.logfile_input false]
                Sample.world) as [[[inputs|e] w'] t] eqn:Hrun;
      [|vm_compute in Hrun; discriminate Hrun].
    specialize (Hinputs _ _ _ _ Hrun).
    apply Forall2_cons_inv_l in Hinputs
      as (enabled & inputs' & [_ Henabled] & Hinputs & ->).
    apply Forall2_cons_inv_l in Hinputs
      as (disabled & inputs'' & [Hdisabled _] & Hinputs & ->).
    apply Forall2_nil_inv_l in Hinputs as ->.
    exists enabled, disabled, w', t. split_and!; [reflexivity | by apply Hdisabled |].
    cbn in Henabled.
    apply Forall2_cons_inv_l in Henabled as (s1 & ss & _ & Henabled & ->).
    apply Forall2_cons_inv_l in Henabled as (s2 & ss' & Hs2 & _ & ->).
    cbn. f_equal. by apply Hs2.
Defined.

(** C5. The template of a stream is rendered with
    [Object.assign({}, input.vars, stream.vars)]: a name bound by the
    stream has the stream's value, any other name the input's.  Whatever
    way the compilation of a stream ends, nothing else was handed to the
    template engine; and when the compilation of an enabled stream
    resolves, the engine was called once, with these bindings, and its
    result is the compiled artifact of the stream. *)
Theorem stream_template_renders_with_stream_vars_over_input_vars :
  forall {W} (c : Collaborators W) registryPkgInfo pkgInfo input stream
         (w : W) r w' t,
    _compilePackageStream c registryPkgInfo pkgInfo input stream w = (r, w', t) ->
    let variables := Object_assign ∅ [i_vars input; s_vars stream] in
    (forall k,
        variables !! k =
        match s_vars stream ≫= (fun m => m !! k) with
        | Some v => Some v
        | None => i_vars input ≫= (fun m => m !! k)
        end)
    /\ Forall (fun binding => binding.1 = variables) (rendered t)
    /\ (forall stream',
           s_enabled stream = true ->
           r = Resolved stream' ->
           exists template yaml,
             rendered t = [(variables, template)] /\
             compileTemplate c variables template = Resolved yaml /\
             s_compiled_stream stream' = Some yaml).
Proof.
  intros W c registryPkgInfo pkgInfo input stream w r w' t H variables.
  split_and!.
  - intros k. apply Object_assign_lookup.
  - destruct (s_enabled stream) eqn:Hen.
    + eapply _compilePackageStream_enabled in H as
          [(template & yaml & _ & _ & ->)
          | (e & _ & [-> | (template & ->)])]; [| | |done];
        by repeat constructor.
    + rewrite _compilePackageStream_disabled in H by done.
      injection H as _ _ <-. constructor.
  - intros stream' Hen ->.
    eapply _compilePackageStream_enabled in H as
        [(template & yaml & [= ->] & Hyaml & Ht) | (e & [=] & _)]; [|done].
    by exists template, yaml.
Qed.

(** Input variables [{a: 1}] and stream variables [{a: 2, b: 3}]: the
    stream template is rendered with [{a: 2, b: 3}]. *)
Lemma stream_template_renders_with_stream_vars_over_input_vars_witness :
  let run :=
    _compilePackageStream Sample.collaborators Sample.nginx_registry
      Sample.nginx_info (Sample.logfile_input true) (Sample.access_stream true)
      Sample.world in
  i_vars (Sample.logfile_input true) = Some {[ "a" := VNum 1 ]}
  /\ s_vars (Sample.access_stream true)
     = Some (<[ "a" := VNum 2 ]> {[ "b" := VNum 3 ]})
  /\ Forall (fun binding =>
               binding.1 !! "a" = Some (VNum 2) /\
               binding.1 !! "b" = Some (VNum 3) /\
               forall k, k <> "a" -> k <> "b" -> binding.1 !! k = None)
            (rendered run.2)
  /\ exists template, map snd (rendered run.2) = [template].
Proof.
  intros run.
  destruct run as [[r w'] t] eqn:Hrun.
  destruct (stream_template_renders_with_stream_vars_over_input_vars
              Sample.collaborators Sample.nginx_registry Sample.nginx_info
              (Sample.logfile_input true) (Sample.access_stream true)
              Sample.world r w' t Hrun)
    as (Hlookup & Hall & Hresolved).
  split_and!; [reflexivity | reflexivity | |].
  - eapply Forall_impl; [exact Hall|]. intros binding ->.
    split_and!.
    + rewrite Hlookup. reflexivity.
    + rewrite Hlookup. reflexivity.
    + intros k Ha Hb. rewrite Hlookup. cbn.
      unfold Sample.stream_vars, Sample.input_vars.
      rewrite lookup_insert_ne by done.
      rewrite !lookup_singleton_ne by done. reflexivity.
  - destruct r as [stream'|e]; [|vm_compute in Hrun; discriminate Hrun].
    destruct (Hresolved stream' eq_refl eq_refl)
      as (template & yaml & Hrendered & _).
    exists template. cbn [snd]. by rewrite Hrendered.
Defined.

(** C8. With no callback registered for the kind, whether the registry
    answers [undefined] or an empty set, [runExternalCallbacks] resolves
    with the policy it was given, unchanged, and leaves the world as it
    was; its only call is the look-up of the callbacks. *)
Theorem runExternalCallbacks_without_callbacks_returns_its_argument :
  forall {W} (c : Collaborators W) externalCallbackType newPackagePolicy (w : W),
    getExternalCallbacks c externalCallbackType w = None
    \/ getExternalCallbacks c externalCallbackType w = Some [] ->
    PackagePolicyService.runExternalCallbacks c externalCallbackType
      newPackagePolicy w
    = (Resolved newPackagePolicy, w, [GetExternalCallbacks externalCallbackType]).
Proof.
  intros W c kind policy w Hnone.
  unfold PackagePolicyService.runExternalCallbacks.
  rewrite run_bind. unfold call_total.
  destruct Hnone as [-> | ->]; reflexivity.
Qed.

Lemma runExternalCallbacks_without_callbacks_returns_its_argument_witness :
  PackagePolicyService.runExternalCallbacks Sample.collaborators
    packagePolicyCreate (Sample.policy "nginx-1" (Some Sample.nginx_package))
    Sample.world
  = (Resolved (Sample.policy "nginx-1" (Some Sample.nginx_package)),
     Sample.world, [GetExternalCallbacks packagePolicyCreate]).
Proof.
  apply (runExternalCallbacks_without_callbacks_returns_its_argument
           Sample.collaborators).
  left. reflexivity.
Defined.

(* ================================================================== *)
(** * What the preparation of a write cannot do *)
(* ================================================================== *)

Lemma compile_call_is_preparation_call t :
  Forall (fun ev => is_compile_call ev = true) t ->
  Forall (fun ev => is_preparation_call ev = true) t.
Proof. intros H. eapply Forall_impl; [exact H|]. by intros []. Qed.

Lemma preparation_writes_nothing t :
  Forall (fun ev => is_preparation_call ev = true) t ->
  created t = [] /\ updated t = [] /\ revision_bumps t = []
  /\ List.filter is_DateNow t = [] /\ List.filter is_UuidV4 t = [].
Proof.
  induction 1 as [|ev t Hev _ IH]; [done|].
  destruct IH as (? & ? & ? & ? & ?). by destruct ev.
Qed.

Section CreateFacts.
Context {W : Type} (c : Collaborators W).

(** Everything a resolved [create] went through. *)
Lemma create_resolved packagePolicy options (w : W) result w' t :
  PackagePolicyService.create c packagePolicy options w = (Resolved result, w', t) ->
  let user := options ≫= co_user in
  exists packagePolicyId t_id inputs t_prepare isoDate w_clock w_date newSo w_so,
    let attributes :=
      PackagePolicyService.new_attributes packagePolicy inputs
        (np_policy_id packagePolicy) isoDate user in
    (truthy (options ≫= co_id) = true /\
       options ≫= co_id = Some packagePolicyId /\ t_id = []
     \/ truthy (options ≫= co_id) = false /\ t_id = [UuidV4] /\
        exists w1 w2, uuid_v4 c w1 = (packagePolicyId, w2))
    /\ streams_identified packagePolicyId inputs
    /\ Forall (fun ev => is_preparation_call ev = true) t_prepare
    /\ toISOString_now c w_clock = (isoDate, w_date)
    /\ soClient_create c attributes packagePolicyId w_date = (Resolved newSo, w_so)
    /\ agentPolicyService_assignPackagePolicies c (np_policy_id packagePolicy)
         [so_id newSo] user (default true (options ≫= co_bumpRevision)) w_so
       = (Resolved (), w')
    /\ result = packagePolicy_of_so newSo
    /\ t = AgentPolicyGet (np_policy_id packagePolicy) None :: t_id ++ t_prepare
           ++ [DateNow; SoCreate packagePolicyId attributes;
               AssignPackagePolicies (np_policy_id packagePolicy) [so_id newSo]
                 user (default true (options ≫= co_bumpRevision))].
Proof.
  intros H user. unfold PackagePolicyService.create in H.
  apply bind_resolved_inv in H as (parent & w1 & t1 & t2 & Hparent & H & ->).
  apply call_inv in Hparent as [Hparent ->].
  destruct parent as [parent|]; [|by apply throw_inv in H as ([=] & _)].
  destruct (ap_is_managed parent); [by apply throw_inv in H as ([=] & _)|].
  destruct (List.find _ _); [by apply throw_inv in H as ([=] & _)|].
  apply bind_resolved_inv in H as (pid & w2 & t_id & t3 & Hid & H & ->).
  apply bind_resolved_inv in H as (inputs & w3 & t_pkg & t4 & Hpkg & H & ->).
  apply bind_resolved_inv in H as (iso & w4 & t5 & t6 & Hiso & H & ->).
  apply call_total_inv in Hiso as (iso' & Hiso & [= <-] & ->).
  apply bind_resolved_inv in H as (so & w5 & t7 & t8 & Hso & H & ->).
  apply call_inv in Hso as [Hso ->].
  apply bind_resolved_inv in H as ([] & w6 & t9 & t10 & Hassign & H & ->).
  apply call_inv in Hassign as [Hassign ->].
  apply mret_inv in H as ([= ->] & -> & ->).
  exists pid, t_id, inputs, t_pkg, iso, w3, w4, so, w5.
  split_and!; try done.
  - unfold PackagePolicyService.choose_id in Hid.
    destruct (truthy (options ≫= co_id)) eqn:Htruthy.
    + left. apply mret_inv in Hid as ([= ->] & _ & ->).
      split_and!; [done| |done].
      destruct (options ≫= co_id); [done | discriminate Htruthy].
    + right. apply call_total_inv in Hid as (pid' & Hid & [= ->] & ->).
      split_and!; [done|done|]. by exists w1, w2.
  - pose proof (streams_identified_assign pid (np_inputs packagePolicy)) as Hids.
    destruct (np_package packagePolicy) as [package|];
      [|by apply mret_inv in Hpkg as ([= ->] & _ & _)].
    destruct (truthy (Some (pkg_name package)));
      [|by apply mret_inv in Hpkg as ([= ->] & _ & _)].
    apply bind_resolved_inv in Hpkg as ([[] pkgInfo] & ? & ? & ? & _ & Hpkg & _).
    apply bind_resolved_inv in Hpkg as (? & ? & ? & ? & _ & Hpkg & _).
    apply compilePackagePolicyInputs_resolved in Hpkg.
    by eapply streams_identified_compiled.
  - destruct (np_package packagePolicy) as [package|];
      [|apply mret_inv in Hpkg as (_ & _ & ->); constructor].
    destruct (truthy (Some (pkg_name package)));
      [|apply mret_inv in Hpkg as (_ & _ & ->); constructor].
    apply bind_resolved_inv in Hpkg as ([[] pkgInfo] & ? & ? & ? & Hboth & Hpkg & ->).
    apply Promise_all2_inv in Hboth
      as (ra & ? & ? & rb & ? & Hensure & Hinfo & -> & _).
    apply call_inv in Hensure as [_ ->]. apply call_inv in Hinfo as [_ ->].
    apply bind_resolved_inv in Hpkg as (? & ? & t_limited & ? & Hlimited & Hpkg & ->).
    constructor; [done|]. constructor; [done|]. cbn [app].
    apply Forall_app. split.
    + destruct (isPackageLimited c pkgInfo);
        [|apply mret_inv in Hlimited as (_ & _ & ->); constructor].
      apply bind_resolved_inv in Hlimited as (? & ? & ? & ? & Hget & Hlimited & ->).
      apply call_inv in Hget as [_ ->].
      constructor; [done|]. cbn [app].
      repeat case_match;
        first [ apply mret_inv in Hlimited as (_ & _ & ->)
              | apply throw_inv in Hlimited as (_ & _ & ->) ]; constructor.
    + apply compile_call_is_preparation_call.
      by eapply compilePackagePolicyInputs_calls.
Qed.

End CreateFacts.

Lemma attributes_of_so so : attributes_of (packagePolicy_of_so so) = so_attributes so.
Proof. by destruct so as [? ? []]. Qed.

Lemma find_is_Some {A} (f : A -> bool) (l : list A) :
  (exists x, x ∈ l /\ f x = true) <-> is_Some (List.find f l).
Proof.
  split.
  - intros (x & Hx & Hfx). destruct (List.find f l) eqn:Hfind; [done|].
    apply list_elem_of_In in Hx.
    pose proof (List.find_none f l Hfind x Hx). congruence.
  - intros [x Hfind]. apply List.find_some in Hfind as [Hx Hfx].
    exists x. split; [by apply list_elem_of_In | done].
Qed.

Lemma mem_create_answers_attributes engine callbacks :
  create_answers_attributes (Mem.collaborators engine callbacks).
Proof.
  intros attributes id w so w'. cbn. unfold Mem.mem_create.
  destruct (Mem.package_policies w !! id); [done|]. by intros [= <- _].
Qed.

(** The record [create] returns has revision 1 when the store answers
    with what it was given. *)
Lemma create_returns_revision_1 {W}
    (c : Collaborators W) packagePolicy options (w : W) result w' t :
  create_answers_attributes c ->
  PackagePolicyService.create c packagePolicy options w
    = (Resolved result, w', t) ->
  pp_revision result = 1.
Proof.
  intros Hanswers H.
  apply create_resolved in H as
      (pid & t_id & inputs & t_prepare & iso & w_clock & w_date & so & w_so
       & _ & _ & _ & _ & Hso & _ & -> & _).
  cbn. by rewrite (Hanswers _ _ _ _ _ Hso).
Qed.

(** The derived identifiers, spelled out. *)
Lemma streams_identified_spelled packagePolicyId inputs :
  streams_identified packagePolicyId inputs ->
  Forall (fun input =>
            Forall (fun stream =>
                      s_id stream
                      = Some (i_type input +:+ "-"
                              +:+ dataset (s_data_stream stream) +:+ "-"
                              +:+ packagePolicyId))
                   (i_streams input))
         inputs.
Proof. intros H. exact H. Qed.

Lemma spelled_stream_ids packagePolicyId inputs :
  Forall (fun input =>
            Forall (fun stream =>
                      s_id stream
                      = Some (i_type input +:+ "-"
                              +:+ dataset (s_data_stream stream) +:+ "-"
                              +:+ packagePolicyId))
                   (i_streams input))
         inputs ->
  map (fun input => map s_id (i_streams input)) inputs
  = map (fun input =>
           map (fun stream =>
                  Some (i_type input +:+ "-"
                        +:+ dataset (s_data_stream stream) +:+ "-"
                        +:+ packagePolicyId))
               (i_streams input))
        inputs.
Proof.
  induction 1 as [|input inputs Hinput _ IH]; [done|].
  cbn [map]. f_equal; [|exact IH]. clear -Hinput.
  induction Hinput as [|stream streams Hstream _ IHs]; [done|].
  cbn [map]. by f_equal.
Qed.

(** C1. When [create] resolves, one record was handed to the store,
    under the id that was supplied or, when none (or the empty one) was,
    under the one [uuid.v4] gave.  That record has revision 1, its
    creation and update stamps set to a reading of the clock and to the
    user's name, ["system"] when no user is supplied, and the id of every
    stream of every input is the type of the input, a dash, the dataset
    of the stream, a dash, and the id of the package policy:
    [`${input.type}-${stream.data_stream.dataset}-${packagePolicyId}`].
    The record returned is the saved object the store answered with; for
    a store that answers with the attributes it was given it has the
    same revision, stamps and stream identifiers. *)
Theorem create_persists_revision_1_stamps_and_stream_ids :
  forall {W} (c : Collaborators W) packagePolicy options (w : W) result w' t,
    PackagePolicyService.create c packagePolicy options w
      = (Resolved result, w', t) ->
    let user := options ≫= co_user in
    exists packagePolicyId isoDate attributes,
      let derived_stream_ids inputs :=
        Forall (fun input =>
                  Forall (fun stream =>
                            s_id stream
                            = Some (i_type input +:+ "-"
                                    +:+ dataset (s_data_stream stream) +:+ "-"
                                    +:+ packagePolicyId))
                         (i_streams input))
               inputs in
      created t = [(packagePolicyId, attributes)]
      /\ (options ≫= co_id = Some packagePolicyId /\ packagePolicyId <> ""
          \/ truthy (options ≫= co_id) = false /\
             In UuidV4 t /\
             exists w1 w2, uuid_v4 c w1 = (packagePolicyId, w2))
      /\ (exists w1 w2, toISOString_now c w1 = (isoDate, w2))
      /\ stamped_as_new packagePolicyId isoDate user attributes
      /\ derived_stream_ids (a_inputs attributes)
      /\ (user = None ->
          a_created_by attributes = "system" /\ a_updated_by attributes = "system")
      /\ (create_answers_attributes c ->
          stamped_as_new packagePolicyId isoDate user (attributes_of result)
          /\ derived_stream_ids (pp_inputs result)
          /\ pp_revision result = 1).
Proof.
  intros W c packagePolicy options w result w' t H user.
  apply create_resolved in H as
      (pid & t_id & inputs & t_prepare & iso & w_clock & w_date & so & w_so
       & Hid & Hids & Hprepare & Hclock & Hso & _ & -> & ->).
  apply preparation_writes_nothing in Hprepare as (Hcreated & _).
  exists pid, iso,
    (PackagePolicyService.new_attributes packagePolicy inputs
       (np_policy_id packagePolicy) iso user).
  assert (stamped_as_new pid iso user
            (PackagePolicyService.new_attributes packagePolicy inputs
               (np_policy_id packagePolicy) iso user)) as Hstamped.
  { by repeat split. }
  cbv zeta. split_and!.
  - change (AgentPolicyGet ?i ?b :: ?l) with ([AgentPolicyGet i b] ++ l).
    rewrite !created_app, Hcreated.
    destruct Hid as [(_ & _ & ->) | (_ & -> & _)]; reflexivity.
  - destruct Hid as [(Htruthy & Hsome & _) | (Hfalsy & -> & Huuid)].
    + left. split; [done|]. intros ->. rewrite Hsome in Htruthy. discriminate.
    + right. split_and!; [done| |done]. right. by left.
  - by exists w_clock, w_date.
  - exact Hstamped.
  - by apply streams_identified_spelled.
  - intros Hnone. by rewrite Hnone.
  - intros Hanswers. rewrite attributes_of_so.
    rewrite (Hanswers _ _ _ _ _ Hso). split_and!; [exact Hstamped | |].
    + cbn. rewrite (Hanswers _ _ _ _ _ Hso).
      by apply streams_identified_spelled.
    + cbn. by rewrite (Hanswers _ _ _ _ _ Hso).
Qed.

(** The sample policy, created without options in the sample world:
    the streams of its two [logfile] inputs, all of the dataset
    [nginx.access], carry [logfile-nginx.access-uuid-0]. *)
Lemma create_persists_revision_1_stamps_and_stream_ids_witness :
  exists result w' t,
    PackagePolicyService.create Sample.collaborators
      (Sample.policy "nginx-1" (Some Sample.nginx_package)) None Sample.world
    = (Resolved result, w', t)
    /\ pp_revision result = 1
    /\ exists packagePolicyId attributes,
         created t = [(packagePolicyId, attributes)]
         /\ packagePolicyId = "uuid-0"
         /\ a_revision attributes = 1
         /\ a_created_by attributes = "system"
         /\ streams_identified packagePolicyId (a_inputs attributes)
         /\ map (fun input => map s_id (i_streams input)) (a_inputs attributes)
            = [[Some "logfile-nginx.access-uuid-0";
                Some "logfile-nginx.access-uuid-0"];
               [Some "logfile-nginx.access-uuid-0";
                Some "logfile-nginx.access-uuid-0"]].
Proof.
  destruct (PackagePolicyService.create Sample.collaborators
              (Sample.policy "nginx-1" (Some Sample.nginx_package)) None
              Sample.world) as [[[result|e] w'] t] eqn:Hrun;
    [|vm_compute in Hrun; discriminate Hrun].
  exists result, w', t. split; [reflexivity|].
  destruct (create_persists_revision_1_stamps_and_stream_ids
              Sample.collaborators _ _ _ _ _ _ Hrun)
    as (pid & iso & attributes & Hcreated & _ & _ & Hstamped & Hformat
        & Hsystem & Hresult).
  destruct (Hresult (mem_create_answers_attributes _ _)) as (_ & _ & Hrevision).
  split; [exact Hrevision|].
  exists pid, attributes.
  destruct Hstamped as (Hrev & _ & _ & _ & _ & Hids).
  destruct (Hsystem eq_refl) as [Hby _].
  assert (pid = "uuid-0"
          /\ map (fun input => (i_type input,
                                map (fun stream => dataset (s_data_stream stream))
                                    (i_streams input)))
                 (a_inputs attributes)
             = [("logfile", ["nginx.access"; "nginx.access"]);
                ("logfile", ["nginx.access"; "nginx.access"])])
    as [Hpid Hinputs].
  { vm_compute in Hrun. injection Hrun as _ _ <-.
    vm_compute in Hcreated. by injection Hcreated as <- <-. }
  split_and!; try done.
  rewrite (spelled_stream_ids _ _ Hformat), Hpid. clear -Hinputs.
  transitivity
    (map (fun entry =>
            map (fun d => Some (entry.1 +:+ "-" +:+ d +:+ "-" +:+ "uuid-0"))
                entry.2)
         (map (fun input =>
                 (i_type input,
                  map (fun stream => dataset (s_data_stream stream))
                      (i_streams input)))
              (a_inputs attributes))).
  - rewrite List.map_map. apply List.map_ext. intros input. cbn [fst snd].
    by rewrite List.map_map.
  - rewrite Hinputs. reflexivity.
Defined.



(** C3. When the agent policy the new policy is meant for already has a
    package policy of the same name, [create] is rejected with a Conflict
    error: the same-name error, or, when that agent policy is managed,
    the managed-policy error that is checked first.  Whether the new
    policy references a package plays no part: the look-up of the agent
    policy is the only call made, so nothing was installed, fetched,
    compiled or stored. *)
Theorem create_rejects_a_sibling_with_the_same_name :
  forall {W} (c : Collaborators W) packagePolicy options (w : W)
         parentAgentPolicy w1,
    agentPolicyService_get c (np_policy_id packagePolicy) None w
      = (Resolved (Some parentAgentPolicy), w1) ->
    (exists siblingPackagePolicy,
        siblingPackagePolicy ∈ ap_package_policies parentAgentPolicy /\
        pp_name siblingPackagePolicy = np_name packagePolicy) ->
    exists error,
      PackagePolicyService.create c packagePolicy options w
        = (Rejected error, w1, [AgentPolicyGet (np_policy_id packagePolicy) None])
      /\ ConflictError error
      /\ (ap_is_managed parentAgentPolicy = false ->
          error = Error SAME_NAME_MESSAGE).
Proof.
  intros W c packagePolicy options w parent w1 Hget (sibling & Hin & Hname).
  unfold PackagePolicyService.create. rewrite run_bind. unfold call at 1.
  rewrite Hget.
  destruct (ap_is_managed parent).
  - eexists. split_and!; [reflexivity | constructor | done].
  - assert (is_Some (List.find
                       (fun siblingPackagePolicy =>
                          String.eqb (pp_name siblingPackagePolicy)
                                     (np_name packagePolicy))
                       (ap_package_policies parent))) as [found ->].
    { apply find_is_Some. exists sibling. split; [done|].
      by apply String.eqb_eq. }
    eexists. split_and!; [reflexivity | constructor | done].
Qed.

(** A policy named like the one already on the sample agent policy,
    once with and once without a package reference. *)
Lemma create_rejects_a_sibling_with_the_same_name_witness :
  PackagePolicyService.create Sample.collaborators
    (Sample.policy "nginx-1" (Some Sample.nginx_package)) None
    Sample.world_with_policy
  = (Rejected (Error SAME_NAME_MESSAGE), Sample.world_with_policy,
     [AgentPolicyGet "agent-1" None])
  /\ PackagePolicyService.create Sample.collaborators
       (Sample.policy "nginx-1" None) None Sample.world_with_policy
     = (Rejected (Error SAME_NAME_MESSAGE), Sample.world_with_policy,
        [AgentPolicyGet "agent-1" None]).
Proof.
  assert (forall package,
             PackagePolicyService.create Sample.collaborators
               (Sample.policy "nginx-1" package) None Sample.world_with_policy
             = (Rejected (Error SAME_NAME_MESSAGE), Sample.world_with_policy,
                [AgentPolicyGet "agent-1" None])) as Hany.
  { intros package.
    edestruct (create_rejects_a_sibling_with_the_same_name Sample.collaborators
                 (Sample.policy "nginx-1" package) None Sample.world_with_policy)
      as (error & Hrun & _ & Herror).
    - reflexivity.
    - eexists. split; [by left | reflexivity].
    - rewrite Hrun, Herror; reflexivity. }
  split; apply Hany.
Defined.

(* ================================================================== *)
(** * bulkCreate *)
(* ================================================================== *)

Lemma draws_write_nothing n :
  bulk_created (replicate n UuidV4) = []
  /\ List.filter is_DateNow (replicate n UuidV4) = [].
Proof. induction n as [|n [IH1 IH2]]; [done|]. by cbn. Qed.

Section BulkCreateFacts.
Context {W : Type} (c : Collaborators W).

(** The objects of a batch: one per policy, in order, each under its own
    draw of [uuid.v4], for the agent policy and the date of the batch. *)
Lemma bulkCreate_objects agentPolicyId isoDate user packagePolicies (w : W) :
  exists objects w',
    mapM (fun packagePolicy =>
            packagePolicyId ← call_total UuidV4 (uuid_v4 c);
            let inputs :=
              map (assignStreamIdToInput packagePolicyId)
                  (np_inputs packagePolicy) in
            mret (packagePolicyId,
                  PackagePolicyService.new_attributes packagePolicy inputs
                    agentPolicyId isoDate user))
         packagePolicies w
    = (Resolved objects, w', replicate (length packagePolicies) UuidV4)
    /\ Forall2 (fun packagePolicy object =>
                 a_policy_id object.2 = agentPolicyId
                 /\ a_created_at object.2 = isoDate
                 /\ a_updated_at object.2 = isoDate
                 /\ a_revision object.2 = 1
                 /\ a_name object.2 = np_name packagePolicy
                 /\ streams_identified object.1 (a_inputs object.2))
               packagePolicies objects.
Proof.
  revert w. induction packagePolicies as [|packagePolicy rest IH]; intros w.
  - exists [], w. split; [reflexivity | constructor].
  - cbn [mapM].
    destruct (uuid_v4 c w) as [packagePolicyId w1] eqn:Huuid.
    destruct (IH w1) as (objects & w' & Hrest & Hobjects).
    eexists (_ :: objects), w'. split.
    + erewrite run_bind_resolved.
      2:{ erewrite run_bind_resolved; [reflexivity|].
          unfold call_total. by rewrite Huuid. }
      cbv beta. erewrite run_bind_resolved by exact Hrest.
      unfold mret, M_ret. cbn [app length replicate].
      rewrite app_nil_r. reflexivity.
    + constructor; [|exact Hobjects].
      split_and!; try reflexivity. apply streams_identified_assign.
Qed.

End BulkCreateFacts.

(** C10. Whatever the policies of a batch say about their agent policy,
    every record [bulkCreate] hands to the store references the
    [agentPolicyId] argument; and all the records of the batch carry the
    one timestamp read from the clock when [bulkCreate] starts, as
    creation and as update time.  The batch is handed over once, with one
    record per policy, in order. *)
Theorem bulkCreate_overwrites_policy_id_and_shares_one_timestamp :
  forall {W} (c : Collaborators W) packagePolicies agentPolicyId options (w : W),
    exists isoDate w1 objects,
      let t :=
        (PackagePolicyService.bulkCreate c packagePolicies agentPolicyId
           options w).2 in
      toISOString_now c w = (isoDate, w1)
      /\ bulk_created t = [objects]
      /\ List.filter is_DateNow t = [DateNow]
      /\ Forall2 (fun packagePolicy object =>
                   a_policy_id object.2 = agentPolicyId
                   /\ a_created_at object.2 = isoDate
                   /\ a_updated_at object.2 = isoDate
                   /\ a_revision object.2 = 1
                   /\ a_name object.2 = np_name packagePolicy
                   /\ streams_identified object.1 (a_inputs object.2))
                 packagePolicies objects.
Proof.
  intros W c packagePolicies agentPolicyId options w.
  destruct (toISOString_now c w) as [isoDate w1] eqn:Hclock.
  destruct (bulkCreate_objects c agentPolicyId isoDate (options ≫= bo_user)
              packagePolicies w1) as (objects & w2 & Hobjects & Hall).
  exists isoDate, w1, objects. cbn zeta.
  split; [reflexivity|].
  assert (exists r w' rest,
             PackagePolicyService.bulkCreate c packagePolicies agentPolicyId
               options w
             = (r, w', [DateNow] ++ replicate (length packagePolicies) UuidV4
                         ++ [SoBulkCreate objects] ++ rest)
             /\ (rest = [] \/
                 exists ids user bump,
                   rest = [AssignPackagePolicies agentPolicyId ids user bump]))
    as (r & w' & rest & -> & Hrest).
  { unfold PackagePolicyService.bulkCreate. cbv zeta.
    erewrite run_bind_resolved; [|unfold call_total; by rewrite Hclock].
    erewrite run_bind_resolved by exact Hobjects.
    rewrite run_bind. unfold call at 1.
    destruct (soClient_bulkCreate c objects w2) as [[saved_objects|e] w3];
      [|eexists _, _, []; split; [reflexivity | by left]].
    rewrite run_bind. unfold call at 1.
    destruct (agentPolicyService_assignPackagePolicies c _ _ _ _ w3)
      as [[[]|e] w4]; unfold mret, M_ret;
      (eexists _, _, [_]; split; [reflexivity | right; eauto]). }
  cbn [snd]. rewrite !bulk_created_app, !List.filter_app.
  destruct (draws_write_nothing (length packagePolicies)) as [-> ->].
  destruct Hrest as [-> | (ids & user & bump & ->)]; by split_and!.
Qed.

(* ================================================================== *)
(** * delete *)
(* ================================================================== *)

Section DeleteFacts.
Context {W : Type} (c : Collaborators W).

(** The [try] block resolves when the policy was fetched, unassigned
    (unless that is skipped) and deleted; it is rejected with what the
    first failing step threw. *)
Lemma delete_try_cases id options (w : W) r w' t :
  PackagePolicyService.delete_try c id options w = (r, w', t) ->
  let skip := default false (options ≫= do_skipUnassignFromAgentPolicies) in
  let unassign packagePolicy :=
    agentPolicyService_unassignPackagePolicies c (pp_policy_id packagePolicy)
      [pp_id packagePolicy] (options ≫= do_user) in
  (exists packagePolicy w1 t1 w2,
      r = Resolved packagePolicy
      /\ PackagePolicyService.get c id w = (Resolved (Some packagePolicy), w1, t1)
      /\ (if skip then w2 = w1 else unassign packagePolicy w1 = (Resolved (), w2))
      /\ soClient_delete c id w2 = (Resolved (), w'))
  \/ (exists error,
         r = Rejected error
         /\ (PackagePolicyService.get c id w = (Rejected error, w', t)
             \/ (PackagePolicyService.get c id w = (Resolved None, w', t)
                 /\ error = Error "Package policy not found")
             \/ (exists packagePolicy w1 t1,
                    PackagePolicyService.get c id w
                      = (Resolved (Some packagePolicy), w1, t1)
                    /\ skip = false
                    /\ unassign packagePolicy w1 = (Rejected error, w'))
             \/ (exists packagePolicy w1 t1 w2,
                    PackagePolicyService.get c id w
                      = (Resolved (Some packagePolicy), w1, t1)
                    /\ (if skip then w2 = w1
                        else unassign packagePolicy w1 = (Resolved (), w2))
                    /\ soClient_delete c id w2 = (Rejected error, w')))).
Proof.
  intros H skip unassign. unfold PackagePolicyService.delete_try in H.
  apply bind_inv in H as [(found & w1 & t1 & t2 & Hget & H & ->) | (e & Hget & ->)];
    [|right; exists e; split; [done | by left]].
  destruct found as [packagePolicy|].
  2:{ apply throw_inv in H as (-> & -> & ->). rewrite app_nil_r.
      right. eexists. split; [done|]. right. left. done. }
  fold skip in H.
  apply bind_inv in H as [([] & w2 & t3 & t4 & Hunassign & H & ->) | (e & Hunassign & ->)].
  - assert (if skip then w2 = w1
            else unassign packagePolicy w1 = (Resolved (), w2)) as Hstep.
    { destruct skip; cbn [negb] in Hunassign.
      - by apply mret_inv in Hunassign as (_ & -> & _).
      - by apply call_inv in Hunassign as [Hunassign _]. }
    apply bind_inv in H as [([] & w3 & t5 & t6 & Hdelete & H & ->) | (e & Hdelete & ->)].
    + apply call_inv in Hdelete as [Hdelete _].
      apply mret_inv in H as (-> & -> & _).
      left. by exists packagePolicy, w1, t1, w2.
    + apply call_inv in Hdelete as [Hdelete _].
      right. exists e. split; [done|]. do 3 right.
      by exists packagePolicy, w1, t1, w2.
  - destruct skip eqn:Hskip; cbn [negb] in Hunassign.
    + by apply mret_inv in Hunassign as ([=] & _).
    + apply call_inv in Hunassign as [Hunassign _].
      right. exists e. split; [done|]. do 2 right. left.
      by exists packagePolicy, w1, t1.
Qed.

(** The loop of [delete], from any [result] collected so far. *)
Lemma delete_loop options ids : forall result (w : W),
  exists results w' t,
    for_of ids
      (fun result id =>
         try_catch
           (packagePolicy ← PackagePolicyService.delete_try c id options;
            mret (result ++ [PackagePolicyService.delete_success id packagePolicy]))
           (fun error =>
              mret (result ++ [PackagePolicyService.delete_failure c id error])))
      result w
    = (Resolved (result ++ results), w', t)
    /\ deleted c options ids w results w'.
Proof.
  induction ids as [|id ids IH]; intros result w.
  - exists [], w, []. rewrite app_nil_r. split; [reflexivity | constructor].
  - cbn [for_of].
    destruct (PackagePolicyService.delete_try c id options w)
      as [[[packagePolicy|error] w1] t1] eqn:Htry.
    + destruct (IH (result ++ [PackagePolicyService.delete_success id packagePolicy]) w1)
        as (results & w' & t & Hrest & Hdeleted).
      exists (PackagePolicyService.delete_success id packagePolicy :: results), w'.
      eexists. split; [|by eapply deleted_success].
      erewrite run_bind_resolved.
      2:{ unfold try_catch. erewrite run_bind_resolved by exact Htry.
          reflexivity. }
      rewrite Hrest. by rewrite <- app_assoc.
    + destruct (IH (result ++ [PackagePolicyService.delete_failure c id error]) w1)
        as (results & w' & t & Hrest & Hdeleted).
      exists (PackagePolicyService.delete_failure c id error :: results), w'.
      eexists. split; [|by eapply deleted_failure].
      erewrite run_bind_resolved.
      2:{ unfold try_catch. erewrite run_bind_rejected by exact Htry.
          reflexivity. }
      rewrite Hrest. by rewrite <- app_assoc.
Qed.

(** One entry per id, in order, each of success or of failure. *)
Lemma deleted_entries options ids (w : W) results w' :
  deleted c options ids w results w' ->
  Forall2 (fun id entry =>
             dr_id entry = id
             /\ (dr_success entry = true /\ is_Some (dr_name entry)
                 \/ dr_success entry = false /\ dr_name entry = None))
          ids results.
Proof.
  induction 1; constructor; try done.
  - split; [done|]. left. by split.
  - split; [done|]. right. by split.
Qed.

End DeleteFacts.

(** C4. [delete] always resolves, with one entry per id it was given,
    in the same order.  The ids are taken one after the other: each is
    tried in the world the previous one left, whether that one succeeded
    or failed, and nothing a failed one did is undone.  An id gives the
    entry [{ id, name, success: true }] when its policy was fetched,
    unassigned from its agent policy (unless that is skipped) and deleted
    from the store; it gives an entry with [success: false] when fetching
    threw or found nothing, or unassigning threw, or deleting threw.  The entry of a
    success holds the id, the name of the policy fetched and
    [success: true], and nothing else; the entry of a failure holds the
    id, [success: false] and the status code and body
    [ingestErrorToResponseOptions] gives for the error, and no name. *)
Theorem delete_reports_every_id_in_order :
  forall {W} (c : Collaborators W) ids options (w : W),
    (exists results w' t,
        PackagePolicyService.delete c ids options w = (Resolved results, w', t)
        /\ deleted c options ids w results w'
        /\ length results = length ids
        /\ map dr_id results = ids
        /\ Forall2 (fun id entry =>
                     dr_id entry = id
                     /\ (dr_success entry = true /\ is_Some (dr_name entry)
                         \/ dr_success entry = false /\ dr_name entry = None))
                  ids results)
    /\ (forall id w0 r w1 t1,
           PackagePolicyService.delete_try c id options w0 = (r, w1, t1) ->
           let skip :=
             default false (options ≫= do_skipUnassignFromAgentPolicies) in
           let unassign packagePolicy :=
             agentPolicyService_unassignPackagePolicies c
               (pp_policy_id packagePolicy) [pp_id packagePolicy]
               (options ≫= do_user) in
           (exists packagePolicy wa ta wb,
               r = Resolved packagePolicy
               /\ PackagePolicyService.get c id w0
                  = (Resolved (Some packagePolicy), wa, ta)
               /\ (if skip then wb = wa
                   else unassign packagePolicy wa = (Resolved (), wb))
               /\ soClient_delete c id wb = (Resolved (), w1))
           \/ (exists error,
                  r = Rejected error
                  /\ (PackagePolicyService.get c id w0 = (Rejected error, w1, t1)
                      \/ (PackagePolicyService.get c id w0 = (Resolved None, w1, t1)
                          /\ error = Error "Package policy not found")
                      \/ (exists packagePolicy wa ta,
                             PackagePolicyService.get c id w0
                               = (Resolved (Some packagePolicy), wa, ta)
                             /\ skip = false
                             /\ unassign packagePolicy wa = (Rejected error, w1))
                      \/ (exists packagePolicy wa ta wb,
                             PackagePolicyService.get c id w0
                               = (Resolved (Some packagePolicy), wa, ta)
                             /\ (if skip then wb = wa
                                 else unassign packagePolicy wa = (Resolved (), wb))
                             /\ soClient_delete c id wb = (Rejected error, w1)))))
    /\ (forall id packagePolicy,
           PackagePolicyService.delete_success id packagePolicy
           = {| dr_id := id;
                dr_name := Some (pp_name packagePolicy);
                dr_success := true;
                dr_statusCode := None;
                dr_body := None |})
    /\ (forall id error,
           PackagePolicyService.delete_failure c id error
           = {| dr_id := id;
                dr_name := None;
                dr_success := false;
                dr_statusCode :=
                  ro_statusCode (ingestErrorToResponseOptions c error);
                dr_body := ro_body (ingestErrorToResponseOptions c error) |}).
Proof.
  intros W c ids options w. split_and!; [|
    intros id w0 r w1 t1 Htry; by apply delete_try_cases
    | reflexivity | reflexivity].
  - destruct (delete_loop c options ids [] w) as (results & w' & t & Hrun & Hdeleted).
    exists results, w', t.
    pose proof (deleted_entries c options ids w results w' Hdeleted) as Hentries.
    split_and!; [exact Hrun | exact Hdeleted | | | exact Hentries].
    + symmetry. by eapply Forall2_length.
    + clear -Hentries. induction Hentries as [|id entry ids results [Hid _] _ IH];
        [done|]. cbn. by rewrite Hid, IH.
Qed.

(* ================================================================== *)
(** * update *)
(* ================================================================== *)

(** Adding on JavaScript numbers is exact as long as the sum is at most
    2^53 in absolute value; from 2^53 on, adding 1 changes nothing. *)
Lemma js_add_exact a b :
  - 2 ^ 53 <= a + b <= 2 ^ 53 -> js_add a b = a + b.
Proof.
  intros Hrange. unfold js_add, js_round.
  destruct (Z.leb_spec (Z.abs (a + b)) (2 ^ 53)) as [_ | Habs]; [done | lia].
Qed.

Lemma js_add_1_at_2_53 : js_add (2 ^ 53) 1 = 2 ^ 53.
Proof. vm_compute. reflexivity. Qed.

Lemma js_add_1_up_to_2_53 revision :
  - 2 ^ 53 <= revision <= 2 ^ 53 ->
  js_add revision 1 = Z.min (revision + 1) (2 ^ 53).
Proof.
  intros Hrange. destruct (decide (revision = 2 ^ 53)) as [-> | Hne].
  - rewrite js_add_1_at_2_53. vm_compute. reflexivity.
  - rewrite js_add_exact by lia. lia.
Qed.

Section UpdateFacts.
Context {W : Type} (c : Collaborators W).

Lemma get_calls id (w : W) r w' t :
  PackagePolicyService.get c id w = (r, w', t) -> t = [SoGet id].
Proof.
  unfold PackagePolicyService.get. intros H.
  apply bind_inv in H as [(so & w1 & t1 & t2 & Hso & H & ->) | (e & Hso & ->)];
    apply call_inv in Hso as [_ ->]; [|done].
  destruct so as [so|]; [|by apply mret_inv in H as (_ & _ & ->)].
  destruct (so_error so);
    [by apply throw_inv in H as (_ & _ & ->)
    | by apply mret_inv in H as (_ & _ & ->)].
Qed.

(** What reading the registry keeps, the compilation keeps. *)
Lemma _compilePackageStream_preserves Q registryPkgInfo pkgInfo input stream
    (w : W) r w' t :
  registry_preserves c Q ->
  _compilePackageStream c registryPkgInfo pkgInfo input stream w = (r, w', t) ->
  Q w -> Q w'.
Proof.
  intros (_ & _ & Hassets) H HQ. unfold _compilePackageStream in H.
  destruct (negb (s_enabled stream));
    [by apply mret_inv in H as (_ & -> & _)|].
  destruct (pi_data_streams pkgInfo) as [packageDataStreams|];
    [|by apply throw_inv in H as (_ & -> & _)].
  destruct (List.find _ packageDataStreams) as [packageDataStream|];
    [|by apply throw_inv in H as (_ & -> & _)].
  destruct (List.find _ (default [] _)) as [streamFromPkg|];
    [|by apply throw_inv in H as (_ & -> & _)].
  destruct (negb (truthy _)); [by apply throw_inv in H as (_ & -> & _)|].
  apply bind_inv in H as [(assets & w1 & t1 & t2 & Ha & H & ->) | (e & Ha & ->)];
    apply call_inv in Ha as [Ha _]; [|by eapply Hassets].
  assert (Q w1) as HQ1 by (by eapply Hassets).
  destruct (head assets ≫= ae_buffer) as [buffer|];
    [|by apply throw_inv in H as (_ & -> & _)].
  apply bind_inv in H as [(yaml & w2 & t3 & t4 & Hy & H & ->) | (e & Hy & ->)];
    apply call_pure_inv in Hy as (_ & -> & _); [|done].
  by apply mret_inv in H as (_ & -> & _).
Qed.

Lemma _compilePackagePolicyInput_preserves Q registryPkgInfo pkgInfo input
    (w : W) r w' t :
  registry_preserves c Q ->
  _compilePackagePolicyInput c registryPkgInfo pkgInfo input w = (r, w', t) ->
  Q w -> Q w'.
Proof.
  intros (_ & _ & Hassets) H HQ. unfold _compilePackagePolicyInput in H.
  destruct (i_enabled input); [|by apply mret_inv in H as (_ & -> & _)].
  destruct (policy_template_inputs pkgInfo) as [packageInputs|];
    [|by apply mret_inv in H as (_ & -> & _)].
  destruct (List.find _ packageInputs) as [packageInput|];
    [|by apply throw_inv in H as (_ & -> & _)].
  destruct (negb (truthy _)); [by apply mret_inv in H as (_ & -> & _)|].
  apply bind_inv in H as [(assets & w1 & t1 & t2 & Ha & H & ->) | (e & Ha & ->)];
    apply call_inv in Ha as [Ha _]; [|by eapply Hassets].
  assert (Q w1) as HQ1 by (by eapply Hassets).
  destruct (head assets ≫= ae_buffer) as [buffer|];
    [|by apply throw_inv in H as (_ & -> & _)].
  apply bind_inv in H as [(yaml & w2 & t3 & t4 & Hy & H & ->) | (e & Hy & ->)];
    apply call_pure_inv in Hy as (_ & -> & _); [|done].
  by apply mret_inv in H as (_ & -> & _).
Qed.

Lemma compilePackagePolicyInputs_preserves Q pkgInfo inputs (w : W) r w' t :
  registry_preserves c Q ->
  PackagePolicyService.compilePackagePolicyInputs c pkgInfo inputs w = (r, w', t) ->
  Q w -> Q w'.
Proof.
  intros HQ H Hw. pose proof HQ as (_ & Hfetch & _).
  unfold PackagePolicyService.compilePackagePolicyInputs in H.
  apply bind_inv in H as [(rp & w1 & t1 & t2 & Hrp & H & ->) | (e & Hrp & ->)];
    apply call_inv in Hrp as [Hrp _]; [|by eapply Hfetch].
  assert (Q w1) as Hw1 by (by eapply Hfetch).
  revert H Hw1. apply Promise_all_preserves. clear -HQ. intros input w r w' t H Hw.
  apply bind_inv in H as [(ci & w1 & t1 & t2 & Hci & H & ->) | (e & Hci & ->)];
    [|by eapply _compilePackagePolicyInput_preserves].
  assert (Q w1) as Hw1 by (by eapply _compilePackagePolicyInput_preserves).
  apply bind_inv in H as [(cs & w2 & t3 & t4 & Hcs & H & ->) | (e & Hcs & ->)].
  - apply mret_inv in H as (_ & -> & _).
    revert Hcs Hw1. apply Promise_all_preserves. intros.
    by eapply _compilePackageStream_preserves.
  - revert Hcs Hw1. apply Promise_all_preserves. intros.
    by eapply _compilePackageStream_preserves.
Qed.

(** Everything a resolved [update] went through. *)
Lemma update_resolved id packagePolicy options (w : W) result w' t :
  PackagePolicyService.update c id packagePolicy options w
    = (Resolved result, w', t) ->
  let user := options ≫= uo_user in
  let rest := u_rest packagePolicy in
  exists old w1 parent w2 inputs t_prepare w3 updated_at w4 w5 w6,
    let attributes :=
      PackagePolicyService.update_attributes rest inputs
        (js_add (pp_revision old) 1) updated_at user in
    PackagePolicyService.get c id w = (Resolved (Some old), w1, [SoGet id])
    /\ agentPolicyService_get c (np_policy_id rest) None w1
       = (Resolved (Some parent), w2)
    /\ ap_is_managed parent = false
    /\ List.find (fun siblingPackagePolicy =>
                    negb (String.eqb (pp_id siblingPackagePolicy) id)
                    && String.eqb (pp_name siblingPackagePolicy) (np_name rest))
         (ap_package_policies parent) = None
    /\ Forall (fun ev => is_preparation_call ev = true) t_prepare
    /\ (forall Q, registry_preserves c Q -> Q w2 -> Q w3)
    /\ toISOString_now c w3 = (updated_at, w4)
    /\ soClient_update c id attributes (u_version packagePolicy) w4
       = (Resolved (), w5)
    /\ agentPolicyService_bumpRevision c (np_policy_id rest) user w5
       = (Resolved (), w6)
    /\ PackagePolicyService.get c id w6 = (Resolved result, w', [SoGet id])
    /\ t = [SoGet id; AgentPolicyGet (np_policy_id rest) None] ++ t_prepare
           ++ [DateNow; SoUpdate id attributes (u_version packagePolicy);
               BumpRevision (np_policy_id rest) user; SoGet id].
Proof.
  intros H user rest. unfold PackagePolicyService.update in H.
  apply bind_resolved_inv in H as (old & w1 & t1 & t2 & Hold & H & ->).
  pose proof (get_calls _ _ _ _ _ Hold) as ->.
  destruct old as [old|]; [|by apply throw_inv in H as ([=] & _)].
  apply bind_resolved_inv in H as (parent & w2 & t3 & t4 & Hparent & H & ->).
  apply call_inv in Hparent as [Hparent ->].
  destruct parent as [parent|]; [|by apply throw_inv in H as ([=] & _)].
  destruct (ap_is_managed parent) eqn:Hmanaged;
    [by apply throw_inv in H as ([=] & _)|].
  destruct (List.find _ _) eqn:Hfind; [by apply throw_inv in H as ([=] & _)|].
  apply bind_resolved_inv in H as (inputs & w3 & t_pkg & t5 & Hpkg & H & ->).
  apply bind_resolved_inv in H as (iso & w4 & t6 & t7 & Hiso & H & ->).
  apply call_total_inv in Hiso as (iso' & Hiso & [= ->] & ->).
  apply bind_resolved_inv in H as ([] & w5 & t8 & t9 & Hupdate & H & ->).
  apply call_inv in Hupdate as [Hupdate ->].
  apply bind_resolved_inv in H as ([] & w6 & t10 & t11 & Hbump & H & ->).
  apply call_inv in Hbump as [Hbump ->].
  pose proof (get_calls _ _ _ _ _ H) as ->.
  exists old, w1, parent, w2, inputs, t_pkg, w3, iso', w4, w5, w6.
  split_and!; try done.
  - fold rest in Hpkg.
    destruct (np_package rest) as [package|];
      [|apply mret_inv in Hpkg as (_ & _ & ->); constructor].
    destruct (truthy (Some (pkg_name package)));
      [|apply mret_inv in Hpkg as (_ & _ & ->); constructor].
    apply bind_resolved_inv in Hpkg as (pkgInfo & ? & ? & ? & Hinfo & Hpkg & ->).
    apply call_inv in Hinfo as [_ ->].
    constructor; [done|]. cbn [app].
    apply compile_call_is_preparation_call.
    by eapply compilePackagePolicyInputs_calls.
  - intros Q HQ Hw2. fold rest in Hpkg.
    destruct (np_package rest) as [package|];
      [|by apply mret_inv in Hpkg as (_ & -> & _)].
    destruct (truthy (Some (pkg_name package)));
      [|by apply mret_inv in Hpkg as (_ & -> & _)].
    apply bind_resolved_inv in Hpkg as (pkgInfo & ? & ? & ? & Hinfo & Hpkg & ->).
    apply call_inv in Hinfo as [Hinfo _].
    eapply compilePackagePolicyInputs_preserves; [exact HQ | exact Hpkg |].
    destruct HQ as (Hinfo' & _). by eapply Hinfo'.
Qed.

End UpdateFacts.

(** A resolved [update] wrote once, the revision it read plus one as
    JavaScript adds, and bumped the revision of the agent policy once. *)
Lemma update_writes_once {W} (c : Collaborators W) id packagePolicy options
    (w : W) result w' t :
  PackagePolicyService.update c id packagePolicy options w
    = (Resolved result, w', t) ->
  exists old w1 attributes,
    PackagePolicyService.get c id w = (Resolved (Some old), w1, [SoGet id])
    /\ updated t = [(id, attributes, u_version packagePolicy)]
    /\ ua_revision attributes = js_add (pp_revision old) 1
    /\ revision_bumps t
       = [(np_policy_id (u_rest packagePolicy), options ≫= uo_user)].
Proof.
  intros H.
  apply update_resolved in H as
      (old & w1 & parent & w2 & inputs & t_prepare & w3 & updated_at & w4 & w5
       & w6 & Hold & _ & _ & _ & Hprepare & _ & _ & _ & _ & _ & ->).
  apply preparation_writes_nothing in Hprepare as (_ & Hupdated & Hbumps & _).
  exists old, w1. eexists. split_and!; [exact Hold | | | ].
  - rewrite !updated_app, Hupdated. reflexivity.
  - reflexivity.
  - rewrite !revision_bumps_app, Hbumps. reflexivity.
Qed.

(* ================================================================== *)
(** * The service over the in-memory collaborators *)
(* ================================================================== *)

Section MemFacts.
Context (engine : Vars -> string -> Outcome Yaml).
Context (callbacks :
           ExternalCallbackType -> option (list (ExternalCallbackFn Mem.World))).

Local Abbreviation c := (Mem.collaborators engine callbacks).

Lemma mem_registry_preserves Q : registry_preserves c Q.
Proof.
  split_and!.
  - intros name version w r w'. cbn. unfold Mem.mem_getPackageInfo.
    by destruct Mem.find_package; intros [= <- <-].
  - intros name version w r w'. cbn. unfold Mem.mem_fetchInfo.
    by destruct Mem.find_package; intros [= <- <-].
  - intros registryPkgInfo pathFilter datasetName w r w'. cbn.
    unfold Mem.mem_getAssetsData.
    by destruct Mem.find_package; intros [= <- <-].
Qed.

Lemma mem_get_run id w :
  PackagePolicyService.get c id w =
  (Resolved ((fun doc => packagePolicy_of_so (Mem.so_of_doc id doc))
               <$> Mem.package_policies w !! id), w, [SoGet id]).
Proof.
  unfold PackagePolicyService.get. rewrite run_bind. cbn.
  unfold call, Mem.mem_get. by destruct (Mem.package_policies w !! id).
Qed.

Lemma mem_alter_agent_policy_store id f w r w' :
  Mem.alter_agent_policy id f w = (r, w') ->
  Mem.package_policies w' = Mem.package_policies w.
Proof.
  unfold Mem.alter_agent_policy.
  by destruct (Mem.agent_policies w !! id); intros [= <- <-].
Qed.

(** One update: one is added to the stored revision, as JavaScript
    adds, and that is the revision of the policy returned. *)
Lemma mem_update_revision id packagePolicy options w result w' t :
  PackagePolicyService.update c id packagePolicy options w
    = (Resolved result, w', t) ->
  exists revision,
    Mem.stored_revision w id = Some revision
    /\ Mem.stored_revision w' id = Some (js_add revision 1)
    /\ pp_revision <$> result = Some (js_add revision 1).
Proof.
  intros H.
  apply update_resolved in H as
      (old & w1 & parent & w2 & inputs & t_prepare & w3 & updated_at & w4 & w5
       & w6 & Hold & Hparent & _ & _ & _ & Hframe & Hclock & Hupdate & Hbump
       & Hnew & _).
  rewrite mem_get_run in Hold, Hnew.
  injection Hold as Hold <-. injection Hnew as <- <-.
  cbn in Hparent. injection Hparent as _ <-.
  specialize (Hframe (fun w0 => Mem.package_policies w0 = Mem.package_policies w)
                     (mem_registry_preserves _) eq_refl).
  cbn in Hclock. injection Hclock as _ <-.
  cbn in Hbump. apply mem_alter_agent_policy_store in Hbump.
  cbn in Hupdate. unfold Mem.mem_update in Hupdate. cbn in Hupdate.
  rewrite Hframe in Hupdate.
  destruct (Mem.package_policies w !! id) as [doc|] eqn:Hdoc; [|done].
  injection Hold as <-.
  destruct (bool_decide _); [|done]. injection Hupdate as <-.
  exists (a_revision (Mem.doc_attributes doc)).
  unfold Mem.stored_revision. rewrite Hbump, Hdoc. cbn.
  rewrite lookup_insert_eq. by split_and!.
Qed.

(** [n] updates in a row: the stored revision goes up by [n], and no
    further than 2^53. *)
Lemma mem_updates_revision id requests : forall w revision results w' t,
  Mem.stored_revision w id = Some revision ->
  - 2 ^ 53 <= revision <= 2 ^ 53 ->
  updates c id requests w = (Resolved results, w', t) ->
  Mem.stored_revision w' id
  = Some (Z.min (revision + Z.of_nat (length requests)) (2 ^ 53))
  /\ length (revision_bumps t) = length requests
  /\ (forall i result,
         results !! i = Some result ->
         pp_revision <$> result
         = Some (Z.min (revision + Z.of_nat i + 1) (2 ^ 53))).
Proof.
  unfold updates.
  induction requests as [|request requests IH];
    intros w revision results w' t Hw Hrange H.
  - apply mret_inv in H as ([= ->] & -> & ->).
    split_and!; [|done|done]. rewrite Hw. f_equal. cbn [length]. lia.
  - cbn [mapM] in H.
    apply bind_resolved_inv in H as (result & w1 & t1 & t2 & Hone & H & ->).
    apply bind_resolved_inv in H as (results' & w2 & t3 & t4 & Hrest & H & ->).
    apply mret_inv in H as ([= ->] & -> & ->).
    pose proof (update_writes_once _ _ _ _ _ _ _ _ Hone) as (_ & _ & _ & _ & _ & _ & Hbump).
    apply mem_update_revision in Hone as (revision' & Hw' & Hw1 & Hresult).
    rewrite Hw in Hw'. injection Hw' as <-.
    rewrite js_add_1_up_to_2_53 in Hw1, Hresult by exact Hrange.
    assert (- 2 ^ 53 <= Z.min (revision + 1) (2 ^ 53) <= 2 ^ 53) as Hnext by lia.
    destruct (IH _ _ _ _ _ Hw1 Hnext Hrest) as (Hstored & Hbumps & Hresults).
    split_and!.
    + rewrite Hstored. f_equal. cbn [length]. lia.
    + rewrite app_nil_r, revision_bumps_app, length_app, Hbump, Hbumps. done.
    + intros [|i] result'; cbn.
      * intros [= <-]. rewrite Hresult. f_equal. lia.
      * intros Hi. rewrite (Hresults _ _ Hi). f_equal. lia.
Qed.

(** A policy is stored at revision 1 when [create] resolves. *)
Lemma mem_create_revision packagePolicy options w result w' t :
  PackagePolicyService.create c packagePolicy options w
    = (Resolved result, w', t) ->
  Mem.stored_revision w' (pp_id result) = Some 1.
Proof.
  intros H.
  apply create_resolved in H as
      (pid & t_id & inputs & t_prepare & iso & w_clock & w_date & so & w_so
       & _ & _ & _ & _ & Hso & Hassign & -> & _).
  cbn in Hassign. apply mem_alter_agent_policy_store in Hassign.
  cbn in Hso. unfold Mem.mem_create in Hso.
  destruct (Mem.package_policies w_date !! pid); [done|].
  injection Hso as <- <-.
  unfold Mem.stored_revision. rewrite Hassign. cbn.
  by rewrite lookup_insert_eq.
Qed.

End MemFacts.

(** C2, amended.  When [update] resolves, it wrote once to the store,
    under the id it was given, and the revision it wrote is the revision
    of the policy it had read plus one as JavaScript adds numbers: the
    revision read plus one when that is an integer from -2^53 to
    2^53 - 1, and the revision read itself when that is 2^53.  And it
    called [agentPolicyService.bumpRevision] once, for the agent policy of
    the request.  Over the in-memory store, a policy is stored at
    revision 1 when [create] resolves, and [n] updates in a row of a
    policy stored at revision 1, all resolved, leave it at revision
    [n + 1] as long as [n + 1 <= 2^53] and at 2^53 from then on, the
    [i]-th of them returning the revision [i + 1] with the same limit,
    with [n] bumps in all. *)
Theorem update_increments_revision_and_bumps_once :
  (forall {W} (c : Collaborators W) id packagePolicy options (w : W)
          result w' t,
      PackagePolicyService.update c id packagePolicy options w
        = (Resolved result, w', t) ->
      exists old w1 attributes,
        PackagePolicyService.get c id w = (Resolved (Some old), w1, [SoGet id])
        /\ updated t = [(id, attributes, u_version packagePolicy)]
        /\ ua_revision attributes = js_add (pp_revision old) 1
        /\ (- 2 ^ 53 <= pp_revision old < 2 ^ 53 ->
            ua_revision attributes = pp_revision old + 1)
        /\ (pp_revision old = 2 ^ 53 ->
            ua_revision attributes = pp_revision old)
        /\ revision_bumps t
           = [(np_policy_id (u_rest packagePolicy), options ≫= uo_user)])
  /\ (forall engine callbacks packagePolicy options w result w' t,
         PackagePolicyService.create (Mem.collaborators engine callbacks)
           packagePolicy options w = (Resolved result, w', t) ->
         pp_revision result = 1
         /\ Mem.stored_revision w' (pp_id result) = Some 1)
  /\ (forall engine callbacks id requests w results w' t,
         Mem.stored_revision w id = Some 1 ->
         updates (Mem.collaborators engine callbacks) id requests w
           = (Resolved results, w', t) ->
         let n := Z.of_nat (length requests) in
         Mem.stored_revision w' id = Some (Z.min (n + 1) (2 ^ 53))
         /\ (n + 1 <= 2 ^ 53 -> Mem.stored_revision w' id = Some (n + 1))
         /\ length (revision_bumps t) = length requests
         /\ (forall i result,
                results !! i = Some result ->
                pp_revision <$> result
                = Some (Z.min (Z.of_nat i + 2) (2 ^ 53)))
         /\ (n + 1 <= 2 ^ 53 ->
             forall i result,
               results !! i = Some result ->
               pp_revision <$> result = Some (Z.of_nat i + 2))).
Proof.
  split_and!.
  - intros W c id packagePolicy options w result w' t H.
    destruct (update_writes_once _ _ _ _ _ _ _ _ H)
      as (old & w1 & attributes & Hold & Hupdated & Hrevision & Hbumps).
    exists old, w1, attributes.
    split_and!; [exact Hold | exact Hupdated | exact Hrevision | | | exact Hbumps].
    + intros Hrange. rewrite Hrevision. apply js_add_exact. lia.
    + intros Htop. rewrite Hrevision, Htop. apply js_add_1_at_2_53.
  - intros engine callbacks packagePolicy options w result w' t H. split.
    + eapply create_returns_revision_1; [|exact H].
      apply mem_create_answers_attributes.
    + by eapply mem_create_revision.
  - intros engine callbacks id requests w results w' t Hw H n.
    assert (- 2 ^ 53 <= 1 <= 2 ^ 53) as Hone by (vm_compute; split; discriminate).
    destruct (mem_updates_revision _ _ _ _ _ _ _ _ _ Hw Hone H)
      as (Hstored & Hbumps & Hresults).
    assert (forall i result,
               results !! i = Some result ->
               pp_revision <$> result = Some (Z.min (Z.of_nat i + 2) (2 ^ 53)))
      as Hresults'.
    { intros i result Hi. rewrite (Hresults _ _ Hi). f_equal. lia. }
    split_and!.
    + rewrite Hstored. f_equal. lia.
    + intros Hn. rewrite Hstored. f_equal. lia.
    + exact Hbumps.
    + exact Hresults'.
    + intros Hn i result Hi. rewrite (Hresults' _ _ Hi). f_equal.
      apply lookup_lt_Some in Hi.
      assert (length results = length requests) as Hlength.
      { clear -H. unfold updates in H. revert w results w' t H.
        induction requests as [|request requests IH]; intros w results w' t H.
        - by apply mret_inv in H as ([= ->] & _).
        - cbn [mapM] in H.
          apply bind_resolved_inv in H as (? & ? & ? & ? & _ & H & _).
          apply bind_resolved_inv in H as (? & ? & ? & ? & Hrest & H & _).
          apply mret_inv in H as ([= ->] & _). cbn. f_equal. by eapply IH. }
      lia.
Qed.

(** Three updates of the sample policy after its creation. *)
Lemma update_increments_revision_and_bumps_once_witness :
  (exists results w' t,
      updates Sample.collaborators "pp-1"
        [Sample.request "nginx-1"; Sample.request "renamed";
         Sample.request "again"]
        Sample.world_with_policy
      = (Resolved results, w', t)
      /\ Mem.stored_revision Sample.world_with_policy "pp-1" = Some 1
      /\ Mem.stored_revision w' "pp-1" = Some 4
      /\ length (revision_bumps t) = 3%nat)
  /\ (exists result w' t attributes,
         PackagePolicyService.update Sample.collaborators "pp-1"
           (Sample.request "renamed").1 None Sample.world_with_policy
         = (Resolved result, w', t)
         /\ updated t = [("pp-1", attributes, None)]
         /\ ua_revision attributes = 2
         /\ revision_bumps t = [("agent-1", None)])
  /\ (exists result w' t,
         PackagePolicyService.create Sample.collaborators
           (Sample.policy "nginx-1" (Some Sample.nginx_package))
           (Sample.with_id "pp-1") Sample.world
         = (Resolved result, w', t)
         /\ pp_revision result = 1
         /\ Mem.stored_revision w' (pp_id result) = Some 1).
Proof.
  destruct update_increments_revision_and_bumps_once
    as (Hupdate & Hcreate & Hupdates).
  split_and!.
  - destruct (updates Sample.collaborators "pp-1"
                [Sample.request "nginx-1"; Sample.request "renamed";
                 Sample.request "again"] Sample.world_with_policy)
      as [[[results|e] w'] t] eqn:Hrun;
      [|vm_compute in Hrun; discriminate Hrun].
    exists results, w', t. split; [reflexivity|].
    assert (Mem.stored_revision Sample.world_with_policy "pp-1" = Some 1) as Hone
      by (vm_compute; reflexivity).
    destruct (Hupdates Sample.engine (fun _ => None) "pp-1" _ _ _ _ _ Hone Hrun)
      as (_ & Hstored & Hbumps & _).
    split_and!; [exact Hone | | exact Hbumps].
    apply Hstored. vm_compute. discriminate.
  - destruct (PackagePolicyService.update Sample.collaborators "pp-1"
                (Sample.request "renamed").1 None Sample.world_with_policy)
      as [[[result|e] w'] t] eqn:Hrun;
      [|vm_compute in Hrun; discriminate Hrun].
    destruct (Hupdate _ _ _ _ _ _ _ _ _ Hrun)
      as (old & w1 & attributes & Hold & Hupdated & _ & Hrevision & _ & Hbumps).
    exists result, w', t, attributes.
    split_and!; [reflexivity | exact Hupdated | | exact Hbumps].
    vm_compute in Hold. injection Hold as <- _.
    apply Hrevision. vm_compute. split; [discriminate | reflexivity].
  - destruct (PackagePolicyService.create Sample.collaborators
                (Sample.policy "nginx-1" (Some Sample.nginx_package))
                (Sample.with_id "pp-1") Sample.world)
      as [[[result|e] w'] t] eqn:Hrun;
      [|vm_compute in Hrun; discriminate Hrun].
    exists result, w', t. split; [reflexivity|].
    exact (Hcreate Sample.engine (fun _ => None) _ _ _ _ _ _ Hrun).
Defined.

(** C2 as stated does not hold of every update.  The sample policy is
    stored at revision 2^53 = 9007199254740992; [update] resolves, and the
    revision it writes, [oldPackagePolicy.revision + 1] on JavaScript
    numbers, is 9007199254740992 again: the revision read, not the
    revision read plus one.  The policy returned has that revision. *)
Lemma update_at_2_53_writes_back_the_revision_read :
  exists old result w' t attributes,
    PackagePolicyService.get Sample.collaborators "pp-1"
      (Sample.world_with_policy_at 9007199254740992)
    = (Resolved (Some old), Sample.world_with_policy_at 9007199254740992,
       [SoGet "pp-1"])
    /\ pp_revision old = 9007199254740992
    /\ PackagePolicyService.update Sample.collaborators "pp-1"
         (Sample.request "nginx-1").1 None
         (Sample.world_with_policy_at 9007199254740992)
       = (Resolved (Some result), w', t)
    /\ updated t = [("pp-1", attributes, None)]
    /\ ua_revision attributes = 9007199254740992
    /\ ua_revision attributes <> pp_revision old + 1
    /\ pp_revision result = 9007199254740992
    /\ Mem.stored_revision w' "pp-1" = Some 9007199254740992.
Proof.
  do 5 eexists. split_and!; try (vm_compute; reflexivity).
  vm_compute. discriminate.
Qed.


Section UpdateChecks.
Context {W : Type} (c : Collaborators W).


End UpdateChecks.



(** The sample policy, an id that does not exist, and the sample policy
    again: one entry each, the first of success, and the batch goes on
    after the id that is not there. *)
Lemma delete_reports_every_id_in_order_witness :
  (exists results w' t,
      PackagePolicyService.delete Sample.collaborators ["pp-1"; "nope"; "pp-1"]
        None Sample.world_with_policy
      = (Resolved results, w', t)
      /\ map dr_id results = ["pp-1"; "nope"; "pp-1"]
      /\ map dr_success results = [true; false; false]
      /\ map dr_name results = [Some "nginx-1"; None; None])
  /\ PackagePolicyService.delete_try Sample.collaborators "nope" None
       Sample.world_with_policy
     = (Rejected (Error "Package policy not found"), Sample.world_with_policy,
        [SoGet "nope"]).
Proof.
  destruct (delete_reports_every_id_in_order Sample.collaborators
              ["pp-1"; "nope"; "pp-1"] None Sample.world_with_policy)
    as ((results & w' & t & Hrun & _ & _ & Hids & _) & Hcases & _).
  split.
  - exists results, w', t. split_and!; [exact Hrun | exact Hids | |];
      vm_compute in Hrun; by injection Hrun as <- _ _.
  - destruct (PackagePolicyService.delete_try Sample.collaborators "nope" None
                Sample.world_with_policy) as [[r w1] t1] eqn:Htry.
    destruct (Hcases _ _ _ _ _ Htry)
      as [(packagePolicy & wa & ta & wb & _ & Hget & _)
         | (error & -> & [Hget | [[Hget ->] | [Hget | Hget]]])].
    + vm_compute in Hget. discriminate Hget.
    + vm_compute in Hget. discriminate Hget.
    + vm_compute in Hget. by injection Hget as <- <-.
    + destruct Hget as (packagePolicy & wa & ta & Hget & _).
      vm_compute in Hget. discriminate Hget.
    + destruct Hget as (packagePolicy & wa & ta & wb & Hget & _).
      vm_compute in Hget. discriminate Hget.
Defined.


(** Two policies written for [agent-1], created in bulk for [agent-2]:
    what is handed to the store names [agent-2]. *)
Example bulkCreate_sample :
  map (map (fun object => (object.1, a_policy_id object.2, a_created_at object.2,
                           a_updated_at object.2)))
      (bulk_created
         (PackagePolicyService.bulkCreate Sample.collaborators
            [Sample.policy "first" None; Sample.policy "second" None]
            "agent-2" None Sample.world).2)
  = [[("uuid-0", "agent-2", "T0", "T0"); ("uuid-1", "agent-2", "T0", "T0")]].
Proof. vm_compute. reflexivity. Qed.

(* ================================================================== *)
(** * Dataset paths and stream identifiers *)
(* ================================================================== *)

Lemma string_app_cons a (s1 s2 : string) :
  String a s1 +:+ s2 = String a (s1 +:+ s2).
Proof. reflexivity. Qed.

Lemma string_app_assoc (s1 s2 s3 : string) :
  (s1 +:+ s2) +:+ s3 = s1 +:+ (s2 +:+ s3).
Proof.
  induction s1 as [|a s1 IH]; [done|]. by rewrite !string_app_cons, IH.
Qed.

Lemma string_app_nil_r (s : string) : s +:+ "" = s.
Proof. induction s as [|a s IH]; [done|]. by rewrite string_app_cons, IH. Qed.

Lemma split_from_no_separator sep cur s :
  has_char sep s = false -> split_from sep cur s = [cur +:+ s].
Proof.
  revert cur. induction s as [|a s IH]; intros cur Hs; cbn [split_from has_char] in *.
  - by rewrite string_app_nil_r.
  - apply orb_false_iff in Hs as [Ha Hs]. rewrite Ha.
    rewrite IH by done. by rewrite string_app_assoc.
Qed.

Lemma split_from_at_separator sep cur s rest :
  has_char sep s = false ->
  split_from sep cur (s +:+ String sep rest)
  = (cur +:+ s) :: split_from sep "" rest.
Proof.
  revert cur. induction s as [|a s IH]; intros cur Hs.
  - change ("" +:+ String sep rest) with (String sep rest). cbn [split_from].
    rewrite Ascii.eqb_refl. by rewrite string_app_nil_r.
  - rewrite string_app_cons. cbn [split_from has_char] in *.
    apply orb_false_iff in Hs as [Ha Hs]. rewrite Ha.
    rewrite IH by done. by rewrite string_app_assoc.
Qed.

(** Splitting what was joined gives the parts back. *)
Lemma split_concat sep parts :
  parts <> [] ->
  Forall (fun part => has_char sep part = false) parts ->
  split sep (String.concat (String sep "") parts) = parts.
Proof.
  unfold split. induction parts as [|part parts IH]; intros Hne Hparts; [done|].
  apply Forall_cons in Hparts as [Hpart Hparts].
  destruct parts as [|part' parts].
  - cbn [String.concat]. by rewrite split_from_no_separator.
  - change (String.concat (String sep "") (part :: part' :: parts))
      with (part +:+ String sep (String.concat (String sep "") (part' :: parts))).
    rewrite split_from_at_separator by done.
    f_equal. by apply IH.
Qed.

(** Joining what was split gives the string back. *)
Lemma concat_split_from sep cur s :
  String.concat (String sep "") (split_from sep cur s) = cur +:+ s
  /\ split_from sep cur s <> [].
Proof.
  revert cur. induction s as [|a s IH]; intros cur; cbn [split_from].
  - cbn [String.concat]. by rewrite string_app_nil_r.
  - destruct (Ascii.eqb a sep) eqn:Ha.
    + apply Ascii.eqb_eq in Ha as ->. split; [|done].
      destruct (IH "") as [Hrest Hne].
      destruct (split_from sep "" s) as [|x xs] eqn:Hsplit; [done|].
      change (String.concat (String sep "") (cur :: x :: xs))
        with (cur +:+ String sep (String.concat (String sep "") (x :: xs))).
      by rewrite Hrest.
    + destruct (IH (cur +:+ String a "")) as [Hrest Hne].
      split; [|done]. rewrite Hrest. by rewrite string_app_assoc.
Qed.

Lemma split_from_parts sep cur s :
  has_char sep cur = false ->
  Forall (fun part => has_char sep part = false) (split_from sep cur s).
Proof.
  revert cur. induction s as [|a s IH]; intros cur Hcur; cbn [split_from].
  - by repeat constructor.
  - destruct (Ascii.eqb a sep) eqn:Ha.
    + constructor; [done|]. by apply IH.
    + apply IH. clear IH. induction cur as [|b cur IHcur].
      * change ("" +:+ String a "") with (String a ""). cbn [has_char].
        by rewrite Ha.
      * rewrite string_app_cons. cbn [has_char] in *.
        apply orb_false_iff in Hcur as [Hb Hcur]. rewrite Hb. by apply IHcur.
Qed.

(** X1. [getDataset] answers the second of the segments that the dots
    of a dataset identifier separate, and [undefined] when there is no
    dot.  Every identifier is the join of its segments, none of which
    has a dot; and the segments of a join of dot-free parts are those
    parts, so [getDataset] of the join is its second part. *)
Theorem getDataset_is_the_second_segment :
  (forall st,
      String.concat "." (split "." st) = st
      /\ Forall (fun part => has_char "." part = false) (split "." st)
      /\ getDataset st = split "." st !! 1%nat)
  /\ (forall parts,
         parts <> [] ->
         Forall (fun part => has_char "." part = false) parts ->
         getDataset (String.concat "." parts) = parts !! 1%nat)
  /\ (forall st, has_char "." st = false -> getDataset st = None).
Proof.
  split_and!.
  - intros st. split_and!.
    + unfold split. by destruct (concat_split_from "." "" st) as [-> _].
    + by apply split_from_parts.
    + reflexivity.
  - intros parts Hne Hparts. unfold getDataset.
    by rewrite (split_concat "." parts Hne Hparts).
  - intros st Hst. unfold getDataset, split.
    by rewrite split_from_no_separator.
Qed.

Lemma getDataset_is_the_second_segment_witness :
  getDataset (String.concat "." ["nginx"; "access"; "v2"]) = Some "access"
  /\ getDataset "nginx" = None.
Proof.
  destruct getDataset_is_the_second_segment as (_ & Hparts & Hnone).
  split.
  - apply (Hparts ["nginx"; "access"; "v2"]); [done|].
    by repeat constructor.
  - by apply Hnone.
Defined.

(** X2. Assigning stream ids again overrides what an earlier assignment
    left: assigning for [id2] after [id1] is assigning for [id2].  Only
    the ids of the streams change: the input keeps its type, flag,
    variables, configuration and compiled artifact, and every stream its
    flag, dataset, variables, configuration and compiled artifact, in
    the same order. *)
Theorem assignStreamIdToInput_overrides :
  forall id1 id2 input,
    assignStreamIdToInput id2 (assignStreamIdToInput id1 input)
    = assignStreamIdToInput id2 input
    /\ same_input_but_for_ids input (assignStreamIdToInput id1 input).
Proof.
  intros id1 id2 input. split.
  - unfold assignStreamIdToInput, input_with_streams. cbn.
    f_equal. rewrite map_map. apply map_ext. by intros [].
  - unfold same_input_but_for_ids. cbn. split_and!; try done.
    induction (i_streams input) as [|stream streams IH]; constructor; [|done].
    by repeat split.
Qed.

(** X3. For one input and stream, the identifiers derived for two
    package policies differ as soon as the ids of the policies do. *)
Theorem stream_id_tells_policies_apart :
  forall id1 id2 input stream,
    id1 <> id2 -> stream_id id1 input stream <> stream_id id2 input stream.
Proof.
  intros id1 id2 input stream Hne Heq. apply Hne. unfold stream_id in Heq.
  by do 4 apply String.app_inj in Heq.
Qed.

Lemma stream_id_tells_policies_apart_witness :
  stream_id "pp-1" (Sample.logfile_input true) (Sample.access_stream true)
  <> stream_id "pp-2" (Sample.logfile_input true) (Sample.access_stream true).
Proof. by apply stream_id_tells_policies_apart. Defined.

(* ================================================================== *)
(** * More on template compilation *)
(* ================================================================== *)

Lemma asset_fetches_app t1 t2 :
  asset_fetches (t1 ++ t2) = asset_fetches t1 ++ asset_fetches t2.
Proof. apply omap_app. Qed.

(** What [Object.assign({}, input.vars)] binds a name to. *)
Lemma Object_assign_one_lookup (inputVars : option Vars) (k : string) :
  Object_assign ∅ [inputVars] !! k = inputVars ≫= (fun m => m !! k).
Proof.
  unfold Object_assign. cbn [foldl]. destruct inputVars as [iv|]; cbn.
  - rewrite lookup_union_l; [done | apply lookup_empty].
  - apply lookup_empty.
Qed.

Section MoreCompilerFacts.
Context {W : Type} (c : Collaborators W).

(** Every way [_compilePackagePolicyInput] can run. *)
Lemma _compilePackagePolicyInput_run registryPkgInfo pkgInfo input (w : W) r w' t :
  _compilePackagePolicyInput c registryPkgInfo pkgInfo input w = (r, w', t) ->
  (t = [] /\ w' = w /\ r = Resolved None
   /\ (i_enabled input = false
       \/ policy_template_inputs pkgInfo = None
       \/ exists packageInputs packageInput,
            policy_template_inputs pkgInfo = Some packageInputs
            /\ List.find (fun pkgInput => String.eqb (ri_type pkgInput) (i_type input))
                 packageInputs = Some packageInput
            /\ truthy (ri_template_path packageInput) = false))
  \/ (t = [] /\ w' = w
      /\ r = Rejected (Error ("Input template not found, unable to find input type "
                              +:+ i_type input))
      /\ i_enabled input = true
      /\ exists packageInputs,
           policy_template_inputs pkgInfo = Some packageInputs
           /\ List.find (fun pkgInput => String.eqb (ri_type pkgInput) (i_type input))
                packageInputs = None)
  \/ (exists packageInputs packageInput path,
         i_enabled input = true
         /\ policy_template_inputs pkgInfo = Some packageInputs
         /\ List.find (fun pkgInput => String.eqb (ri_type pkgInput) (i_type input))
              packageInputs = Some packageInput
         /\ ri_template_path packageInput = Some path /\ path <> ""
         /\ let suffix := "/agent/input/" +:+ path in
            let variables := Object_assign ∅ [i_vars input] in
            exists answer,
              getAssetsData c registryPkgInfo (fun p => endsWith p suffix) None w
              = (answer, w')
              /\ match answer with
                 | Rejected e => r = Rejected e /\ t = [GetAssetsData suffix None]
                 | Resolved assets =>
                     match head assets ≫= ae_buffer with
                     | None =>
                         r = Rejected
                               (Error ("Unable to load input template at /agent/input/"
                                       +:+ path))
                         /\ t = [GetAssetsData suffix None]
                     | Some buffer =>
                         t = [GetAssetsData suffix None;
                              CompileTemplate variables buffer]
                         /\ match compileTemplate c variables buffer with
                            | Resolved yaml => r = Resolved (Some yaml)
                            | Rejected e => r = Rejected e
                            end
                     end
                 end).
Proof.
  intros H. unfold _compilePackagePolicyInput in H.
  destruct (i_enabled input) eqn:Hen;
    [|apply mret_inv in H as (-> & -> & ->); left; by eauto 10].
  destruct (policy_template_inputs pkgInfo) as [packageInputs|] eqn:Hinputs;
    [|apply mret_inv in H as (-> & -> & ->); left; by eauto 10].
  destruct (List.find _ packageInputs) as [packageInput|] eqn:Hfind;
    [|apply throw_inv in H as (-> & -> & ->); right; left; by eauto 10].
  destruct (truthy (ri_template_path packageInput)) eqn:Hpath; cbn [negb] in H;
    [|apply mret_inv in H as (-> & -> & ->); left; split_and!; try done;
      right; right; by eauto 10].
  destruct (ri_template_path packageInput) as [path|] eqn:Hsome; [|done].
  assert (path <> "") as Hne by (by intros ->).
  right; right. exists packageInputs, packageInput, path.
  split_and!; try done. cbn [interpolate] in H. cbv zeta.
  apply bind_inv in H as [(assets & w1 & t1 & t2 & Ha & H & ->) | (e & Ha & ->)];
    apply call_inv in Ha as [Ha ->].
  - destruct (head assets ≫= ae_buffer) as [buffer|] eqn:Hbuffer.
    + apply bind_inv in H as [(yaml & w2 & t3 & t4 & Hy & H & ->) | (e & Hy & ->)];
        apply call_pure_inv in Hy as (Hy & -> & ->).
      * apply mret_inv in H as (-> & -> & ->).
        exists (Resolved assets). split; [done|]. rewrite Hbuffer.
        split; [done|]. by rewrite <- Hy.
      * exists (Resolved assets). split; [done|]. rewrite Hbuffer.
        split; [done|]. by rewrite <- Hy.
    + apply throw_inv in H as (-> & -> & ->).
      exists (Resolved assets). split; [done|]. by rewrite Hbuffer.
  - exists (Rejected e). by split.
Qed.

End MoreCompilerFacts.

Lemma policy_template_inputs_first (pkgInfo : PackageInfo)
    (packageInputs : list RegistryInput) :
  policy_template_inputs pkgInfo = Some packageInputs
  <-> packageInputs <> []
      /\ exists policyTemplate rest,
           pi_policy_templates pkgInfo = Some (policyTemplate :: rest)
           /\ pt_inputs policyTemplate = Some packageInputs.
Proof.
  unfold policy_template_inputs.
  destruct (pi_policy_templates pkgInfo) as [[|policyTemplate rest]|];
    [split; [done | by intros (_ & ? & ? & [=] & _)]
    |
    | split; [done | by intros (_ & ? & ? & [=] & _)]].
  destruct (pt_inputs policyTemplate) as [[|pkgInput others]|] eqn:Hinputs;
    split.
  - done.
  - intros (Hne & policyTemplate' & rest' & [= <- <-] & H).
    rewrite Hinputs in H. by injection H as <-.
  - intros [= <-]. split; [done|]. by exists policyTemplate, rest.
  - intros (_ & policyTemplate' & rest' & [= <- <-] & H).
    rewrite Hinputs in H. by injection H as <-.
  - done.
  - intros (_ & policyTemplate' & rest' & [= <- <-] & H).
    by rewrite Hinputs in H.
Qed.

(** X4. The template of an input is rendered with the variables of the
    input and nothing else: whatever way [_compilePackagePolicyInput]
    ends, every binding handed to the template engine binds a name to
    what [input.vars] binds it to; at most one asset is fetched, and a
    template is rendered only after one was.  When it resolves with an
    artifact, the input is enabled, the asset asked for is
    [/agent/input/<template_path>] of the first input of the package's
    first policy template that has the type of the input, no dataset name
    is given, and the artifact is what the engine made of the text of the
    first entry answered.  The inputs of the package are those its first
    policy template lists, when it lists one at least; the other policy
    templates are not read. *)
Theorem input_template_is_rendered_with_the_input_vars :
  forall {W} (c : Collaborators W) registryPkgInfo pkgInfo input (w : W) r w' t,
    _compilePackagePolicyInput c registryPkgInfo pkgInfo input w = (r, w', t) ->
    Forall (fun binding =>
              forall k, binding.1 !! k = i_vars input ≫= (fun m => m !! k))
           (rendered t)
    /\ (length (rendered t) <= length (asset_fetches t) <= 1)%nat
    /\ (forall yaml,
           r = Resolved (Some yaml) ->
           i_enabled input = true
           /\ exists packageInputs packageInput path assets w1 template,
                policy_template_inputs pkgInfo = Some packageInputs
                /\ List.find (fun pkgInput =>
                                String.eqb (ri_type pkgInput) (i_type input))
                     packageInputs = Some packageInput
                /\ ri_template_path packageInput = Some path
                /\ asset_fetches t = [("/agent/input/" +:+ path, None)]
                /\ getAssetsData c registryPkgInfo
                     (fun p => endsWith p ("/agent/input/" +:+ path)) None w
                   = (Resolved assets, w1)
                /\ head assets ≫= ae_buffer = Some template
                /\ rendered t = [(Object_assign ∅ [i_vars input], template)]
                /\ compileTemplate c (Object_assign ∅ [i_vars input]) template
                   = Resolved yaml)
    /\ (forall packageInputs,
           policy_template_inputs pkgInfo = Some packageInputs
           <-> packageInputs <> []
               /\ exists policyTemplate rest,
                    pi_policy_templates pkgInfo = Some (policyTemplate :: rest)
                    /\ pt_inputs policyTemplate = Some packageInputs).
Proof.
  intros W c registryPkgInfo pkgInfo input w r w' t H.
  rewrite (and_assoc _ _ (forall packageInputs, _)),
    (and_assoc _ _ (forall packageInputs, _)).
  split; [|apply policy_template_inputs_first].
  apply _compilePackagePolicyInput_run in H as
      [(-> & -> & -> & _)
      | [(-> & -> & -> & _)
        | (packageInputs & packageInput & path & Hen & Hinputs & Hfind & Hpath
           & Hne & answer & Hfetch & H)]].
  - (split; [|split]); [cbn; constructor | cbn; lia | done].
  - (split; [|split]); [cbn; constructor | cbn; lia | done].
  - cbv zeta in Hfetch, H. destruct answer as [assets|e].
    + destruct (head assets ≫= ae_buffer) as [buffer|] eqn:Hbuffer.
      * destruct H as [-> H]. split; [|split].
        -- cbn. repeat constructor. intros k. apply Object_assign_one_lookup.
        -- cbn. lia.
        -- intros yaml ->. split; [done|].
           destruct (compileTemplate c _ buffer) as [yaml'|e] eqn:Hyaml; [|done].
           injection H as ->.
           by exists packageInputs, packageInput, path, assets, w', buffer.
      * destruct H as [-> ->]. (split; [|split]); [cbn; constructor | cbn; lia | done].
    + destruct H as [-> ->]. (split; [|split]); [cbn; constructor | cbn; lia | done].
Qed.

Lemma input_template_is_rendered_with_the_input_vars_witness :
  let run :=
    _compilePackagePolicyInput Sample.collaborators Sample.nginx_registry
      Sample.nginx_info (Sample.logfile_input true) Sample.world in
  i_vars (Sample.logfile_input true) = Some {[ "a" := VNum 1 ]}
  /\ Forall (fun binding =>
               binding.1 !! "a" = Some (VNum 1) /\ binding.1 !! "b" = None)
            (rendered run.2)
  /\ asset_fetches run.2 = [("/agent/input/logfile.yml.hbs", None)].
Proof.
  intros run. destruct run as [[r w'] t] eqn:Hrun. cbn [snd].
  destruct (input_template_is_rendered_with_the_input_vars Sample.collaborators
              _ _ _ _ _ _ _ Hrun) as (Hall & _ & Hresolved & _).
  split_and!; [reflexivity | |].
  - eapply Forall_impl; [exact Hall|]. intros binding Hk.
    split; rewrite Hk; reflexivity.
  - destruct r as [[yaml|]|e]; try (vm_compute in Hrun; discriminate Hrun).
    destruct (Hresolved yaml eq_refl)
      as (_ & packageInputs & packageInput & path & assets & w1 & template
          & Hinputs & Hfind & Hpath & -> & _).
    vm_compute in Hinputs. injection Hinputs as <-.
    vm_compute in Hfind. injection Hfind as <-.
    vm_compute in Hpath. by injection Hpath as <-.
Defined.

(** X5. What becomes of an enabled input that has no usable template.
    When the first policy template of the package lists no inputs, or
    lists the type of the input without a template path, the input
    compiles to no artifact and no collaborator is called.  When it lists
    inputs but none of the type of the input, the compilation is rejected
    with [Input template not found, unable to find input type <type>], and
    again nothing is called.  When the path is there but the registry
    answers no entry, or a first entry without content, it is rejected
    with [Unable to load input template at /agent/input/<path>].  The
    inputs a package lists are those of its first policy template, when
    it lists one at least; the other policy templates are not read. *)
Theorem enabled_input_without_usable_template :
  forall {W} (c : Collaborators W) registryPkgInfo pkgInfo input (w : W),
    i_enabled input = true ->
    let run := _compilePackagePolicyInput c registryPkgInfo pkgInfo input w in
    (policy_template_inputs pkgInfo = None -> run = (Resolved None, w, []))
    /\ (forall packageInputs,
           policy_template_inputs pkgInfo = Some packageInputs ->
           (List.find (fun pkgInput => String.eqb (ri_type pkgInput) (i_type input))
              packageInputs = None ->
            run = (Rejected
                     (Error ("Input template not found, unable to find input type "
                             +:+ i_type input)), w, []))
           /\ (forall packageInput,
                  List.find (fun pkgInput =>
                               String.eqb (ri_type pkgInput) (i_type input))
                    packageInputs = Some packageInput ->
                  (truthy (ri_template_path packageInput) = false ->
                   run = (Resolved None, w, []))
                  /\ (forall path assets w1,
                         ri_template_path packageInput = Some path ->
                         path <> "" ->
                         getAssetsData c registryPkgInfo
                           (fun p => endsWith p ("/agent/input/" +:+ path)) None w
                         = (Resolved assets, w1) ->
                         head assets ≫= ae_buffer = None ->
                         run = (Rejected
                                  (Error ("Unable to load input template at /agent/input/"
                                          +:+ path)), w1,
                                [GetAssetsData ("/agent/input/" +:+ path) None]))))
    /\ (forall packageInputs,
           policy_template_inputs pkgInfo = Some packageInputs
           <-> packageInputs <> []
               /\ exists policyTemplate rest,
                    pi_policy_templates pkgInfo = Some (policyTemplate :: rest)
                    /\ pt_inputs policyTemplate = Some packageInputs).
Proof.
  intros W c registryPkgInfo pkgInfo input w Hen run.
  subst run. unfold _compilePackagePolicyInput. rewrite Hen. split; [|split].
  3: apply policy_template_inputs_first.
  - by intros ->.
  - intros packageInputs ->. split.
    + by intros ->.
    + intros packageInput ->. split.
      * by intros ->.
      * intros path assets w1 Hpath Hne Hfetch Hbuffer.
        assert (truthy (Some path) = true) as Htruthy.
        { destruct path; [done|reflexivity]. }
        rewrite Hpath, Htruthy. cbn [negb interpolate].
        erewrite run_bind_resolved; [|unfold call; by rewrite Hfetch].
        by rewrite Hbuffer.
Qed.

Lemma enabled_input_without_usable_template_witness :
  _compilePackagePolicyInput Sample.collaborators Sample.nginx_registry
    Scenario.empty_info (Scenario.input_of "logfile") Sample.world
  = (Resolved None, Sample.world, [])
  /\ _compilePackagePolicyInput Sample.collaborators Sample.nginx_registry
       Scenario.bare_info (Scenario.input_of "udp") Sample.world
     = (Rejected (Error "Input template not found, unable to find input type udp"),
        Sample.world, [])
  /\ _compilePackagePolicyInput Sample.collaborators Sample.nginx_registry
       Scenario.bare_info (Scenario.input_of "logfile") Sample.world
     = (Resolved None, Sample.world, [])
  /\ _compilePackagePolicyInput Sample.collaborators Sample.nginx_registry
       Scenario.bare_info (Scenario.input_of "httpjson") Sample.world
     = (Rejected
          (Error "Unable to load input template at /agent/input/httpjson.yml.hbs"),
        Sample.world, [GetAssetsData "/agent/input/httpjson.yml.hbs" None]).
Proof.
  split_and!.
  - apply (enabled_input_without_usable_template Sample.collaborators);
      reflexivity.
  - destruct (enabled_input_without_usable_template Sample.collaborators
                Sample.nginx_registry Scenario.bare_info (Scenario.input_of "udp")
                Sample.world eq_refl) as (_ & Hlisted & _).
    edestruct Hlisted as [Hmissing _]; [reflexivity|].
    apply Hmissing. reflexivity.
  - destruct (enabled_input_without_usable_template Sample.collaborators
                Sample.nginx_registry Scenario.bare_info
                (Scenario.input_of "logfile") Sample.world eq_refl)
      as (_ & Hlisted & _).
    edestruct Hlisted as [_ Hfound]; [reflexivity|].
    edestruct Hfound as [Hnopath _]; [reflexivity|].
    apply Hnopath. reflexivity.
  - destruct (enabled_input_without_usable_template Sample.collaborators
                Sample.nginx_registry Scenario.bare_info
                (Scenario.input_of "httpjson") Sample.world eq_refl)
      as (_ & Hlisted & _).
    edestruct Hlisted as [_ Hfound]; [reflexivity|].
    edestruct Hfound as [_ Hload]; [reflexivity|].
    eapply (Hload "httpjson.yml.hbs" []); [reflexivity | done | | reflexivity].
    vm_compute. reflexivity.
Defined.

(** X6. What becomes of an enabled stream that has no usable template:
    each case is an error, none a skip, and in none but the last is a
    collaborator called.  A package without data streams: [Stream
    template not found, no data streams].  No data stream of the package
    with the dataset of the stream: [... unable to find dataset <path>],
    where the path is the second dot-separated segment of the dataset, not
    the dataset, and reads [undefined] when the dataset has no dot.  No
    stream of that data stream for the type of the input: [... unable to
    find stream for input <type>].  A stream there without template path:
    [Stream template path not found for dataset <path>].  Otherwise one
    asset is fetched, by the template path itself as suffix and under the
    dataset path; when the registry answers no entry, or a first entry
    without content: [Unable to load stream template <template path> for
    dataset <path>]. *)
Theorem enabled_stream_without_usable_template :
  forall {W} (c : Collaborators W) registryPkgInfo pkgInfo input stream (w : W),
    s_enabled stream = true ->
    let run := _compilePackageStream c registryPkgInfo pkgInfo input stream w in
    let datasetPath := getDataset (dataset (s_data_stream stream)) in
    (has_char "." (dataset (s_data_stream stream)) = false ->
     interpolate datasetPath = "undefined")
    /\ (pi_data_streams pkgInfo = None ->
        run = (Rejected (Error "Stream template not found, no data streams"), w, []))
    /\ (forall packageDataStreams,
           pi_data_streams pkgInfo = Some packageDataStreams ->
           (List.find (fun pkgDataStream =>
                         String.eqb (rd_dataset pkgDataStream)
                                    (dataset (s_data_stream stream)))
              packageDataStreams = None ->
            run = (Rejected
                     (Error ("Stream template not found, unable to find dataset "
                             +:+ interpolate datasetPath)), w, []))
           /\ (forall packageDataStream,
                  List.find (fun pkgDataStream =>
                               String.eqb (rd_dataset pkgDataStream)
                                          (dataset (s_data_stream stream)))
                    packageDataStreams = Some packageDataStream ->
                  (List.find (fun pkgStream =>
                                String.eqb (rs_input pkgStream) (i_type input))
                     (default [] (rd_streams packageDataStream)) = None ->
                   run = (Rejected
                            (Error ("Stream template not found, unable to find stream for input "
                                    +:+ i_type input)), w, []))
                  /\ (forall streamFromPkg,
                         List.find (fun pkgStream =>
                                      String.eqb (rs_input pkgStream) (i_type input))
                           (default [] (rd_streams packageDataStream))
                         = Some streamFromPkg ->
                         (truthy (rs_template_path streamFromPkg) = false ->
                          run = (Rejected
                                   (Error ("Stream template path not found for dataset "
                                           +:+ interpolate datasetPath)), w, []))
                         /\ (forall path,
                                rs_template_path streamFromPkg = Some path ->
                                path <> "" ->
                                asset_fetches run.2 = [(path, datasetPath)]
                                /\ forall assets w1,
                                     getAssetsData c registryPkgInfo
                                       (fun p => endsWith p path) datasetPath w
                                     = (Resolved assets, w1) ->
                                     head assets ≫= ae_buffer = None ->
                                     run = (Rejected
                                              (Error ("Unable to load stream template "
                                                      +:+ path +:+ " for dataset "
                                                      +:+ interpolate datasetPath)),
                                            w1, [GetAssetsData path datasetPath]))))).
Proof.
  intros W c registryPkgInfo pkgInfo input stream w Hen run datasetPath.
  split.
  { intros Hdot. unfold datasetPath, getDataset, split.
    by rewrite split_from_no_separator. }
  subst run. unfold _compilePackageStream. rewrite Hen. cbn [negb].
  fold datasetPath. split.
  - by intros ->.
  - intros packageDataStreams ->. split.
    + by intros ->.
    + intros packageDataStream ->. split.
      * by intros ->.
      * intros streamFromPkg ->. split.
        -- by intros ->.
        -- intros path Hpath Hne.
           assert (truthy (Some path) = true) as Htruthy.
           { destruct path; [done|reflexivity]. }
           rewrite Hpath, Htruthy. cbn [negb interpolate]. split.
           ++ rewrite run_bind. unfold call at 1.
              destruct (getAssetsData c registryPkgInfo _ datasetPath w)
                as [[assets|e] w1]; [|reflexivity].
              destruct (head assets ≫= ae_buffer) as [buffer|]; [|reflexivity].
              rewrite run_bind. unfold call_pure at 1.
              by destruct (compileTemplate c _ buffer).
           ++ intros assets w1 Hfetch Hbuffer.
              erewrite run_bind_resolved; [|unfold call; by rewrite Hfetch].
              by rewrite Hbuffer.
Qed.

Lemma enabled_stream_without_usable_template_witness :
  let run pkgInfo type dataset :=
    _compilePackageStream Sample.collaborators Sample.nginx_registry pkgInfo
      (Scenario.input_of type) (Scenario.stream_of dataset) Sample.world in
  run Scenario.empty_info "logfile" "nginx.access"
  = (Rejected (Error "Stream template not found, no data streams"),
     Sample.world, [])
  /\ run Scenario.bare_info "logfile" "apache"
     = (Rejected (Error "Stream template not found, unable to find dataset undefined"),
        Sample.world, [])
  /\ run Scenario.bare_info "logfile" "nginx.error"
     = (Rejected
          (Error "Stream template not found, unable to find stream for input logfile"),
        Sample.world, [])
  /\ run Scenario.bare_info "logfile" "nginx.access"
     = (Rejected (Error "Stream template path not found for dataset access"),
        Sample.world, [])
  /\ asset_fetches (run Sample.nginx_info "logfile" "nginx.access").2
     = [("stream.yml.hbs", Some "access")].
Proof.
  intros run. subst run. cbv beta. split_and!.
  - destruct (enabled_stream_without_usable_template Sample.collaborators
                Sample.nginx_registry Scenario.empty_info
                (Scenario.input_of "logfile") (Scenario.stream_of "nginx.access")
                Sample.world eq_refl) as (_ & Hnone & _).
    apply Hnone. reflexivity.
  - destruct (enabled_stream_without_usable_template Sample.collaborators
                Sample.nginx_registry Scenario.bare_info
                (Scenario.input_of "logfile") (Scenario.stream_of "apache")
                Sample.world eq_refl) as (Hdot & _ & Hsome).
    edestruct Hsome as [Hmissing _]; [reflexivity|].
    rewrite Hmissing by reflexivity. by rewrite Hdot.
  - destruct (enabled_stream_without_usable_template Sample.collaborators
                Sample.nginx_registry Scenario.bare_info
                (Scenario.input_of "logfile") (Scenario.stream_of "nginx.error")
                Sample.world eq_refl) as (_ & _ & Hsome).
    edestruct Hsome as [_ Hfound]; [reflexivity|].
    edestruct Hfound as [Hnostream _]; [reflexivity|].
    apply Hnostream. reflexivity.
  - destruct (enabled_stream_without_usable_template Sample.collaborators
                Sample.nginx_registry Scenario.bare_info
                (Scenario.input_of "logfile") (Scenario.stream_of "nginx.access")
                Sample.world eq_refl) as (_ & _ & Hsome).
    edestruct Hsome as [_ Hfound]; [reflexivity|].
    edestruct Hfound as [_ Hstream]; [reflexivity|].
    edestruct Hstream as [Hnopath _]; [reflexivity|].
    apply Hnopath. reflexivity.
  - destruct (enabled_stream_without_usable_template Sample.collaborators
                Sample.nginx_registry Sample.nginx_info
                (Scenario.input_of "logfile") (Scenario.stream_of "nginx.access")
                Sample.world eq_refl) as (_ & _ & Hsome).
    edestruct Hsome as [_ Hfound]; [reflexivity|].
    edestruct Hfound as [_ Hstream]; [reflexivity|].
    edestruct Hstream as [_ Hpath]; [reflexivity|].
    edestruct (Hpath "stream.yml.hbs") as [Hfetch _]; [reflexivity | done |].
    exact Hfetch.
Defined.

(** A run within a budget of template fetches [n]: only template calls,
    no more renderings than fetches, no more fetches than [n]. *)
Lemma within_budget_app t1 t2 n1 n2 :
  (Forall (fun ev => is_template_call ev = true) t1
   /\ (length (rendered t1) <= length (asset_fetches t1) <= n1)%nat) ->
  (Forall (fun ev => is_template_call ev = true) t2
   /\ (length (rendered t2) <= length (asset_fetches t2) <= n2)%nat) ->
  Forall (fun ev => is_template_call ev = true) (t1 ++ t2)
  /\ (length (rendered (t1 ++ t2)) <= length (asset_fetches (t1 ++ t2))
      <= n1 + n2)%nat.
Proof.
  intros [H1 ?] [H2 ?]. split; [by apply Forall_app|].
  rewrite rendered_app, asset_fetches_app, !length_app. lia.
Qed.

Lemma within_budget_le t n1 n2 :
  (n1 <= n2)%nat ->
  (Forall (fun ev => is_template_call ev = true) t
   /\ (length (rendered t) <= length (asset_fetches t) <= n1)%nat) ->
  Forall (fun ev => is_template_call ev = true) t
  /\ (length (rendered t) <= length (asset_fetches t) <= n2)%nat.
Proof. intros ? [? ?]. split; [done | lia]. Qed.

Lemma enabled_streams_count (streams : list PackagePolicyInputStream) :
  sum_list (map (fun stream => if s_enabled stream then 1%nat else 0%nat) streams)
  = length (List.filter s_enabled streams).
Proof.
  induction streams as [|stream streams IH]; [done|]. cbn.
  destruct (s_enabled stream); cbn; lia.
Qed.

Section CompileBudget.
Context {W : Type} (c : Collaborators W).

Lemma Promise_all_budget {A B} (f : A -> M W B) (g : A -> nat) xs :
  (forall x w r w' t,
      f x w = (r, w', t) ->
      Forall (fun ev => is_template_call ev = true) t
      /\ (length (rendered t) <= length (asset_fetches t) <= g x)%nat) ->
  forall (w : W) r w' t,
    Promise_all f xs w = (r, w', t) ->
    Forall (fun ev => is_template_call ev = true) t
    /\ (length (rendered t) <= length (asset_fetches t) <= sum_list (map g xs))%nat.
Proof.
  intros Hf. induction xs as [|x xs IH]; intros w r w' t H.
  - apply mret_inv in H as (_ & _ & ->). cbn. split; [constructor | lia].
  - change (sum_list (map g (x :: xs)))
      with (g x + sum_list (map g xs))%nat.
    apply Promise_all_cons_inv in H
      as (rx & w1 & t1 & rs & t2 & Hx & Hxs & -> & _).
    apply within_budget_app; [by eapply Hf | by eapply IH].
Qed.

Lemma _compilePackageStream_budget registryPkgInfo pkgInfo input stream
    (w : W) r w' t :
  _compilePackageStream c registryPkgInfo pkgInfo input stream w = (r, w', t) ->
  Forall (fun ev => is_template_call ev = true) t
  /\ (length (rendered t) <= length (asset_fetches t)
      <= if s_enabled stream then 1 else 0)%nat.
Proof.
  intros H. unfold _compilePackageStream in H.
  destruct (s_enabled stream); cbn [negb] in H;
    [|apply mret_inv in H as (_ & _ & ->); cbn; split; [constructor | lia]].
  destruct (pi_data_streams pkgInfo) as [packageDataStreams|];
    [|apply throw_inv in H as (_ & _ & ->); cbn; split; [constructor | lia]].
  destruct (List.find _ packageDataStreams) as [packageDataStream|];
    [|apply throw_inv in H as (_ & _ & ->); cbn; split; [constructor | lia]].
  destruct (List.find _ (default [] _)) as [streamFromPkg|];
    [|apply throw_inv in H as (_ & _ & ->); cbn; split; [constructor | lia]].
  destruct (negb (truthy _));
    [apply throw_inv in H as (_ & _ & ->); cbn; split; [constructor | lia]|].
  apply bind_inv in H as [(assets & w1 & t1 & t2 & Ha & H & ->) | (e & Ha & ->)];
    apply call_inv in Ha as [_ ->];
    [|cbn; split; [by repeat constructor | lia]].
  destruct (head assets ≫= ae_buffer) as [buffer|];
    [|apply throw_inv in H as (_ & _ & ->); cbn; split;
      [by repeat constructor | lia]].
  apply bind_inv in H as [(yaml & w2 & t3 & t4 & Hy & H & ->) | (e & Hy & ->)];
    apply call_pure_inv in Hy as (_ & _ & ->).
  - apply mret_inv in H as (_ & _ & ->). cbn.
    split; [by repeat constructor | lia].
  - cbn. split; [by repeat constructor | lia].
Qed.

Lemma _compilePackagePolicyInput_budget registryPkgInfo pkgInfo input
    (w : W) r w' t :
  _compilePackagePolicyInput c registryPkgInfo pkgInfo input w = (r, w', t) ->
  Forall (fun ev => is_template_call ev = true) t
  /\ (length (rendered t) <= length (asset_fetches t)
      <= if i_enabled input then 1 else 0)%nat.
Proof.
  intros H.
  apply _compilePackagePolicyInput_run in H as
      [(-> & _ & _ & _)
      | [(-> & _ & _ & _)
        | (packageInputs & packageInput & path & -> & _ & _ & _ & _ & answer
           & _ & H)]].
  - cbn. split; [constructor | destruct (i_enabled input); lia].
  - cbn. split; [constructor | destruct (i_enabled input); lia].
  - cbv zeta in H. destruct answer as [assets|e].
    + destruct (head assets ≫= ae_buffer) as [buffer|].
      * destruct H as [-> _]. cbn. split; [by repeat constructor | lia].
      * destruct H as [_ ->]. cbn. split; [by repeat constructor | lia].
    + destruct H as [_ ->]. cbn. split; [by repeat constructor | lia].
Qed.

End CompileBudget.

(** X7. Compiling changes nothing but compiled artifacts: when
    [compilePackagePolicyInputs] resolves, it answers as many inputs as it
    was given, in the same order, each with the type, flag, variables and
    configuration it had and with as many streams, in the same order, each
    with the id, flag, dataset, variables and configuration it had. *)
Theorem compilePackagePolicyInputs_changes_compiled_artifacts_only :
  forall {W} (c : Collaborators W) pkgInfo inputs (w : W) inputs' w' t,
    PackagePolicyService.compilePackagePolicyInputs c pkgInfo inputs w
      = (Resolved inputs', w', t) ->
    length inputs' = length inputs
    /\ Forall2 same_input_but_compiled inputs inputs'.
Proof.
  intros W c pkgInfo inputs w inputs' w' t H.
  apply compilePackagePolicyInputs_resolved in H.
  split; [symmetry; by eapply Forall2_length|].
  eapply Forall2_impl; [exact H|]. clear.
  intros input input' (compiled & streams & -> & _ & Hstreams).
  unfold same_input_but_compiled. cbn. split_and!; try done.
  eapply Forall2_impl; [exact Hstreams|].
  intros stream stream' (cs & -> & _). by repeat split.
Qed.

Lemma compilePackagePolicyInputs_changes_compiled_artifacts_only_witness :
  exists inputs' w' t,
    PackagePolicyService.compilePackagePolicyInputs Sample.collaborators
      Sample.nginx_info [Sample.logfile_input true; Sample.logfile_input false]
      Sample.world
    = (Resolved inputs', w', t)
    /\ length inputs' = 2%nat
    /\ map i_enabled inputs' = [true; false].
Proof.
  destruct (PackagePolicyService.compilePackagePolicyInputs Sample.collaborators
              Sample.nginx_info
              [Sample.logfile_input true; Sample.logfile_input false]
              Sample.world) as [[[inputs'|e] w'] t] eqn:Hrun;
    [|vm_compute in Hrun; discriminate Hrun].
  exists inputs', w', t. split; [reflexivity|].
  destruct (compilePackagePolicyInputs_changes_compiled_artifacts_only
              Sample.collaborators _ _ _ _ _ _ Hrun) as [Hlength Hsame].
  split; [exact Hlength|].
  apply Forall2_cons_inv_l in Hsame as (x & xs & (_ & Hx & _) & Hsame & ->).
  apply Forall2_cons_inv_l in Hsame as (y & ys & (_ & Hy & _) & Hsame & ->).
  apply Forall2_nil_inv_l in Hsame as ->. cbn. by rewrite Hx, Hy.
Defined.

(** X8. [compilePackagePolicyInputs] asks the registry for the package
    once, before anything else, whatever the inputs; when that is
    rejected nothing else is called, and with no inputs nothing else is
    called either.  All its other calls fetch a template asset or render a
    template: it never touches the store, the agent policies, the clock or
    [uuid].  It fetches at most one asset for each enabled input and each
    enabled stream, none for a disabled one, and renders no more templates
    than it fetched assets.  The calls counted are those of all the
    tasks of the [Promise.all]s, also of the tasks that run on after
    another one was rejected; the counts do not depend on the order in
    which the calls of the tasks interleave. *)
Theorem compilePackagePolicyInputs_reads_the_registry_only :
  forall {W} (c : Collaborators W) pkgInfo inputs (w : W) r w' t,
    PackagePolicyService.compilePackagePolicyInputs c pkgInfo inputs w
      = (r, w', t) ->
    exists t',
      t = FetchInfo (pi_name pkgInfo) (pi_version pkgInfo) :: t'
      /\ Forall (fun ev => is_template_call ev = true) t'
      /\ (length (rendered t') <= length (asset_fetches t')
          <= enabled_templates inputs)%nat
      /\ (forall e w1,
             Registry_fetchInfo c (pi_name pkgInfo) (pi_version pkgInfo) w
               = (Rejected e, w1) ->
             r = Rejected e /\ w' = w1 /\ t' = [])
      /\ (forall registryPkgInfo w1,
             Registry_fetchInfo c (pi_name pkgInfo) (pi_version pkgInfo) w
               = (Resolved registryPkgInfo, w1) ->
             inputs = [] ->
             r = Resolved [] /\ w' = w1 /\ t' = []).
Proof.
  intros W c pkgInfo inputs w r w' t H.
  unfold PackagePolicyService.compilePackagePolicyInputs in H.
  apply bind_inv in H as [(rp & w1 & t1 & t2 & Hrp & H & ->) | (e & Hrp & ->)];
    apply call_inv in Hrp as [Hrp ->].
  - exists t2. split; [done|].
    assert (Forall (fun ev => is_template_call ev = true) t2
            /\ (length (rendered t2) <= length (asset_fetches t2)
                <= enabled_templates inputs)%nat) as [Hcalls Hbudget].
    { revert H. unfold enabled_templates. apply Promise_all_budget.
      clear. intros input w r w' t H.
      apply bind_inv in H as [(ci & w1 & t1 & t2 & Hci & H & ->) | (e & Hci & _)].
      - apply within_budget_app; [by eapply _compilePackagePolicyInput_budget|].
        rewrite <- enabled_streams_count.
        apply bind_inv in H as [(cs & w2 & t3 & t4 & Hcs & H & ->) | (e & Hcs & _)].
        + apply mret_inv in H as (_ & _ & ->). rewrite app_nil_r.
          revert Hcs. apply Promise_all_budget. intros.
          by eapply _compilePackageStream_budget.
        + revert Hcs. apply Promise_all_budget. intros.
          by eapply _compilePackageStream_budget.
      - eapply within_budget_le;
          [|by eapply _compilePackagePolicyInput_budget]. lia. }
    split_and!; [done | apply Hbudget | apply Hbudget | |].
    + intros e w2 Hrejected. rewrite Hrp in Hrejected. discriminate.
    + intros rp' w2 Hresolved ->. rewrite Hrp in Hresolved.
      injection Hresolved as <- <-.
      by apply mret_inv in H as (-> & -> & ->).
  - exists []. split; [done|].
    split_and!; [constructor | cbn; lia | cbn; lia | |].
    + intros e' w2 Hrejected. rewrite Hrp in Hrejected.
      by injection Hrejected as <- <-.
    + intros rp' w2 Hresolved. rewrite Hrp in Hresolved. discriminate.
Qed.

Lemma compilePackagePolicyInputs_reads_the_registry_only_witness :
  let run inputs :=
    PackagePolicyService.compilePackagePolicyInputs Sample.collaborators
      Sample.nginx_info inputs Sample.world in
  enabled_templates [Sample.logfile_input true; Sample.logfile_input false]
  = 3%nat
  /\ (length (asset_fetches
                (run [Sample.logfile_input true; Sample.logfile_input false]).2)
      <= 3)%nat
  /\ run [] = (Resolved [], Sample.world, [FetchInfo "nginx" "1.0.0"]).
Proof.
  intros run. subst run. cbv beta. split_and!.
  - reflexivity.
  - destruct (PackagePolicyService.compilePackagePolicyInputs
                Sample.collaborators Sample.nginx_info
                [Sample.logfile_input true; Sample.logfile_input false]
                Sample.world) as [[r w'] t] eqn:Hrun.
    destruct (compilePackagePolicyInputs_reads_the_registry_only
                Sample.collaborators _ _ _ _ _ _ Hrun)
      as (t' & -> & _ & Hbudget & _).
    cbn [snd]. change (asset_fetches (FetchInfo ?n ?v :: t'))
      with (asset_fetches t'). apply Hbudget.
  - destruct (PackagePolicyService.compilePackagePolicyInputs
                Sample.collaborators Sample.nginx_info [] Sample.world)
      as [[r w'] t] eqn:Hrun.
    destruct (compilePackagePolicyInputs_reads_the_registry_only
                Sample.collaborators _ _ _ _ _ _ Hrun)
      as (t' & -> & _ & _ & _ & Hempty).
    edestruct Hempty as (-> & -> & ->); [reflexivity | reflexivity |].
    reflexivity.
Defined.

(* ================================================================== *)
(** * More on create *)
(* ================================================================== *)

Lemma assigned_app t1 t2 : assigned (t1 ++ t2) = assigned t1 ++ assigned t2.
Proof. apply omap_app. Qed.

Lemma unassigned_app t1 t2 :
  unassigned (t1 ++ t2) = unassigned t1 ++ unassigned t2.
Proof. apply omap_app. Qed.

Lemma store_deleted_app t1 t2 :
  store_deleted (t1 ++ t2) = store_deleted t1 ++ store_deleted t2.
Proof. apply omap_app. Qed.

Lemma fetched_app t1 t2 : fetched (t1 ++ t2) = fetched t1 ++ fetched t2.
Proof. apply omap_app. Qed.

(** The checks of [create] write nothing and assign nothing. *)
Lemma create_checks_write_nothing t :
  Forall (fun ev => is_create_check ev = true) t ->
  created t = [] /\ assigned t = [] /\ store_deleted t = []
  /\ unassigned t = [] /\ updated t = [] /\ bulk_created t = []
  /\ revision_bumps t = [].
Proof.
  induction 1 as [|ev t Hev _ IH]; [done|].
  destruct IH as (? & ? & ? & ? & ? & ? & ?). by destruct ev.
Qed.

Lemma preparation_call_is_create_check t :
  Forall (fun ev => is_preparation_call ev = true) t ->
  Forall (fun ev => is_create_check ev = true) t.
Proof.
  intros H. eapply Forall_impl; [exact H|]. intros ev Hev.
  unfold is_create_check. rewrite Hev. apply orb_true_r.
Qed.

Section MoreCreateFacts.
Context {W : Type} (c : Collaborators W).

(** The limited-package check of [create]. *)
Lemma create_limited_check_calls packagePolicy pkgInfo (w : W) r w' t :
  (if isPackageLimited c pkgInfo then
     agentPolicy ←
       call (AgentPolicyGet (np_policy_id packagePolicy) (Some true))
         (agentPolicyService_get c (np_policy_id packagePolicy) (Some true));
     match agentPolicy with
     | Some agentPolicy =>
         if doesAgentPolicyAlreadyIncludePackage c agentPolicy (pi_name pkgInfo)
         then
           throw (Error ("Unable to create package policy. Package '"
                         +:+ pi_name pkgInfo
                         +:+ "' already exists on this agent policy."))
         else mret ()
     | None => mret ()
     end
   else mret ()) w = (r, w', t) ->
  Forall (fun ev => is_preparation_call ev = true) t.
Proof.
  intros H.
  destruct (isPackageLimited c pkgInfo);
    [|apply mret_inv in H as (_ & _ & ->); constructor].
  apply bind_inv in H as [(? & ? & ? & ? & Hget & H & ->) | (e & Hget & _)];
    apply call_inv in Hget as [_ ->]; [|by repeat constructor].
  constructor; [done|]. cbn [app].
  repeat case_match;
    first [ apply mret_inv in H as (_ & _ & ->)
          | apply throw_inv in H as (_ & _ & ->) ]; constructor.
Qed.

(** The calls of the package part of [create]. *)
Lemma create_package_calls packagePolicy inputs (w : W) r w' t :
  match np_package packagePolicy with
  | Some package =>
      if truthy (Some (pkg_name package)) then
        '(_, pkgInfo) ←
          Promise_all2
            (call (EnsureInstalledPackage (pkg_name package))
               (ensureInstalledPackage c (pkg_name package)))
            (call (GetPackageInfo (pkg_name package) (pkg_version package))
               (getPackageInfo c (pkg_name package) (pkg_version package)));
        _ ←
          (if isPackageLimited c pkgInfo then
             agentPolicy ←
               call (AgentPolicyGet (np_policy_id packagePolicy) (Some true))
                 (agentPolicyService_get c
                    (np_policy_id packagePolicy) (Some true));
             match agentPolicy with
             | Some agentPolicy =>
                 if doesAgentPolicyAlreadyIncludePackage c
                      agentPolicy (pi_name pkgInfo) then
                   throw (Error
                     ("Unable to create package policy. Package '"
                      +:+ pi_name pkgInfo
                      +:+ "' already exists on this agent policy."))
                 else mret ()
             | None => mret ()
             end
           else mret ());
        PackagePolicyService.compilePackagePolicyInputs c pkgInfo inputs
      else mret inputs
  | None => mret inputs
  end w = (r, w', t) ->
  Forall (fun ev => is_preparation_call ev = true) t.
Proof.
  intros H.
  destruct (np_package packagePolicy) as [package|];
    [|apply mret_inv in H as (_ & _ & ->); constructor].
  destruct (truthy (Some (pkg_name package)));
    [|apply mret_inv in H as (_ & _ & ->); constructor].
  assert (forall ra w1 t1,
             Promise_all2
               (call (EnsureInstalledPackage (pkg_name package))
                  (ensureInstalledPackage c (pkg_name package)))
               (call (GetPackageInfo (pkg_name package) (pkg_version package))
                  (getPackageInfo c (pkg_name package) (pkg_version package)))
               w = (ra, w1, t1) ->
             t1 = [EnsureInstalledPackage (pkg_name package);
                   GetPackageInfo (pkg_name package) (pkg_version package)])
    as Hboth.
  { intros ra w1 t1 Hall.
    apply Promise_all2_inv in Hall
      as (? & ? & ? & ? & ? & Hensure & Hinfo & -> & _).
    apply call_inv in Hensure as [_ ->]. by apply call_inv in Hinfo as [_ ->]. }
  apply bind_inv in H as [([[] pkgInfo] & ? & ? & ? & Hall & H & ->) | (e & Hall & _)];
    apply Hboth in Hall as ->; [|by repeat constructor].
  constructor; [done|]. constructor; [done|]. cbn [app].
  apply bind_inv in H as [(? & ? & ? & ? & Hcheck & H & ->) | (e & Hcheck & _)];
    [|by eapply create_limited_check_calls].
  apply Forall_app. split; [by eapply create_limited_check_calls|].
  apply compile_call_is_preparation_call.
  by eapply compilePackagePolicyInputs_calls.
Qed.

(** Every way [create] can run: it stops before it reads the clock, or
    the store refuses the record, or the store accepts it and the
    assignment settles the outcome. *)
Lemma create_run packagePolicy options (w : W) r w' t :
  PackagePolicyService.create c packagePolicy options w = (r, w', t) ->
  let user := options ≫= co_user in
  let bumpRevision := default true (options ≫= co_bumpRevision) in
  exists t_checks,
    Forall (fun ev => is_create_check ev = true) t_checks
    /\ ((t = t_checks /\ exists e, r = Rejected e)
        \/ (exists packagePolicyId attributes w_date e,
               t = t_checks ++ [DateNow; SoCreate packagePolicyId attributes]
               /\ soClient_create c attributes packagePolicyId w_date
                  = (Rejected e, w')
               /\ r = Rejected e)
        \/ (exists packagePolicyId attributes w_date newSo w_so answer,
               t = t_checks
                   ++ [DateNow; SoCreate packagePolicyId attributes;
                       AssignPackagePolicies (np_policy_id packagePolicy)
                         [so_id newSo] user bumpRevision]
               /\ soClient_create c attributes packagePolicyId w_date
                  = (Resolved newSo, w_so)
               /\ agentPolicyService_assignPackagePolicies c
                    (np_policy_id packagePolicy) [so_id newSo] user
                    bumpRevision w_so = (answer, w')
               /\ r = match answer with
                      | Resolved _ => Resolved (packagePolicy_of_so newSo)
                      | Rejected e => Rejected e
                      end)).
Proof.
  intros H user bumpRevision. unfold PackagePolicyService.create in H.
  apply bind_inv in H as [(parent & w1 & t1 & t2 & Hparent & H & ->) | (e & Hparent & ->)];
    apply call_inv in Hparent as [_ ->].
  2:{ eexists. split; [|left; split; [reflexivity | by eexists]].
      by repeat constructor. }
  destruct parent as [parent|].
  2:{ apply throw_inv in H as (-> & _ & ->).
      eexists. split; [|left; split; [reflexivity | by eexists]].
      by repeat constructor. }
  destruct (ap_is_managed parent).
  { apply throw_inv in H as (-> & _ & ->).
    eexists. split; [|left; split; [reflexivity | by eexists]].
    by repeat constructor. }
  destruct (List.find _ _).
  { apply throw_inv in H as (-> & _ & ->).
    eexists. split; [|left; split; [reflexivity | by eexists]].
    by repeat constructor. }
  apply bind_inv in H as [(pid & w2 & t_id & t3 & Hid & H & ->) | (e & Hid & ->)].
  2:{ unfold PackagePolicyService.choose_id in Hid.
      destruct (truthy _);
        [by apply mret_inv in Hid as ([=] & _)
        | by apply call_total_inv in Hid as (? & _ & [=] & _)]. }
  assert (Forall (fun ev => is_create_check ev = true) t_id) as Hdraw.
  { unfold PackagePolicyService.choose_id in Hid. destruct (truthy _).
    - apply mret_inv in Hid as (_ & _ & ->). constructor.
    - apply call_total_inv in Hid as (? & _ & _ & ->). by repeat constructor. }
  apply bind_inv in H as [(inputs & w3 & t_pkg & t4 & Hpkg & H & ->) | (e & Hpkg & ->)];
    apply create_package_calls in Hpkg; apply preparation_call_is_create_check in Hpkg.
  2:{ eexists. split; [|left; split; [reflexivity | by eexists]].
      constructor; [done|]. cbn [app]. by apply Forall_app. }
  apply bind_inv in H as [(iso & w4 & t5 & t6 & Hiso & H & ->) | (e & Hiso & ->)];
    apply call_total_inv in Hiso as (iso' & Hiso & Heq & ->); [|done].
  injection Heq as ->.
  exists (AgentPolicyGet (np_policy_id packagePolicy) None :: t_id ++ t_pkg).
  split; [constructor; [done | by apply Forall_app]|].
  apply bind_inv in H as [(so & w5 & t7 & t8 & Hso & H & ->) | (e & Hso & ->)];
    apply call_inv in Hso as [Hso ->].
  2:{ right. left. eexists _, _, _, _. split; [|by split].
      cbn [app]. by rewrite <- !app_assoc. }
  right. right.
  apply bind_inv in H as [([] & w6 & t9 & t10 & Hassign & H & ->) | (e & Hassign & ->)];
    apply call_inv in Hassign as [Hassign ->].
  - apply mret_inv in H as (-> & -> & ->).
    eexists _, _, _, so, w5, (Resolved ()).
    split_and!; [|exact Hso | exact Hassign | done].
    cbn [app]. by rewrite <- !app_assoc.
  - eexists _, _, _, so, w5, (Rejected e).
    split_and!; [|exact Hso | exact Hassign | done].
    cbn [app]. by rewrite <- !app_assoc.
Qed.

End MoreCreateFacts.

(** X9. [create] looks the agent policy up first, and when the look-up is
    rejected, finds nothing, or finds a managed agent policy, [create] is
    rejected there and then: with the error of the look-up, with
    ["Agent policy not found"], or with an [IngestManagerError] that names
    the agent policy.  Nothing else was called by then: no id was drawn,
    no package installed, nothing stored.  A managed agent policy is
    refused before the names of its package policies are looked at. *)
Theorem create_checks_the_agent_policy_first :
  forall {W} (c : Collaborators W) packagePolicy options (w : W) answer w1,
    agentPolicyService_get c (np_policy_id packagePolicy) None w = (answer, w1) ->
    (forall parent,
        answer = Resolved (Some parent) -> ap_is_managed parent = true) ->
    PackagePolicyService.create c packagePolicy options w
    = (Rejected
         match answer with
         | Rejected e => e
         | Resolved None => Error "Agent policy not found"
         | Resolved (Some parent) =>
             IngestManagerError
               ("Cannot add integrations to managed policy " +:+ ap_id parent)
         end,
       w1, [AgentPolicyGet (np_policy_id packagePolicy) None]).
Proof.
  intros W c packagePolicy options w answer w1 Hanswer Hmanaged.
  unfold PackagePolicyService.create. rewrite run_bind.
  unfold call at 1. rewrite Hanswer.
  destruct answer as [[parent|]|e]; [|reflexivity|reflexivity].
  by rewrite (Hmanaged parent eq_refl).
Qed.

Lemma create_checks_the_agent_policy_first_witness :
  PackagePolicyService.create Sample.collaborators
    (Sample.policy_on "managed-1" "nginx-1" (Some Sample.nginx_package))
    None Sample.world
  = (Rejected (IngestManagerError
                 "Cannot add integrations to managed policy managed-1"),
     Sample.world, [AgentPolicyGet "managed-1" None])
  /\ PackagePolicyService.create Sample.collaborators
       (Sample.policy_on "agent-9" "nginx-1" (Some Sample.nginx_package))
       None Sample.world
     = (Rejected (Error "Agent policy not found"),
        Sample.world, [AgentPolicyGet "agent-9" None]).
Proof.
  split.
  - apply (create_checks_the_agent_policy_first Sample.collaborators
             (Sample.policy_on "managed-1" "nginx-1" (Some Sample.nginx_package))
             None Sample.world
             (Resolved (Some {| ap_id := "managed-1";
                                ap_is_managed := true;
                                ap_package_policies := [] |}))
             Sample.world).
    + vm_compute. reflexivity.
    + by intros parent [= <-].
  - apply (create_checks_the_agent_policy_first Sample.collaborators
             (Sample.policy_on "agent-9" "nginx-1" (Some Sample.nginx_package))
             None Sample.world (Resolved None) Sample.world).
    + vm_compute. reflexivity.
    + intros parent Heq. discriminate Heq.
Defined.

(** X10. A limited package goes on an agent policy once.  When the
    policy names a package, [create] has it installed and reads its
    information; when that package is limited, [create] looks the agent
    policy up again, with its package policies, and when it already
    includes the package, [create] is rejected with
    ["Unable to create package policy. Package '<name>' already exists on
    this agent policy."].  By then the package was installed; nothing was
    compiled and nothing stored. *)
Theorem create_rejects_a_second_policy_of_a_limited_package :
  forall {W} (c : Collaborators W) packagePolicy options package
         (w : W) parent w1 packagePolicyId w2 t_id w3 pkgInfo w4 agentPolicy w5,
    np_package packagePolicy = Some package ->
    pkg_name package <> "" ->
    agentPolicyService_get c (np_policy_id packagePolicy) None w
      = (Resolved (Some parent), w1) ->
    ap_is_managed parent = false ->
    List.find (fun siblingPackagePolicy =>
                 String.eqb (pp_name siblingPackagePolicy) (np_name packagePolicy))
      (ap_package_policies parent) = None ->
    PackagePolicyService.choose_id c (options ≫= co_id) w1
      = (Resolved packagePolicyId, w2, t_id) ->
    ensureInstalledPackage c (pkg_name package) w2 = (Resolved (), w3) ->
    getPackageInfo c (pkg_name package) (pkg_version package) w3
      = (Resolved pkgInfo, w4) ->
    isPackageLimited c pkgInfo = true ->
    agentPolicyService_get c (np_policy_id packagePolicy) (Some true) w4
      = (Resolved (Some agentPolicy), w5) ->
    doesAgentPolicyAlreadyIncludePackage c agentPolicy (pi_name pkgInfo) = true ->
    PackagePolicyService.create c packagePolicy options w
    = (Rejected (Error ("Unable to create package policy. Package '"
                        +:+ pi_name pkgInfo
                        +:+ "' already exists on this agent policy.")),
       w5,
       AgentPolicyGet (np_policy_id packagePolicy) None
         :: t_id
         ++ [EnsureInstalledPackage (pkg_name package);
             GetPackageInfo (pkg_name package) (pkg_version package);
             AgentPolicyGet (np_policy_id packagePolicy) (Some true)]).
Proof.
  intros W c packagePolicy options package w parent w1 packagePolicyId w2 t_id
         w3 pkgInfo w4 agentPolicy w5 Hpackage Hname Hparent Hmanaged Hfind Hid
         Hensure Hinfo Hlimited Hagain Hincludes.
  destruct (PackagePolicyService.create c packagePolicy options w)
    as [[r w'] t] eqn:H.
  unfold PackagePolicyService.create in H.
  apply bind_inv in H as [(o & w1' & t1 & t2 & Hparent' & H & ->) | (e & Hparent' & _)];
    apply call_inv in Hparent' as [Hparent' ->]; rewrite Hparent in Hparent';
    [|done]. injection Hparent' as <- <-.
  rewrite Hmanaged, Hfind in H.
  apply bind_inv in H as [(pid & w2' & t3 & t4 & Hid' & H & ->) | (e & Hid' & _)];
    rewrite Hid in Hid'; [|done]. injection Hid' as <- <- <-.
  rewrite Hpackage in H.
  assert (truthy (Some (pkg_name package)) = true) as Htruthy
    by (by destruct (pkg_name package)).
  rewrite Htruthy in H.
  assert (Promise_all2
            (call (EnsureInstalledPackage (pkg_name package))
               (ensureInstalledPackage c (pkg_name package)))
            (call (GetPackageInfo (pkg_name package) (pkg_version package))
               (getPackageInfo c (pkg_name package) (pkg_version package)))
            w2
          = (Resolved ((), pkgInfo), w4,
             [EnsureInstalledPackage (pkg_name package);
              GetPackageInfo (pkg_name package) (pkg_version package)]))
    as Hboth.
  { unfold Promise_all2, call. by rewrite Hensure, Hinfo. }
  apply bind_inv in H as [(inputs & w6 & t5 & t6 & Hpkg & H & ->) | (e & Hpkg & ->)].
  - exfalso.
    apply bind_resolved_inv in Hpkg as (both & w4' & ? & ? & Hboth' & Hpkg & _).
    rewrite Hboth in Hboth'. injection Hboth' as <- <- <-.
    apply bind_resolved_inv in Hpkg as ([] & ? & ? & ? & Hcheck & _ & _).
    rewrite Hlimited in Hcheck.
    apply bind_resolved_inv in Hcheck as (a & w5' & ? & ? & Hagain' & Hcheck & _).
    apply call_inv in Hagain' as [Hagain' _]. rewrite Hagain in Hagain'.
    injection Hagain' as <- <-. rewrite Hincludes in Hcheck.
    by apply throw_inv in Hcheck as ([=] & _).
  - apply bind_inv in Hpkg as [(both & w4' & ? & ? & Hboth' & Hpkg & ->) | (e' & Hboth' & _)];
      rewrite Hboth in Hboth'; [|done]. injection Hboth' as <- <- <-.
    cbv beta iota in Hpkg. rewrite Hlimited in Hpkg.
    apply bind_inv in Hpkg as [([] & w7 & ? & ? & Hcheck & Hpkg & ->) | (e' & Hcheck & [= <-])].
    + exfalso.
      apply bind_resolved_inv in Hcheck as (a & w5' & ? & ? & Hagain' & Hcheck & _).
      apply call_inv in Hagain' as [Hagain' _]. rewrite Hagain in Hagain'.
      injection Hagain' as <- <-. rewrite Hincludes in Hcheck.
      by apply throw_inv in Hcheck as ([=] & _).
    + apply bind_inv in Hcheck as [(a & w5' & ? & ? & Hagain' & Hcheck & ->) | (e'' & Hagain' & _)];
        apply call_inv in Hagain' as [Hagain' ->]; rewrite Hagain in Hagain';
        [|done]. injection Hagain' as <- <-. rewrite Hincludes in Hcheck.
      apply throw_inv in Hcheck as ([= ->] & -> & ->).
      by rewrite app_nil_r.
Qed.

Lemma create_rejects_a_second_policy_of_a_limited_package_witness :
  PackagePolicyService.create Sample.collaborators
    (Scenario.endpoint_policy "endpoint-2") (Sample.with_id "pp-2")
    Scenario.world_with_endpoint
  = (Rejected (Error "Unable to create package policy. Package 'endpoint' already exists on this agent policy."),
     Scenario.world_with_endpoint,
     [AgentPolicyGet "agent-1" None; EnsureInstalledPackage "endpoint";
      GetPackageInfo "endpoint" "1.0.0"; AgentPolicyGet "agent-1" (Some true)]).
Proof.
  pose (agentPolicy :=
          default {| ap_id := ""; ap_is_managed := true; ap_package_policies := [] |}
            (match Mem.mem_agentPolicy_get "agent-1" None
                     Scenario.world_with_endpoint with
             | (Resolved found, _) => found
             | _ => None
             end)).
  apply (create_rejects_a_second_policy_of_a_limited_package
           Sample.collaborators (Scenario.endpoint_policy "endpoint-2")
           (Sample.with_id "pp-2") Scenario.endpoint_package
           Scenario.world_with_endpoint agentPolicy
           Scenario.world_with_endpoint "pp-2" Scenario.world_with_endpoint []
           Scenario.world_with_endpoint Scenario.endpoint_info
           Scenario.world_with_endpoint agentPolicy
           Scenario.world_with_endpoint);
    try (vm_compute; reflexivity).
  intros Heq. discriminate Heq.
Defined.

(** X11. When [create] resolves, it called
    [agentPolicyService.assignPackagePolicies] once: for the agent policy
    the new policy names, with the one id the store answered, which is
    the id of the policy returned, for the user of the options, and with
    [bumpRevision] as the options have it, [true] when they have none. *)
Theorem create_assigns_what_the_store_answered :
  forall {W} (c : Collaborators W) packagePolicy options (w : W) result w' t,
    PackagePolicyService.create c packagePolicy options w
      = (Resolved result, w', t) ->
    assigned t
    = [(np_policy_id packagePolicy, [pp_id result], options ≫= co_user,
        default true (options ≫= co_bumpRevision))].
Proof.
  intros W c packagePolicy options w result w' t H.
  apply create_run in H as (t_checks & Hchecks & H).
  apply create_checks_write_nothing in Hchecks as (_ & Hassigned & _).
  destruct H as [(_ & e & [=])
                | [(? & ? & ? & e & _ & _ & [=])
                  | (pid & attributes & w_date & newSo & w_so & answer & -> & _
                     & _ & Hr)]].
  rewrite assigned_app, Hassigned. destruct answer as [[]|e]; [|done].
  by injection Hr as ->.
Qed.

Lemma create_assigns_what_the_store_answered_witness :
  exists result w' t,
    PackagePolicyService.create Sample.collaborators
      (Sample.policy "nginx-1" (Some Sample.nginx_package))
      (Sample.with_id "pp-1") Sample.world
    = (Resolved result, w', t)
    /\ assigned t = [("agent-1", ["pp-1"], None, true)].
Proof.
  destruct (PackagePolicyService.create Sample.collaborators
              (Sample.policy "nginx-1" (Some Sample.nginx_package))
              (Sample.with_id "pp-1") Sample.world)
    as [[[result|e] w'] t] eqn:Hrun;
    [|vm_compute in Hrun; discriminate Hrun].
  exists result, w', t. split; [reflexivity|].
  rewrite (create_assigns_what_the_store_answered _ _ _ _ _ _ _ Hrun).
  vm_compute in Hrun. by injection Hrun as <- _ _.
Defined.

(** X12. [create] hands at most one record to the store, assigns only
    what the store accepted, and undoes nothing: it never deletes,
    unassigns, updates or bumps a revision itself.  So when it is
    rejected after it handed a record over, either the store refused the
    record, or the store accepted it and the assignment was rejected; in
    that case the world is left as the assignment left it, the record
    still stored. *)
Theorem create_is_not_undone :
  forall {W} (c : Collaborators W) packagePolicy options (w : W) r w' t,
    PackagePolicyService.create c packagePolicy options w = (r, w', t) ->
    (length (assigned t) <= length (created t) <= 1)%nat
    /\ store_deleted t = [] /\ unassigned t = [] /\ updated t = []
    /\ bulk_created t = [] /\ revision_bumps t = []
    /\ (forall e,
           r = Rejected e -> created t <> [] ->
           exists packagePolicyId attributes w_date,
             created t = [(packagePolicyId, attributes)]
             /\ ((soClient_create c attributes packagePolicyId w_date
                  = (Rejected e, w')
                  /\ assigned t = [])
                 \/ exists newSo w_so,
                      soClient_create c attributes packagePolicyId w_date
                      = (Resolved newSo, w_so)
                      /\ agentPolicyService_assignPackagePolicies c
                           (np_policy_id packagePolicy) [so_id newSo]
                           (options ≫= co_user)
                           (default true (options ≫= co_bumpRevision)) w_so
                         = (Rejected e, w'))).
Proof.
  intros W c packagePolicy options w r w' t H.
  apply create_run in H as (t_checks & Hchecks & H).
  apply create_checks_write_nothing in Hchecks
    as (Hc & Ha & Hd & Hu & Hw & Hb & Hr).
  destruct H as [(-> & e & ->)
                | [(pid & attributes & w_date & e & -> & Hso & ->)
                  | (pid & attributes & w_date & newSo & w_so & answer & -> & Hso
                     & Hassign & ->)]].
  - rewrite Hc, Ha. split_and!; try done. cbn; lia.
  - rewrite created_app, assigned_app, store_deleted_app, unassigned_app,
      updated_app, bulk_created_app, revision_bumps_app, Hc, Ha, Hd, Hu, Hw, Hb, Hr.
    cbn. split_and!; try done; [lia|].
    intros e' [= <-] _. exists pid, attributes, w_date. split; [done|]. by left.
  - rewrite created_app, assigned_app, store_deleted_app, unassigned_app,
      updated_app, bulk_created_app, revision_bumps_app, Hc, Ha, Hd, Hu, Hw, Hb, Hr.
    cbn. split_and!; try done.
    intros e' He' _. exists pid, attributes, w_date. split; [done|]. right.
    destruct answer as [[]|e]; [done|]. injection He' as <-.
    by exists newSo, w_so.
Qed.

Lemma create_is_not_undone_witness :
  exists w' t,
    PackagePolicyService.create Scenario.collaborators_with_agent_policies_down
      (Sample.policy "nginx-1" None) (Sample.with_id "pp-1") Sample.world
    = (Rejected Scenario.agent_policies_down, w', t)
    /\ store_deleted t = []
    /\ length (created t) = 1%nat
    /\ Mem.stored_revision w' "pp-1" = Some 1.
Proof.
  destruct (PackagePolicyService.create
              Scenario.collaborators_with_agent_policies_down
              (Sample.policy "nginx-1" None) (Sample.with_id "pp-1") Sample.world)
    as [[r w'] t] eqn:Hrun.
  destruct (create_is_not_undone _ _ _ _ _ _ _ Hrun) as (_ & Hdeleted & _).
  assert (r = Rejected Scenario.agent_policies_down
          /\ length (created t) = 1%nat
          /\ Mem.stored_revision w' "pp-1" = Some 1) as (-> & Hcreated & Hstored)
    by (vm_compute in Hrun; injection Hrun as <- <- <-; by vm_compute).
  by exists w', t.
Defined.

(* ================================================================== *)
(** * More on bulkCreate *)
(* ================================================================== *)

Lemma draws_are_draws n :
  Forall (fun ev => is_preparation_call ev = false) (replicate n UuidV4)
  /\ length (List.filter is_UuidV4 (replicate n UuidV4)) = n
  /\ assigned (replicate n UuidV4) = []
  /\ created (replicate n UuidV4) = [].
Proof.
  induction n as [|n (IH1 & IH2 & IH3 & IH4)]; [by split_and!; [constructor|..]|].
  cbn. split_and!; [by constructor | by rewrite IH2 | done | done].
Qed.

Section MoreBulkCreateFacts.
Context {W : Type} (c : Collaborators W).

(** Every way [bulkCreate] can run. *)
Lemma bulkCreate_run packagePolicies agentPolicyId options (w : W) :
  let user := options ≫= bo_user in
  let bumpRevision := default true (options ≫= bo_bumpRevision) in
  let n := length packagePolicies in
  exists isoDate w1 objects w2,
    toISOString_now c w = (isoDate, w1)
    /\ length objects = n
    /\ match soClient_bulkCreate c objects w2 with
       | (Rejected e, w3) =>
           PackagePolicyService.bulkCreate c packagePolicies agentPolicyId
             options w
           = (Rejected e, w3,
              [DateNow] ++ replicate n UuidV4 ++ [SoBulkCreate objects])
       | (Resolved saved_objects, w3) =>
           let newSos :=
             List.filter
               (fun so => negb (bool_decide (is_Some (so_error so))) && true)
               saved_objects in
           exists answer w4,
             agentPolicyService_assignPackagePolicies c agentPolicyId
               (map so_id newSos) user bumpRevision w3 = (answer, w4)
             /\ PackagePolicyService.bulkCreate c packagePolicies agentPolicyId
                  options w
                = (match answer with
                   | Resolved _ => Resolved (map packagePolicy_of_so newSos)
                   | Rejected e => Rejected e
                   end, w4,
                   [DateNow] ++ replicate n UuidV4
                   ++ [SoBulkCreate objects;
                       AssignPackagePolicies agentPolicyId (map so_id newSos)
                         user bumpRevision])
       end.
Proof.
  intros user bumpRevision n.
  destruct (toISOString_now c w) as [isoDate w1] eqn:Hclock.
  destruct (bulkCreate_objects c agentPolicyId isoDate user packagePolicies w1)
    as (objects & w2 & Hobjects & Hall).
  exists isoDate, w1, objects, w2.
  split; [reflexivity|]. split; [symmetry; by eapply Forall2_length|].
  unfold PackagePolicyService.bulkCreate. cbv zeta.
  erewrite run_bind_resolved; [|unfold call_total; by rewrite Hclock].
  fold user. erewrite run_bind_resolved by exact Hobjects.
  rewrite run_bind. unfold call. cbv beta.
  destruct (soClient_bulkCreate c objects w2) as [[saved_objects|e] w3];
    [|reflexivity].
  cbv zeta. rewrite run_bind. fold bumpRevision.
  destruct (agentPolicyService_assignPackagePolicies c _ _ _ _ w3)
    as [[[]|e] w4]; by eexists _, _.
Qed.

End MoreBulkCreateFacts.

(** X13. [bulkCreate] checks nothing and compiles nothing: however it
    runs, it never looks an agent policy up, so neither a missing nor a
    managed agent policy nor a name that is taken stops it, and it calls
    neither the installer, the registry nor the template engine.  It
    draws one id from [uuid.v4] for each policy it is given, and hands
    records to the store in a batch only. *)
Theorem bulkCreate_checks_nothing :
  forall {W} (c : Collaborators W) packagePolicies agentPolicyId options (w : W),
    let t :=
      (PackagePolicyService.bulkCreate c packagePolicies agentPolicyId
         options w).2 in
    Forall (fun ev => is_preparation_call ev = false) t
    /\ length (List.filter is_UuidV4 t) = length packagePolicies
    /\ created t = [].
Proof.
  intros W c packagePolicies agentPolicyId options w.
  destruct (bulkCreate_run c packagePolicies agentPolicyId options w)
    as (isoDate & w1 & objects & w2 & _ & _ & Hrun).
  destruct (draws_are_draws (length packagePolicies)) as (Hp & Hn & _ & Hc).
  destruct (soClient_bulkCreate c objects w2) as [[saved_objects|e] w3].
  - destruct Hrun as (answer & w4 & _ & ->). cbn [snd].
    rewrite !List.filter_app, !length_app, !created_app, Hn, Hc.
    split_and!; [|cbn; lia | done].
    apply Forall_app. split; [by repeat constructor|].
    apply Forall_app. split; [done | by repeat constructor].
  - rewrite Hrun. cbn [snd].
    rewrite !List.filter_app, !length_app, !created_app, Hn, Hc.
    split_and!; [|cbn; lia | done].
    apply Forall_app. split; [by repeat constructor|].
    apply Forall_app. split; [done | by repeat constructor].
Qed.

(** X14. When [bulkCreate] resolves, the policies it returns are the
    saved objects the store answered without an error, in the order of
    the answer; the ones the store answered with an error are left out
    and nothing is thrown for them.  [agentPolicyService.assignPackagePolicies]
    was called once, for the [agentPolicyId] argument and with the ids of
    exactly the policies returned, also when there are none, with
    [bumpRevision] as the options have it, [true] when they have none. *)
Theorem bulkCreate_assigns_the_policies_it_returns :
  forall {W} (c : Collaborators W) packagePolicies agentPolicyId options (w : W)
         result w' t,
    PackagePolicyService.bulkCreate c packagePolicies agentPolicyId options w
      = (Resolved result, w', t) ->
    (exists objects w2 saved_objects w3,
        bulk_created t = [objects]
        /\ soClient_bulkCreate c objects w2 = (Resolved saved_objects, w3)
        /\ result
           = map packagePolicy_of_so
               (List.filter (fun so => bool_decide (so_error so = None))
                  saved_objects))
    /\ assigned t
       = [(agentPolicyId, map pp_id result, options ≫= bo_user,
           default true (options ≫= bo_bumpRevision))].
Proof.
  intros W c packagePolicies agentPolicyId options w result w' t H.
  destruct (bulkCreate_run c packagePolicies agentPolicyId options w)
    as (isoDate & w1 & objects & w2 & _ & _ & Hrun).
  destruct (draws_are_draws (length packagePolicies)) as (_ & _ & Ha & _).
  destruct (draws_write_nothing (length packagePolicies)) as (Hb & _).
  destruct (soClient_bulkCreate c objects w2) as [[saved_objects|e] w3] eqn:Hstore;
    [|rewrite H in Hrun; discriminate Hrun].
  destruct Hrun as (answer & w4 & _ & Hrun). rewrite H in Hrun.
  destruct answer as [[]|e]; [|discriminate Hrun].
  injection Hrun as -> -> ->.
  assert (forall sos : list SavedObject,
             List.filter
               (fun so => negb (bool_decide (is_Some (so_error so))) && true) sos
             = List.filter (fun so => bool_decide (so_error so = None)) sos)
    as Hfilter.
  { intros sos. apply List.filter_ext. intros so.
    rewrite andb_true_r. destruct (so_error so); [done|].
    rewrite bool_decide_eq_false_2; [done|]. by intros [? ?]. }
  rewrite Hfilter. split.
  - exists objects, w2, saved_objects, w3.
    split_and!; [|done|done].
    change (bulk_created (DateNow :: ?x)) with (bulk_created x).
    rewrite !bulk_created_app, Hb. reflexivity.
  - change (assigned (DateNow :: ?x)) with (assigned x).
    rewrite !assigned_app, Ha. cbn. rewrite <- list_fmap_compose.
    do 3 f_equal.
Qed.

Lemma bulkCreate_assigns_the_policies_it_returns_witness :
  exists result w' t,
    PackagePolicyService.bulkCreate Sample.collaborators
      [Sample.policy "first" None; Sample.policy "second" None] "agent-2" None
      Scenario.world_with_uuid_0
    = (Resolved result, w', t)
    /\ map pp_name result = ["second"]
    /\ assigned t = [("agent-2", ["uuid-1"], None, true)].
Proof.
  destruct (PackagePolicyService.bulkCreate Sample.collaborators
              [Sample.policy "first" None; Sample.policy "second" None]
              "agent-2" None Scenario.world_with_uuid_0)
    as [[[result|e] w'] t] eqn:Hrun;
    [|vm_compute in Hrun; discriminate Hrun].
  exists result, w', t. split; [reflexivity|].
  destruct (bulkCreate_assigns_the_policies_it_returns _ _ _ _ _ _ _ _ Hrun)
    as (_ & ->).
  vm_compute in Hrun. by injection Hrun as <- _ _.
Defined.

(* ================================================================== *)
(** * More on update *)
(* ================================================================== *)

Lemma installed_app t1 t2 : installed (t1 ++ t2) = installed t1 ++ installed t2.
Proof. apply omap_app. Qed.

Lemma same_settings_assign packagePolicyId inputs :
  Forall2 same_settings inputs (map (assignStreamIdToInput packagePolicyId) inputs).
Proof.
  induction inputs as [|input inputs IH]; constructor; [|exact IH].
  unfold same_settings. cbn. split_and!; try done.
  induction (i_streams input) as [|stream streams IHs]; constructor; [|done].
  by repeat split.
Qed.

Lemma same_settings_compiled inputs inputs' inputs'' :
  Forall2 same_settings inputs inputs' ->
  Forall2 compiled_input_of inputs' inputs'' ->
  Forall2 same_settings inputs inputs''.
Proof.
  intros H. revert inputs''.
  induction H as [|input input' inputs inputs' Hs _ IH]; intros inputs'' Hc.
  - apply Forall2_nil_inv_l in Hc as ->. constructor.
  - apply Forall2_cons_inv_l in Hc as (input'' & rest & Hc & Hrest & ->).
    constructor; [|by apply IH].
    destruct Hc as (compiled & streams & -> & _ & Hstreams).
    destruct Hs as (? & ? & ? & ? & Hss).
    unfold same_settings. cbn. split_and!; try done.
    clear -Hss Hstreams. revert streams Hstreams.
    induction Hss as [|s s' ss ss' Hone _ IHs]; intros streams Hstreams.
    + apply Forall2_nil_inv_l in Hstreams as ->. constructor.
    + apply Forall2_cons_inv_l in Hstreams as (s'' & rest & (cs & -> & _) & Hrest & ->).
      constructor; [|by apply IHs].
      destruct Hone as (? & ? & ? & ?). by repeat split.
Qed.

(** The checks of [update] write nothing, install nothing, draw no id. *)
Lemma update_checks_write_nothing t :
  Forall (fun ev => is_update_check ev = true) t ->
  updated t = [] /\ revision_bumps t = [] /\ created t = []
  /\ bulk_created t = [] /\ store_deleted t = [] /\ assigned t = []
  /\ unassigned t = [] /\ installed t = [] /\ List.filter is_UuidV4 t = [].
Proof.
  induction 1 as [|ev t Hev _ IH]; [done|].
  destruct IH as (? & ? & ? & ? & ? & ? & ? & ? & ?). by destruct ev.
Qed.

Lemma compile_call_is_update_check t :
  Forall (fun ev => is_compile_call ev = true) t ->
  Forall (fun ev => is_update_check ev = true) t.
Proof. intros H. eapply Forall_impl; [exact H|]. by intros []. Qed.

Section MoreUpdateFacts.
Context {W : Type} (c : Collaborators W).

(** The package part of [update]: the inputs it gives keep the settings
    of the request and carry the derived stream ids; without a package
    name they are the inputs of the request with their ids assigned. *)
Lemma update_package_part rest packagePolicyId (w : W) r w' t :
  match np_package rest with
  | Some package =>
      if truthy (Some (pkg_name package)) then
        pkgInfo ←
          call (GetPackageInfo (pkg_name package) (pkg_version package))
            (getPackageInfo c (pkg_name package) (pkg_version package));
        PackagePolicyService.compilePackagePolicyInputs c pkgInfo
          (map (assignStreamIdToInput packagePolicyId) (np_inputs rest))
      else mret (map (assignStreamIdToInput packagePolicyId) (np_inputs rest))
  | None => mret (map (assignStreamIdToInput packagePolicyId) (np_inputs rest))
  end w = (r, w', t) ->
  Forall (fun ev => is_update_check ev = true) t
  /\ (forall inputs,
         r = Resolved inputs ->
         streams_identified packagePolicyId inputs
         /\ Forall2 same_settings (np_inputs rest) inputs
         /\ (truthy (pkg_name <$> np_package rest) = false ->
             inputs = map (assignStreamIdToInput packagePolicyId) (np_inputs rest)
             /\ t = [])).
Proof.
  intros H.
  destruct (np_package rest) as [package|]; cbn [fmap option_fmap option_map].
  2:{ apply mret_inv in H as (-> & _ & ->). split; [constructor|].
      intros inputs [= <-].
      split_and!; [apply streams_identified_assign | apply same_settings_assign
                  | done]. }
  destruct (truthy (Some (pkg_name package))) eqn:Htruthy.
  2:{ apply mret_inv in H as (-> & _ & ->). split; [constructor|].
      intros inputs [= <-].
      split_and!; [apply streams_identified_assign | apply same_settings_assign
                  | done]. }
  apply bind_inv in H as [(pkgInfo & w1 & t1 & t2 & Hinfo & H & ->) | (e & Hinfo & ->)];
    apply call_inv in Hinfo as [_ ->]; [|split; [by repeat constructor | done]].
  split.
  - constructor; [done|]. apply compile_call_is_update_check.
    by eapply compilePackagePolicyInputs_calls.
  - intros inputs ->. apply compilePackagePolicyInputs_resolved in H.
    split_and!; [| |done].
    + eapply streams_identified_compiled; [exact H|].
      apply streams_identified_assign.
    + eapply same_settings_compiled; [apply same_settings_assign | exact H].
Qed.

(** Every way [update] can run: it stops before it reads the clock; or
    the store refuses the write; or the store accepts it and the bump of
    the agent policy is rejected; or both are accepted and the outcome is
    that of reading the policy again. *)
Lemma update_run id packagePolicy options (w : W) r w' t :
  PackagePolicyService.update c id packagePolicy options w = (r, w', t) ->
  let user := options ≫= uo_user in
  let rest := u_rest packagePolicy in
  let version := u_version packagePolicy in
  exists t_checks,
    Forall (fun ev => is_update_check ev = true) t_checks
    /\ ((t = t_checks /\ exists e, r = Rejected e)
        \/ (exists old w1 inputs updated_at w4,
               let attributes :=
                 PackagePolicyService.update_attributes rest inputs
                   (js_add (pp_revision old) 1) updated_at user in
               PackagePolicyService.get c id w
                 = (Resolved (Some old), w1, [SoGet id])
               /\ streams_identified (pp_id old) inputs
               /\ Forall2 same_settings (np_inputs rest) inputs
               /\ (truthy (pkg_name <$> np_package rest) = false ->
                   inputs = map (assignStreamIdToInput (pp_id old)) (np_inputs rest)
                   /\ t_checks = [SoGet id; AgentPolicyGet (np_policy_id rest) None])
               /\ ((exists e,
                       t = t_checks ++ [DateNow; SoUpdate id attributes version]
                       /\ soClient_update c id attributes version w4
                          = (Rejected e, w')
                       /\ r = Rejected e)
                   \/ (exists w5 e,
                          t = t_checks
                              ++ [DateNow; SoUpdate id attributes version;
                                  BumpRevision (np_policy_id rest) user]
                          /\ soClient_update c id attributes version w4
                             = (Resolved (), w5)
                          /\ agentPolicyService_bumpRevision c
                               (np_policy_id rest) user w5 = (Rejected e, w')
                          /\ r = Rejected e)
                   \/ (exists w5 w6,
                          t = t_checks
                              ++ [DateNow; SoUpdate id attributes version;
                                  BumpRevision (np_policy_id rest) user;
                                  SoGet id]
                          /\ soClient_update c id attributes version w4
                             = (Resolved (), w5)
                          /\ agentPolicyService_bumpRevision c
                               (np_policy_id rest) user w5 = (Resolved (), w6)
                          /\ PackagePolicyService.get c id w6
                             = (r, w', [SoGet id]))))).
Proof.
  intros H user rest version. unfold PackagePolicyService.update in H.
  fold user rest version in H.
  apply bind_inv in H as [(old & w1 & t1 & t2 & Hold & H & ->) | (e & Hold & ->)];
    pose proof (get_calls _ _ _ _ _ _ Hold) as ->.
  2:{ eexists. split; [|left; split; [reflexivity | by eexists]].
      by repeat constructor. }
  destruct old as [old|].
  2:{ apply throw_inv in H as (-> & _ & ->).
      eexists. split; [|left; split; [reflexivity | by eexists]].
      by repeat constructor. }
  apply bind_inv in H as [(parent & w2 & t3 & t4 & Hparent & H & ->) | (e & Hparent & ->)];
    apply call_inv in Hparent as [_ ->].
  2:{ eexists. split; [|left; split; [reflexivity | by eexists]].
      by repeat constructor. }
  destruct parent as [parent|].
  2:{ apply throw_inv in H as (-> & _ & ->).
      eexists. split; [|left; split; [reflexivity | by eexists]].
      by repeat constructor. }
  destruct (ap_is_managed parent).
  { apply throw_inv in H as (-> & _ & ->).
    eexists. split; [|left; split; [reflexivity | by eexists]].
    by repeat constructor. }
  destruct (List.find _ _).
  { apply throw_inv in H as (-> & _ & ->).
    eexists. split; [|left; split; [reflexivity | by eexists]].
    by repeat constructor. }
  apply bind_inv in H as [(inputs & w3 & t_pkg & t5 & Hpkg & H & ->) | (e & Hpkg & ->)];
    apply update_package_part in Hpkg as [Hcalls Hinputs].
  2:{ eexists. split; [|left; split; [reflexivity | by eexists]].
      constructor; [done|]. by constructor. }
  destruct (Hinputs inputs eq_refl) as (Hids & Hsettings & Hplain).
  apply bind_inv in H as [(iso & w4 & t6 & t7 & Hiso & H & ->) | (e & Hiso & ->)];
    apply call_total_inv in Hiso as (iso' & Hiso & Heq & ->); [|done].
  injection Heq as ->.
  exists ([SoGet id; AgentPolicyGet (np_policy_id rest) None] ++ t_pkg).
  split; [constructor; [done | by constructor]|].
  right. exists old, w1, inputs, iso', w4. cbv zeta.
  split_and!; [done | done | done | |].
  { intros Hnone. destruct (Hplain Hnone) as [-> ->]. by rewrite app_nil_r. }
  apply bind_inv in H as [([] & w5 & t8 & t9 & Hupdate & H & ->) | (e & Hupdate & ->)];
    apply call_inv in Hupdate as [Hupdate ->].
  2:{ left. exists e. split_and!; [|done|done].
      cbn [app]. by rewrite <- ?app_assoc. }
  right.
  apply bind_inv in H as [([] & w6 & t10 & t11 & Hbump & H & ->) | (e & Hbump & ->)];
    apply call_inv in Hbump as [Hbump ->].
  2:{ left. exists w5, e. split_and!; [|done|done|done].
      cbn [app]. by rewrite <- ?app_assoc. }
  right. pose proof (get_calls _ _ _ _ _ _ H) as ->.
  exists w5, w6. split_and!; [|done|done|done].
  cbn [app]. by rewrite <- ?app_assoc.
Qed.

End MoreUpdateFacts.

(** X15. What a resolved [update] wrote is the request: the name,
    description, namespace, flag, agent policy, output and package of the
    request, the name of the user of the options or ["system"], and the
    inputs of the request with their settings, the ids of their streams
    derived anew from the id of the stored policy.  The version token of
    the request goes to the store as it is.  When the request names no
    package, or one with an empty name, the inputs written are those of
    the request with only the stream ids replaced, whatever compiled
    artifacts they carry, and neither the registry nor the template
    engine was called. *)
Theorem update_writes_the_request :
  forall {W} (c : Collaborators W) id packagePolicy options (w : W) result w' t,
    PackagePolicyService.update c id packagePolicy options w
      = (Resolved result, w', t) ->
    let rest := u_rest packagePolicy in
    let user := options ≫= uo_user in
    exists old w1 attributes,
      PackagePolicyService.get c id w = (Resolved (Some old), w1, [SoGet id])
      /\ updated t = [(id, attributes, u_version packagePolicy)]
      /\ ua_name attributes = np_name rest
      /\ ua_description attributes = np_description rest
      /\ ua_namespace attributes = np_namespace rest
      /\ ua_enabled attributes = np_enabled rest
      /\ ua_policy_id attributes = np_policy_id rest
      /\ ua_output_id attributes = np_output_id rest
      /\ ua_package attributes = np_package rest
      /\ ua_updated_by attributes = username_or_system user
      /\ streams_identified (pp_id old) (ua_inputs attributes)
      /\ Forall2 same_settings (np_inputs rest) (ua_inputs attributes)
      /\ (truthy (pkg_name <$> np_package rest) = false ->
          ua_inputs attributes
          = map (assignStreamIdToInput (pp_id old)) (np_inputs rest)
          /\ t = [SoGet id; AgentPolicyGet (np_policy_id rest) None; DateNow;
                  SoUpdate id attributes (u_version packagePolicy);
                  BumpRevision (np_policy_id rest) user; SoGet id]).
Proof.
  intros W c id packagePolicy options w result w' t H rest user.
  apply update_run in H as (t_checks & Hchecks & H).
  apply update_checks_write_nothing in Hchecks as (Hu & _).
  destruct H as [(_ & e & [=])
                | (old & w1 & inputs & updated_at & w4 & Hold & Hids & Hsettings
                   & Hplain & H)].
  destruct H as [(e & _ & _ & [=])
                | [(w5 & e & _ & _ & _ & [=]) | (w5 & w6 & -> & _ & _ & _)]].
  exists old, w1,
    (PackagePolicyService.update_attributes rest inputs
       (js_add (pp_revision old) 1) updated_at user).
  split_and!; [exact Hold | | done.. |].
  - rewrite updated_app, Hu. reflexivity.
  - intros Hnone. destruct (Hplain Hnone) as [-> ->]. by split.
Qed.

Lemma update_writes_the_request_witness :
  exists result w' t attributes version,
    PackagePolicyService.update Sample.collaborators "pp-1"
      {| u_version := Some "1"; u_rest := Sample.policy_on "agent-2" "moved" None |}
      None Sample.world_with_policy
    = (Resolved result, w', t)
    /\ updated t = [("pp-1", attributes, version)]
    /\ version = Some "1"
    /\ ua_policy_id attributes = "agent-2"
    /\ map i_compiled_input (ua_inputs attributes) = [Some "stale"; Some "stale"]
    /\ length t = 6%nat.
Proof.
  destruct (PackagePolicyService.update Sample.collaborators "pp-1"
              {| u_version := Some "1";
                 u_rest := Sample.policy_on "agent-2" "moved" None |}
              None Sample.world_with_policy)
    as [[[result|e] w'] t] eqn:Hrun;
    [|vm_compute in Hrun; discriminate Hrun].
  destruct (update_writes_the_request _ _ _ _ _ _ _ _ Hrun)
    as (old & w1 & attributes & _ & Hupdated & _ & _ & _ & _ & Hpolicy & _ & _
        & _ & _ & _ & Hplain).
  destruct (Hplain eq_refl) as [Hinputs ->].
  exists result, w'. eexists. exists attributes, (Some "1").
  split_and!; [reflexivity | exact Hupdated | reflexivity | exact Hpolicy | | reflexivity].
  rewrite Hinputs. reflexivity.
Defined.

(** X16. [update] writes at most once, bumps the revision of the agent
    policy only after the store accepted the write, and undoes nothing.
    It never creates or deletes a record; it never assigns or unassigns
    the policy, also when the request names another agent policy than
    the stored one; unlike [create] it never has a package installed; and
    it draws no id.  So when it is rejected after it handed the write
    over, the store refused the write, or the store accepted it and then
    the bump was rejected or reading the policy again was: in both of
    these the write stays. *)
Theorem update_is_not_undone :
  forall {W} (c : Collaborators W) id packagePolicy options (w : W) r w' t,
    PackagePolicyService.update c id packagePolicy options w = (r, w', t) ->
    let rest := u_rest packagePolicy in
    let user := options ≫= uo_user in
    let version := u_version packagePolicy in
    (length (revision_bumps t) <= length (updated t) <= 1)%nat
    /\ created t = [] /\ bulk_created t = [] /\ store_deleted t = []
    /\ assigned t = [] /\ unassigned t = [] /\ installed t = []
    /\ List.filter is_UuidV4 t = []
    /\ (forall e,
           r = Rejected e -> updated t <> [] ->
           exists attributes w4,
             updated t = [(id, attributes, version)]
             /\ ((soClient_update c id attributes version w4 = (Rejected e, w')
                  /\ revision_bumps t = [])
                 \/ exists w5,
                      soClient_update c id attributes version w4
                      = (Resolved (), w5)
                      /\ (agentPolicyService_bumpRevision c (np_policy_id rest)
                            user w5 = (Rejected e, w')
                          \/ exists w6,
                               agentPolicyService_bumpRevision c
                                 (np_policy_id rest) user w5 = (Resolved (), w6)
                               /\ PackagePolicyService.get c id w6
                                  = (Rejected e, w', [SoGet id])))).
Proof.
  intros W c id packagePolicy options w r w' t H rest user version.
  apply update_run in H as (t_checks & Hchecks & H).
  apply update_checks_write_nothing in Hchecks
    as (Hu & Hb & Hc & Hbc & Hd & Ha & Hun & Hi & Hdraw).
  destruct H as [(-> & e & ->)
                | (old & w1 & inputs & updated_at & w4 & Hold & Hids & Hsettings
                   & Hplain & H)].
  { rewrite Hu, Hb. split_and!; try done. cbn; lia. }
  destruct H as [(e & -> & Hupdate & ->)
                | [(w5 & e & -> & Hupdate & Hbump & ->)
                  | (w5 & w6 & -> & Hupdate & Hbump & Hget)]];
    rewrite updated_app, revision_bumps_app, created_app, bulk_created_app,
      store_deleted_app, assigned_app, unassigned_app, installed_app,
      List.filter_app, Hu, Hb, Hc, Hbc, Hd, Ha, Hun, Hi, Hdraw;
    cbn; (split; [lia|]); do 7 (split; [done|]).
  - intros e' [= <-] _. eexists _, w4. split; [done|]. by left.
  - intros e' [= <-] _. eexists _, w4. split; [done|]. right.
    exists w5. split; [done|]. by left.
  - intros e' -> _. eexists _, w4. split; [done|]. right.
    exists w5. split; [done|]. right. by exists w6.
Qed.

Lemma update_is_not_undone_witness :
  exists w' t,
    PackagePolicyService.update Scenario.collaborators_with_agent_policies_down
      "pp-1" (Sample.request "renamed").1 None Sample.world_with_policy
    = (Rejected Scenario.agent_policies_down, w', t)
    /\ assigned t = [] /\ unassigned t = []
    /\ length (updated t) = 1%nat
    /\ Mem.stored_revision Sample.world_with_policy "pp-1" = Some 1
    /\ Mem.stored_revision w' "pp-1" = Some 2.
Proof.
  destruct (PackagePolicyService.update
              Scenario.collaborators_with_agent_policies_down
              "pp-1" (Sample.request "renamed").1 None Sample.world_with_policy)
    as [[r w'] t] eqn:Hrun.
  destruct (update_is_not_undone _ _ _ _ _ _ _ _ Hrun)
    as (_ & _ & _ & _ & Hassigned & Hunassigned & _).
  assert (r = Rejected Scenario.agent_policies_down
          /\ length (updated t) = 1%nat
          /\ Mem.stored_revision Sample.world_with_policy "pp-1" = Some 1
          /\ Mem.stored_revision w' "pp-1" = Some 2) as (-> & Hupdated & Hold & Hnew)
    by (vm_compute in Hrun; injection Hrun as <- <- <-; by vm_compute).
  by exists w', t.
Defined.

(* ================================================================== *)
(** * More on delete *)
(* ================================================================== *)

Section MoreDeleteFacts.
Context {W : Type} (c : Collaborators W).

(** The calls of the [try] block of [delete]. *)
Lemma delete_try_calls id options (w : W) r w' t :
  PackagePolicyService.delete_try c id options w = (r, w', t) ->
  let skip := default false (options ≫= do_skipUnassignFromAgentPolicies) in
  let user := options ≫= do_user in
  (t = [SoGet id] /\ exists e, r = Rejected e)
  \/ (exists packagePolicy e,
         skip = false /\ r = Rejected e
         /\ t = [SoGet id;
                 UnassignPackagePolicies (pp_policy_id packagePolicy)
                   [pp_id packagePolicy] user])
  \/ (exists packagePolicy,
         t = [SoGet id]
             ++ (if skip then []
                 else [UnassignPackagePolicies (pp_policy_id packagePolicy)
                         [pp_id packagePolicy] user])
             ++ [SoDelete id]).
Proof.
  intros H skip user. unfold PackagePolicyService.delete_try in H.
  apply bind_inv in H as [(found & w1 & t1 & t2 & Hget & H & ->) | (e & Hget & ->)];
    pose proof (get_calls _ _ _ _ _ _ Hget) as ->;
    [|left; split; [done | by eexists]].
  destruct found as [packagePolicy|].
  2:{ apply throw_inv in H as (-> & _ & ->). left. split; [done | by eexists]. }
  fold skip user in H.
  apply bind_inv in H as [([] & w2 & t3 & t4 & Hunassign & H & ->) | (e & Hunassign & ->)].
  - right. right. exists packagePolicy. f_equal.
    assert (t4 = [SoDelete id]) as ->.
    { apply bind_inv in H as [([] & w3 & t5 & t6 & Hdelete & H & ->) | (e & Hdelete & ->)];
        apply call_inv in Hdelete as [_ ->]; [|done].
      by apply mret_inv in H as (_ & _ & ->). }
    f_equal. destruct skip; cbn [negb] in Hunassign.
    + by apply mret_inv in Hunassign as (_ & _ & ->).
    + by apply call_inv in Hunassign as [_ ->].
  - destruct skip eqn:Hskip; cbn [negb] in Hunassign.
    + by apply mret_inv in Hunassign as ([=] & _).
    + apply call_inv in Hunassign as [_ ->].
      right. left. by exists packagePolicy, e.
Qed.

(** One turn of the loop of [delete] pushes one entry and never throws. *)
Lemma delete_turn id options result (w : W) :
  try_catch
    (packagePolicy ← PackagePolicyService.delete_try c id options;
     mret (result ++ [PackagePolicyService.delete_success id packagePolicy]))
    (fun error =>
       mret (result ++ [PackagePolicyService.delete_failure c id error])) w
  = let '(r, w1, t1) := PackagePolicyService.delete_try c id options w in
    (Resolved
       (result ++ [match r with
                   | Resolved packagePolicy =>
                       PackagePolicyService.delete_success id packagePolicy
                   | Rejected error =>
                       PackagePolicyService.delete_failure c id error
                   end]), w1, t1).
Proof.
  unfold try_catch. rewrite run_bind.
  destruct (PackagePolicyService.delete_try c id options w) as [[[p|e] w1] t1];
    cbn; by rewrite app_nil_r.
Qed.

(** What the loop of [delete] calls, from any [result] collected so far. *)
Lemma delete_loop_calls options ids : forall result (w : W),
  let skip := default false (options ≫= do_skipUnassignFromAgentPolicies) in
  exists results w' t,
    for_of ids
      (fun result id =>
         try_catch
           (packagePolicy ← PackagePolicyService.delete_try c id options;
            mret (result ++ [PackagePolicyService.delete_success id packagePolicy]))
           (fun error =>
              mret (result ++ [PackagePolicyService.delete_failure c id error])))
      result w
    = (Resolved (result ++ results), w', t)
    /\ fetched t = ids
    /\ store_deleted t `sublist_of` ids
    /\ (length (List.filter dr_success results) <= length (store_deleted t))%nat
    /\ (if skip then unassigned t = []
        else (length (store_deleted t) <= length (unassigned t)
              <= length ids)%nat)
    /\ Forall (fun call => length call.1.2 = 1%nat /\ call.2 = options ≫= do_user)
         (unassigned t)
    /\ created t = [] /\ bulk_created t = [] /\ updated t = []
    /\ assigned t = [] /\ revision_bumps t = [].
Proof.
  intros result w skip. subst skip. revert result w.
  induction ids as [|id ids IH]; intros result w.
  - exists [], w, []. rewrite app_nil_r.
    split_and!; try done; try (cbn; lia); case_match; cbn; try done; lia.
  - cbn [for_of]. rewrite run_bind, delete_turn.
    destruct (PackagePolicyService.delete_try c id options w)
      as [[r w1] t1] eqn:Htry.
    set (entry := match r with
                  | Resolved packagePolicy =>
                      PackagePolicyService.delete_success id packagePolicy
                  | Rejected error =>
                      PackagePolicyService.delete_failure c id error
                  end).
    destruct (IH (result ++ [entry]) w1)
      as (results & w' & t & -> & Hf & Hd & Hs & Hu & Hcalls & Hc & Hbc & Hw
          & Ha & Hb).
    exists (entry :: results), w', (t1 ++ t).
    split; [by rewrite <- app_assoc|].
    rewrite fetched_app, store_deleted_app, unassigned_app, created_app,
      bulk_created_app, updated_app, assigned_app, revision_bumps_app,
      Hf, Hc, Hbc, Hw, Ha, Hb.
    apply delete_try_calls in Htry
      as [(-> & e & ->)
         | [(packagePolicy & e & Hskip & -> & ->) | (packagePolicy & ->)]].
    + cbn. split_and!; try done; try (by apply sublist_cons);
        case_match; try done; lia.
    + rewrite Hskip in Hu |- *. cbn.
      split_and!; try done; try (by apply sublist_cons); try lia;
        by constructor.
    + destruct (default false (options ≫= do_skipUnassignFromAgentPolicies));
        cbn;
        (split_and!; try done; try (by apply sublist_skip);
         try (destruct r; cbn; lia); try lia; by constructor).
Qed.

End MoreDeleteFacts.

(** X17. [delete] reads every id it is given once, in order, whatever
    happens to the ids before it.  It deletes from the store only ids it
    was given, in their order and at most once for each place in the
    list, and no more entries report success than records were handed to
    the store for deletion.  With [skipUnassignFromAgentPolicies] it
    never unassigns; without, every deletion follows an unassignment of
    its own, of the one policy, for the user of the options.  [delete]
    itself neither writes another record nor assigns or bumps a
    revision. *)
Theorem delete_unassigns_then_deletes :
  forall {W} (c : Collaborators W) ids options (w : W),
    let skip := default false (options ≫= do_skipUnassignFromAgentPolicies) in
    exists results w' t,
      PackagePolicyService.delete c ids options w = (Resolved results, w', t)
      /\ fetched t = ids
      /\ store_deleted t `sublist_of` ids
      /\ (length (List.filter dr_success results) <= length (store_deleted t))%nat
      /\ (if skip then unassigned t = []
          else (length (store_deleted t) <= length (unassigned t)
                <= length ids)%nat)
      /\ Forall (fun call => length call.1.2 = 1%nat
                             /\ call.2 = options ≫= do_user)
           (unassigned t)
      /\ created t = [] /\ bulk_created t = [] /\ updated t = []
      /\ assigned t = [] /\ revision_bumps t = [].
Proof.
  intros W c ids options w skip.
  destruct (delete_loop_calls c options ids [] w) as (results & w' & t & H).
  by exists results, w', t.
Qed.

Section MemDeleteFacts.
Context (engine : Vars -> string -> Outcome Yaml).
Context (callbacks :
           ExternalCallbackType -> option (list (ExternalCallbackFn Mem.World))).

Local Abbreviation mem := (Mem.collaborators engine callbacks).

(** One id: the record under it is gone when the [try] block ran to its
    end, the store is as it was when it threw, and no other record is
    touched. *)
Lemma mem_delete_try id options w r w' t :
  PackagePolicyService.delete_try mem id options w = (r, w', t) ->
  (forall k, k <> id -> Mem.package_policies w' !! k = Mem.package_policies w !! k)
  /\ (forall k, Mem.package_policies w !! k = None ->
                Mem.package_policies w' !! k = None)
  /\ (forall packagePolicy,
         r = Resolved packagePolicy -> Mem.package_policies w' !! id = None).
Proof.
  intros H.
  assert (forall packagePolicy w1 w2,
             (if default false (options ≫= do_skipUnassignFromAgentPolicies)
              then w2 = w1
              else agentPolicyService_unassignPackagePolicies mem
                     (pp_policy_id packagePolicy) [pp_id packagePolicy]
                     (options ≫= do_user) w1 = (Resolved (), w2)) ->
             Mem.package_policies w2 = Mem.package_policies w1) as Hstep.
  { intros packagePolicy w1 w2 Hunassign. case_match; [by subst|].
    cbn in Hunassign. by eapply mem_alter_agent_policy_store. }
  assert (forall answer w2,
             soClient_delete mem id w2 = (answer, w') ->
             (forall k, k <> id ->
                        Mem.package_policies w' !! k = Mem.package_policies w2 !! k)
             /\ (forall k, Mem.package_policies w2 !! k = None ->
                           Mem.package_policies w' !! k = None)
             /\ (answer = Resolved () -> Mem.package_policies w' !! id = None))
    as Hdelete.
  { intros answer w2. cbn. unfold Mem.mem_delete.
    destruct (Mem.package_policies w2 !! id) eqn:Hid; intros [= <- <-]; cbn.
    - split_and!.
      + intros k Hk. by rewrite lookup_delete_ne.
      + intros k Hk. destruct (decide (id = k)) as [<- | Hne];
          [by rewrite lookup_delete_eq | by rewrite lookup_delete_ne].
      + intros _. by rewrite lookup_delete_eq.
    - by split_and!. }
  apply delete_try_cases in H
    as [(packagePolicy & w1 & t1 & w2 & -> & Hget & Hunassign & Hso)
       | (e & -> & [Hget | [[Hget _] | [(p & w1 & t1 & Hget & _ & Hunassign)
                                      | (p & w1 & t1 & w2 & Hget & Hunassign & Hso)]]])];
    rewrite mem_get_run in Hget.
  - injection Hget as _ <- _. apply Hstep in Hunassign.
    destruct (Hdelete _ _ Hso) as (Hother & Hnone & Hgone).
    rewrite Hunassign in Hother, Hnone. split_and!; [done | done | auto].
  - discriminate Hget.
  - injection Hget as _ <- _. by split_and!.
  - injection Hget as _ <- _. cbn in Hunassign.
    apply mem_alter_agent_policy_store in Hunassign. rewrite Hunassign.
    by split_and!.
  - injection Hget as _ <- _. apply Hstep in Hunassign.
    destruct (Hdelete _ _ Hso) as (Hother & Hnone & Hgone).
    rewrite Hunassign in Hother, Hnone. by split_and!.
Qed.

Lemma mem_deleted options ids w results w' :
  deleted mem options ids w results w' ->
  (forall entry,
      entry ∈ results -> dr_success entry = true ->
      Mem.package_policies w' !! dr_id entry = None)
  /\ (forall id, id ∉ ids ->
                 Mem.package_policies w' !! id = Mem.package_policies w !! id)
  /\ (forall id, Mem.package_policies w !! id = None ->
                 Mem.package_policies w' !! id = None).
Proof.
  induction 1 as [w
                 |id ids w packagePolicy w1 t1 results w' Htry _ (IHgone & IHother & IHnone)
                 |id ids w error w1 t1 results w' Htry _ (IHgone & IHother & IHnone)].
  - split_and!; [|done|done]. intros entry Hentry. by apply elem_of_nil in Hentry.
  - apply mem_delete_try in Htry as (Hother & Hnone & Hgone). split_and!.
    + intros entry Hentry Hsuccess.
      apply elem_of_cons in Hentry as [-> | Hentry]; [|by apply IHgone].
      cbn. apply IHnone. by eapply Hgone.
    + intros k Hk. apply not_elem_of_cons in Hk as [Hne Hk].
      rewrite IHother by done. by apply Hother.
    + intros k Hk. apply IHnone. by apply Hnone.
  - apply mem_delete_try in Htry as (Hother & Hnone & Hgone). split_and!.
    + intros entry Hentry Hsuccess.
      apply elem_of_cons in Hentry as [-> | Hentry]; [done | by apply IHgone].
    + intros k Hk. apply not_elem_of_cons in Hk as [Hne Hk].
      rewrite IHother by done. by apply Hother.
    + intros k Hk. apply IHnone. by apply Hnone.
Qed.

End MemDeleteFacts.

(** X18. Over the in-memory store: after [delete], no record is stored
    under an id that an entry reports as deleted; the records under ids
    that were not in the list are as they were; and nothing is stored
    where nothing was. *)
Theorem delete_removes_what_it_reports :
  forall engine callbacks ids options w results w' t,
    PackagePolicyService.delete (Mem.collaborators engine callbacks) ids options w
      = (Resolved results, w', t) ->
    (forall entry,
        entry ∈ results -> dr_success entry = true ->
        Mem.package_policies w' !! dr_id entry = None)
    /\ (forall id, id ∉ ids ->
                   Mem.package_policies w' !! id = Mem.package_policies w !! id)
    /\ (forall id, Mem.package_policies w !! id = None ->
                   Mem.package_policies w' !! id = None).
Proof.
  intros engine callbacks ids options w results w' t H.
  destruct (delete_loop (Mem.collaborators engine callbacks) options ids [] w)
    as (results' & w'' & t' & Hrun & Hdeleted).
  unfold PackagePolicyService.delete in H. rewrite Hrun in H.
  injection H as <- <- <-. by eapply mem_deleted.
Qed.

Lemma delete_removes_what_it_reports_witness :
  exists results w' t,
    PackagePolicyService.delete Sample.collaborators ["pp-1"; "pp-9"] None
      Sample.world_with_two_policies
    = (Resolved results, w', t)
    /\ map dr_success results = [true; false]
    /\ Mem.package_policies w' !! "pp-1" = None
    /\ Mem.package_policies w' !! "pp-2"
       = Mem.package_policies Sample.world_with_two_policies !! "pp-2"
    /\ is_Some (Mem.package_policies w' !! "pp-2").
Proof.
  destruct (PackagePolicyService.delete Sample.collaborators ["pp-1"; "pp-9"]
              None Sample.world_with_two_policies)
    as [[[results|e] w'] t] eqn:Hrun;
    [|vm_compute in Hrun; discriminate Hrun].
  destruct (delete_removes_what_it_reports _ _ _ _ _ _ _ _ Hrun)
    as (Hgone & Hother & _).
  assert (map dr_success results = [true; false]
          /\ (exists entry, entry ∈ results /\ dr_success entry = true
                            /\ dr_id entry = "pp-1"))
    as (Hsuccess & entry & Hentry & Htrue & Hid).
  { vm_compute in Hrun. injection Hrun as <- _ _. split; [reflexivity|].
    eexists. split; [by apply elem_of_cons; left|]. by split. }
  exists results, w', t.
  split_and!; [reflexivity | exact Hsuccess | | |].
  - rewrite <- Hid. by apply Hgone.
  - apply Hother. intros Hin.
    repeat (apply elem_of_cons in Hin as [[=] | Hin]).
    by apply elem_of_nil in Hin.
  - rewrite Hother.
    + vm_compute. by eexists.
    + intros Hin. repeat (apply elem_of_cons in Hin as [[=] | Hin]).
      by apply elem_of_nil in Hin.
Defined.

(* ================================================================== *)
(** * More on runExternalCallbacks *)
(* ================================================================== *)

Lemma callback_calls_app t1 t2 :
  callback_calls (t1 ++ t2) = callback_calls t1 ++ callback_calls t2.
Proof. apply omap_app. Qed.

Lemma validations_app t1 t2 :
  validations (t1 ++ t2) = validations t1 ++ validations t2.
Proof. apply omap_app. Qed.

Section CallbackFacts.
Context {W : Type} (c : Collaborators W).

(** The loop over the callbacks, from any policy reached so far. *)
Lemma callbacks_loop kind (callbacks : list (ExternalCallbackFn W)) :
  forall updatedNewData (w : W) r w' t,
    for_of callbacks
      (fun updatedNewData callback =>
         result ← call (ExternalCallbackCall updatedNewData)
                    (callback updatedNewData);
         call_pure (SchemaValidate kind result)
           (PackagePolicyService.schema_validate c kind result))
      updatedNewData w = (r, w', t) ->
    exists results,
      validations t = map (fun result => (kind, result)) results
      /\ (length results <= length (callback_calls t) <= length callbacks)%nat
      /\ (length (callback_calls t) <= S (length results))%nat
      /\ (callback_calls t <> [] ->
          head (callback_calls t) = Some updatedNewData)
      /\ (forall i argument,
             callback_calls t !! S i = Some argument ->
             exists result,
               results !! i = Some result
               /\ PackagePolicyService.schema_validate c kind result
                  = Resolved argument)
      /\ (forall final,
             r = Resolved final ->
             length (callback_calls t) = length callbacks
             /\ length results = length callbacks
             /\ match last results with
                | Some result =>
                    PackagePolicyService.schema_validate c kind result
                    = Resolved final
                | None => final = updatedNewData
                end).
Proof.
  induction callbacks as [|callback callbacks IH]; intros acc w r w' t H.
  - apply mret_inv in H as (-> & _ & ->). exists [].
    split_and!; try done; try (cbn; lia). by intros final [= <-].
  - cbn [for_of] in H.
    apply bind_inv in H as [(acc' & w1 & t1 & t2 & Hturn & H & ->) | (e & Hturn & ->)].
    + apply bind_resolved_inv in Hturn as (result & w2 & t3 & t4 & Hcall & Hvalid & ->).
      apply call_inv in Hcall as [_ ->].
      apply call_pure_inv in Hvalid as (Hvalid & _ & ->).
      destruct (IH _ _ _ _ _ H)
        as (results & Hv & (Hle1 & Hle2) & Hle3 & Hhead & Hnext & Hfinal).
      exists (result :: results).
      rewrite !validations_app, !callback_calls_app, Hv. cbn.
      split_and!; try done; try lia.
      * intros [|i] argument Hi; cbn in Hi.
        -- exists result. split; [done|]. rewrite <- Hvalid. f_equal.
           destruct (callback_calls t2) as [|a rest] eqn:Hcalls; [done|].
           injection Hi as <-. specialize (Hhead ltac:(done)).
           by injection Hhead as ->.
        -- by apply Hnext.
      * intros final ->. destruct (Hfinal final eq_refl) as (Hn1 & Hn2 & Hlast).
        split_and!; [lia | lia |].
        destruct results as [|result' results'].
        -- cbn in Hlast |- *. rewrite Hlast. by symmetry.
        -- change (last (result :: result' :: results'))
             with (last (result' :: results')).
           destruct (last (result' :: results')) eqn:Hl; [exact Hlast|].
           by apply last_None in Hl.
    + apply bind_inv in Hturn as [(result & w2 & t3 & t4 & Hcall & Hvalid & ->) | (e' & Hcall & _)].
      * apply call_inv in Hcall as [_ ->].
        apply call_pure_inv in Hvalid as (Hvalid & _ & ->).
        exists [result]. cbn. split_and!; try done; try lia.
      * apply call_inv in Hcall as [_ ->].
        exists []. cbn. split_and!; try done; try lia.
Qed.

(** The loop calls the callbacks in their order, each with what the one
    before it left. *)
Lemma callbacks_loop_threaded kind (callbacks : list (ExternalCallbackFn W)) :
  forall updatedNewData (w : W) r w' t,
    for_of callbacks
      (fun updatedNewData callback =>
         result ← call (ExternalCallbackCall updatedNewData)
                    (callback updatedNewData);
         call_pure (SchemaValidate kind result)
           (PackagePolicyService.schema_validate c kind result))
      updatedNewData w = (r, w', t) ->
    threaded c kind callbacks updatedNewData w r w' t.
Proof.
  induction callbacks as [|callback callbacks IH]; intros acc w r w' t H.
  - apply mret_inv in H as (-> & -> & ->). constructor.
  - cbn [for_of] in H.
    apply bind_inv in H as [(acc' & w1 & t1 & t2 & Hturn & H & ->) | (e & Hturn & ->)].
    + apply bind_resolved_inv in Hturn as (result & w2 & t3 & t4 & Hcall & Hvalid & ->).
      apply call_inv in Hcall as [Hcall ->].
      apply call_pure_inv in Hvalid as (Hvalid & -> & ->).
      eapply threaded_next; [exact Hcall | by symmetry | by apply IH].
    + apply bind_inv in Hturn as [(result & w2 & t3 & t4 & Hcall & Hvalid & ->) | (e' & Hcall & He)].
      * apply call_inv in Hcall as [Hcall ->].
        apply call_pure_inv in Hvalid as (Hvalid & -> & ->).
        eapply threaded_schema_throws; [exact Hcall | by symmetry].
      * apply call_inv in Hcall as [Hcall ->]. injection He as <-.
        by eapply threaded_callback_throws.
Qed.

End CallbackFacts.

(** X19. With callbacks registered, [runExternalCallbacks] looks them
    up and then goes through them as [threaded] says: in the order of the
    registry, the first called with the policy given and in the world as
    it is, every later one called with what the schema of the callback
    type answered for the result of the one before, in the world that one
    left; it resolves with what that schema answered for the result of
    the last, and a callback or a validation that throws ends the run,
    the callbacks after it not called.  Hence no callback is called more
    than once, every result of a callback is handed to the schema of the
    callback type and to no other, and when the run resolves every
    callback was called. *)
Theorem runExternalCallbacks_threads_the_policy :
  forall {W} (c : Collaborators W) kind newPackagePolicy (w : W) callbacks
         r w' t,
    getExternalCallbacks c kind w = Some callbacks ->
    callbacks <> [] ->
    PackagePolicyService.runExternalCallbacks c kind newPackagePolicy w
      = (r, w', t) ->
    (exists t',
        t = GetExternalCallbacks kind :: t'
        /\ threaded c kind callbacks newPackagePolicy w r w' t')
    /\ exists results,
      validations t = map (fun result => (kind, result)) results
      /\ head (callback_calls t) = Some newPackagePolicy
      /\ (length results <= length (callback_calls t) <= length callbacks)%nat
      /\ (length (callback_calls t) <= S (length results))%nat
      /\ (forall i argument,
             callback_calls t !! S i = Some argument ->
             exists result,
               results !! i = Some result
               /\ PackagePolicyService.schema_validate c kind result
                  = Resolved argument)
      /\ (forall final,
             r = Resolved final ->
             length (callback_calls t) = length callbacks
             /\ exists result,
                  last results = Some result
                  /\ PackagePolicyService.schema_validate c kind result
                     = Resolved final).
Proof.
  intros W c kind newPackagePolicy w callbacks r w' t Hcallbacks Hne H.
  unfold PackagePolicyService.runExternalCallbacks in H.
  apply bind_inv in H as [(found & w1 & t1 & t2 & Hfound & H & ->) | (e & Hfound & _)];
    apply call_total_inv in Hfound as (found' & Hfound & Heq & ->); [|done].
  cbv beta in Hfound. rewrite Hcallbacks in Hfound.
  injection Hfound as <- <-. injection Heq as ->.
  destruct callbacks as [|callback rest]; [done|].
  split.
  { exists t2. split; [done|]. by apply callbacks_loop_threaded. }
  pose proof (callbacks_loop c kind (callback :: rest) _ _ _ _ _ H)
    as (results & Hv & Hle & Hle' & Hhead & Hnext & Hfinal).
  change (validations ([GetExternalCallbacks kind] ++ t2)) with (validations t2).
  change (callback_calls ([GetExternalCallbacks kind] ++ t2))
    with (callback_calls t2).
  exists results. split_and!; try done; try lia.
  - apply Hhead. clear -H. cbn [for_of] in H.
    apply bind_inv in H as [(? & ? & ? & ? & Hturn & _ & ->) | (e & Hturn & _)].
    + apply bind_resolved_inv in Hturn as (? & ? & ? & ? & Hcall & _ & ->).
      by apply call_inv in Hcall as [_ ->].
    + apply bind_inv in Hturn as [(? & ? & ? & ? & Hcall & _ & ->) | (e' & Hcall & _)];
        by apply call_inv in Hcall as [_ ->].
  - intros final ->. destruct (Hfinal final eq_refl) as (Hn1 & Hn2 & Hlast).
    split; [done|]. destruct (last results) as [result|] eqn:Hl; [by eexists|].
    apply last_None in Hl. by rewrite Hl in Hn2.
Qed.

Lemma runExternalCallbacks_threads_the_policy_witness :
  (exists final w' t,
      PackagePolicyService.runExternalCallbacks
        Scenario.collaborators_with_callbacks packagePolicyCreate
        (Sample.policy "nginx" None) Sample.world
      = (Resolved final, w', t)
      /\ length (callback_calls t) = 2%nat
      /\ np_name final = "nginx-a-b")
  /\ (exists w' t,
         PackagePolicyService.runExternalCallbacks
           Scenario.collaborators_with_callbacks packagePolicyUpdate
           (Sample.policy "nginx" None) Sample.world
         = (Rejected Scenario.callback_down, w', t)
         /\ map np_name (callback_calls t) = ["nginx"; "nginx-a"]).
Proof.
  split.
  - destruct (PackagePolicyService.runExternalCallbacks
                Scenario.collaborators_with_callbacks packagePolicyCreate
                (Sample.policy "nginx" None) Sample.world)
      as [[r w'] t] eqn:Hrun.
    destruct (runExternalCallbacks_threads_the_policy
                Scenario.collaborators_with_callbacks packagePolicyCreate
                (Sample.policy "nginx" None) Sample.world
                [Scenario.renaming "-a"; Scenario.renaming "-b"]
                _ _ _ eq_refl ltac:(done) Hrun)
      as [(t' & -> & Hthreaded) _].
    inversion Hthreaded as [| ? ? ? ? ? ? Ha | ? ? ? ? ? ? ? Ha Hv
                            | ? ? ? ? result w1 validated ? ? t1 Ha Hv Hrest];
      subst; [discriminate Ha | discriminate Hv |].
    injection Ha as <- <-. injection Hv as <-.
    inversion Hrest as [| ? ? ? ? ? ? Hb | ? ? ? ? ? ? ? Hb Hv
                        | ? ? ? ? result w1 validated ? ? t2 Hb Hv Hlast];
      subst; [discriminate Hb | discriminate Hv |].
    injection Hb as <- <-. injection Hv as <-.
    inversion Hlast; subst.
    eexists _, _, _. split_and!; reflexivity.
  - destruct (PackagePolicyService.runExternalCallbacks
                Scenario.collaborators_with_callbacks packagePolicyUpdate
                (Sample.policy "nginx" None) Sample.world)
      as [[r w'] t] eqn:Hrun.
    destruct (runExternalCallbacks_threads_the_policy
                Scenario.collaborators_with_callbacks packagePolicyUpdate
                (Sample.policy "nginx" None) Sample.world
                [Scenario.renaming "-a"; Scenario.failing; Scenario.renaming "-b"]
                _ _ _ eq_refl ltac:(done) Hrun)
      as [(t' & -> & Hthreaded) _].
    inversion Hthreaded as [| ? ? ? ? ? ? Ha | ? ? ? ? ? ? ? Ha Hv
                            | ? ? ? ? result w1 validated ? ? t1 Ha Hv Hrest];
      subst; [discriminate Ha | discriminate Hv |].
    injection Ha as <- <-. injection Hv as <-.
    inversion Hrest as [| ? ? ? ? ? ? Hb | ? ? ? ? ? ? ? Hb Hv
                        | ? ? ? ? result w1 validated ? ? t2 Hb Hv Hlast];
      subst; [| discriminate Hb | discriminate Hb].
    injection Hb as <- <-.
    eexists _, _. split; reflexivity.
Defined.

(* ================================================================== *)
(** * What create persists, and reading it back *)
(* ================================================================== *)

Lemma compile_calls_install_nothing t :
  Forall (fun ev => is_compile_call ev = true) t -> installed t = [].
Proof. induction 1 as [|ev t Hev _ IH]; [done|]. by destruct ev. Qed.

Section CreateInputs.
Context {W : Type} (c : Collaborators W).

(** The inputs a resolved [create] persisted, and what it had
    installed. *)
Lemma create_resolved_inputs packagePolicy options (w : W) result w' t :
  PackagePolicyService.create c packagePolicy options w = (Resolved result, w', t) ->
  exists packagePolicyId inputs isoDate,
    created t
    = [(packagePolicyId,
        PackagePolicyService.new_attributes packagePolicy inputs
          (np_policy_id packagePolicy) isoDate (options ≫= co_user))]
    /\ Forall2 same_settings (np_inputs packagePolicy) inputs
    /\ match np_package packagePolicy with
       | Some package =>
           if truthy (Some (pkg_name package))
           then installed t = [pkg_name package]
           else installed t = []
                /\ inputs = map (assignStreamIdToInput packagePolicyId)
                              (np_inputs packagePolicy)
       | None =>
           installed t = []
           /\ inputs = map (assignStreamIdToInput packagePolicyId)
                         (np_inputs packagePolicy)
       end.
Proof.
  intros H. unfold PackagePolicyService.create in H.
  apply bind_resolved_inv in H as (parent & w1 & t1 & t2 & Hparent & H & ->).
  apply call_inv in Hparent as [Hparent ->].
  destruct parent as [parent|]; [|by apply throw_inv in H as ([=] & _)].
  destruct (ap_is_managed parent); [by apply throw_inv in H as ([=] & _)|].
  destruct (List.find _ _); [by apply throw_inv in H as ([=] & _)|].
  apply bind_resolved_inv in H as (pid & w2 & t_id & t3 & Hid & H & ->).
  apply bind_resolved_inv in H as (inputs & w3 & t_pkg & t4 & Hpkg & H & ->).
  apply bind_resolved_inv in H as (iso & w4 & t5 & t6 & Hiso & H & ->).
  apply call_total_inv in Hiso as (iso' & Hiso & [= <-] & ->).
  apply bind_resolved_inv in H as (so & w5 & t7 & t8 & Hso & H & ->).
  apply call_inv in Hso as [Hso ->].
  apply bind_resolved_inv in H as ([] & w6 & t9 & t10 & Hassign & H & ->).
  apply call_inv in Hassign as [Hassign ->].
  apply mret_inv in H as (_ & _ & ->).
  assert (created t_id = [] /\ installed t_id = []) as [Hc_id Hi_id].
  { unfold PackagePolicyService.choose_id in Hid. destruct (truthy _).
    - by apply mret_inv in Hid as (_ & _ & ->).
    - by apply call_total_inv in Hid as (? & _ & _ & ->). }
  pose proof (create_package_calls _ _ _ _ _ _ _ Hpkg) as Hcalls.
  apply preparation_writes_nothing in Hcalls as (Hc_pkg & _).
  exists pid, inputs, iso.
  rewrite !created_app, !installed_app, Hc_id, Hi_id, Hc_pkg.
  split; [done|].
  destruct (np_package packagePolicy) as [package|].
  2:{ apply mret_inv in Hpkg as ([= ->] & _ & ->).
      split_and!; [apply same_settings_assign | done | done]. }
  destruct (truthy (Some (pkg_name package))).
  2:{ apply mret_inv in Hpkg as ([= ->] & _ & ->).
      split_and!; [apply same_settings_assign | done | done]. }
  apply bind_resolved_inv in Hpkg as ([[] pkgInfo] & ? & ? & ? & Hboth & Hpkg & ->).
  apply Promise_all2_inv in Hboth
    as (? & ? & ? & ? & ? & Hensure & Hinfo & -> & _).
  apply call_inv in Hensure as [_ ->]. apply call_inv in Hinfo as [_ ->].
  apply bind_resolved_inv in Hpkg as (? & ? & t_limited & t_compile & Hlimited & Hpkg & ->).
  assert (installed t_limited = []) as Hi_limited.
  { destruct (isPackageLimited c pkgInfo);
      [|by apply mret_inv in Hlimited as (_ & _ & ->)].
    apply bind_resolved_inv in Hlimited as (? & ? & ? & ? & Hget & Hlimited & ->).
    apply call_inv in Hget as [_ ->].
    repeat case_match;
      first [ by apply mret_inv in Hlimited as (_ & _ & ->)
            | by apply throw_inv in Hlimited as (_ & _ & ->) ]. }
  pose proof (compilePackagePolicyInputs_calls _ _ _ _ _ _ _ Hpkg) as Hcompile.
  apply compile_calls_install_nothing in Hcompile.
  apply compilePackagePolicyInputs_resolved in Hpkg. split.
  - eapply same_settings_compiled; [apply same_settings_assign | exact Hpkg].
  - rewrite !installed_app, Hi_limited, Hcompile. reflexivity.
Qed.

End CreateInputs.

(** X20. What a resolved [create] handed to the store is the request:
    its name, description, namespace, flag, agent policy, output and
    package, and its inputs with their settings, the ids of the streams
    and the compiled artifacts aside.  When the request names a package,
    [create] had that package installed, once; when it names none, or
    one with an empty name, nothing was installed and the inputs are
    those of the request with only the stream ids replaced, whatever
    compiled artifacts they carry. *)
Theorem create_persists_the_request :
  forall {W} (c : Collaborators W) packagePolicy options (w : W) result w' t,
    PackagePolicyService.create c packagePolicy options w
      = (Resolved result, w', t) ->
    exists packagePolicyId attributes,
      created t = [(packagePolicyId, attributes)]
      /\ a_name attributes = np_name packagePolicy
      /\ a_description attributes = np_description packagePolicy
      /\ a_namespace attributes = np_namespace packagePolicy
      /\ a_enabled attributes = np_enabled packagePolicy
      /\ a_policy_id attributes = np_policy_id packagePolicy
      /\ a_output_id attributes = np_output_id packagePolicy
      /\ a_package attributes = np_package packagePolicy
      /\ Forall2 same_settings (np_inputs packagePolicy) (a_inputs attributes)
      /\ (forall package,
             np_package packagePolicy = Some package -> pkg_name package <> "" ->
             installed t = [pkg_name package])
      /\ (truthy (pkg_name <$> np_package packagePolicy) = false ->
          installed t = []
          /\ a_inputs attributes
             = map (assignStreamIdToInput packagePolicyId)
                 (np_inputs packagePolicy)).
Proof.
  intros W c packagePolicy options w result w' t H.
  apply create_resolved_inputs in H
    as (pid & inputs & iso & Hcreated & Hsettings & Hpackage).
  exists pid. eexists. split; [exact Hcreated|]. cbn.
  split_and!; try done.
  - intros package Hsome Hname. rewrite Hsome in Hpackage.
    cbv beta iota in Hpackage.
    destruct (truthy (Some (pkg_name package))) eqn:Htruthy; [done|].
    by destruct (pkg_name package).
  - intros Hnone. destruct (np_package packagePolicy) as [package|]; [|done].
    change (truthy (Some (pkg_name package)) = false) in Hnone.
    by rewrite Hnone in Hpackage.
Qed.

Lemma create_persists_the_request_witness :
  exists result w' t,
    PackagePolicyService.create Sample.collaborators
      (Sample.policy "nginx-1" (Some Sample.nginx_package))
      (Sample.with_id "pp-1") Sample.world
    = (Resolved result, w', t)
    /\ installed t = ["nginx"]
    /\ exists packagePolicyId attributes,
         created t = [(packagePolicyId, attributes)]
         /\ a_name attributes = "nginx-1"
         /\ map i_enabled (a_inputs attributes) = [true; false].
Proof.
  destruct (PackagePolicyService.create Sample.collaborators
              (Sample.policy "nginx-1" (Some Sample.nginx_package))
              (Sample.with_id "pp-1") Sample.world)
    as [[[result|e] w'] t] eqn:Hrun;
    [|vm_compute in Hrun; discriminate Hrun].
  exists result, w', t. split; [reflexivity|].
  destruct (create_persists_the_request _ _ _ _ _ _ _ Hrun)
    as (pid & attributes & Hcreated & Hname & _ & _ & _ & _ & _ & _ & Hsettings
        & Hinstalled & _).
  split; [by apply (Hinstalled Sample.nginx_package)|].
  exists pid, attributes. split_and!; [exact Hcreated | exact Hname |].
  cbn in Hsettings.
  apply Forall2_cons_inv_l in Hsettings as (x & xs & (_ & Hx & _) & Hsettings & ->).
  apply Forall2_cons_inv_l in Hsettings as (y & ys & (_ & Hy & _) & Hsettings & ->).
  apply Forall2_nil_inv_l in Hsettings as ->. cbn. by rewrite Hx, Hy.
Defined.

(** X21. Over the in-memory store, what [create] resolved with is what
    [get] then answers under the id of the policy returned; reading
    leaves the world as it is. *)
Theorem create_then_get :
  forall engine callbacks packagePolicy options w result w' t,
    PackagePolicyService.create (Mem.collaborators engine callbacks)
      packagePolicy options w = (Resolved result, w', t) ->
    PackagePolicyService.get (Mem.collaborators engine callbacks)
      (pp_id result) w'
    = (Resolved (Some result), w', [SoGet (pp_id result)]).
Proof.
  intros engine callbacks packagePolicy options w result w' t H.
  apply create_resolved in H as
      (pid & t_id & inputs & t_prepare & iso & w_clock & w_date & so & w_so
       & _ & _ & _ & _ & Hso & Hassign & -> & _).
  cbn in Hassign. apply mem_alter_agent_policy_store in Hassign.
  cbn in Hso. unfold Mem.mem_create in Hso.
  destruct (Mem.package_policies w_date !! pid); [done|].
  injection Hso as <- <-.
  rewrite mem_get_run, Hassign. cbn. by rewrite lookup_insert_eq.
Qed.

Lemma create_then_get_witness :
  exists result w' t,
    PackagePolicyService.create Sample.collaborators
      (Sample.policy "nginx-1" (Some Sample.nginx_package)) None Sample.world
    = (Resolved result, w', t)
    /\ pp_id result = "uuid-0"
    /\ PackagePolicyService.get Sample.collaborators "uuid-0" w'
       = (Resolved (Some result), w', [SoGet "uuid-0"]).
Proof.
  destruct (PackagePolicyService.create Sample.collaborators
              (Sample.policy "nginx-1" (Some Sample.nginx_package)) None
              Sample.world)
    as [[[result|e] w'] t] eqn:Hrun;
    [|vm_compute in Hrun; discriminate Hrun].
  pose proof (create_then_get Sample.engine (fun _ => None) _ _ _ _ _ _ Hrun)
    as Hget.
  assert (pp_id result = "uuid-0") as Hid
    by (vm_compute in Hrun; by injection Hrun as <- _ _).
  exists result, w', t. rewrite Hid in Hget. by split_and!.
Defined.
